(** * System information server: a shallow embedding of
      [system_info_server.py] and its specification properties.

    The server's tools are modelled as functions in an exception monad.
    Every query of the operating system (psutil, platform, the clock,
    the netstat sub-process) is an input of the model: its outcome is
    either a value or a raised exception.  Text is a [string] whose
    characters are the code points below 256; a Python [int] is a [Z];
    a Python [float] is a binary64 value of [SpecFloat]. *)

From Stdlib Require Import ZArith NArith List Bool Ascii String Lia.
From Stdlib Require Import Numbers.DecimalString.
From Stdlib Require Import Numbers.DecimalPos Numbers.DecimalZ.
From Stdlib Require Import Floats.SpecFloat.
Import ListNotations.

Local Open Scope string_scope.
Local Open Scope Z_scope.

(** ** Exceptions *)

Module Exc.

(** The exception classes that the server's code or its libraries name,
    with the two roots that [except Exception] tells apart. *)
Inductive exc_class : Type :=
  | KeyboardInterrupt
  | SystemExit
  | GenericException
  | ValueError
  | UnicodeDecodeError
  | OverflowError
  | ZeroDivisionError
  | AttributeError
  | OSError
  | FileNotFoundError
  | PermissionError
  | IndexError
  | ValidationError.

(** [issubclass c Exception]. *)
Definition is_Exception (c : exc_class) : bool :=
  match c with
  | KeyboardInterrupt | SystemExit => false
  | _ => true
  end.

(** [issubclass c OSError]. *)
Definition is_OSError (c : exc_class) : bool :=
  match c with
  | OSError | FileNotFoundError | PermissionError => true
  | _ => false
  end.

(** [issubclass c AttributeError]. *)
Definition is_AttributeError (c : exc_class) : bool :=
  match c with
  | AttributeError => true
  | _ => false
  end.

(** An exception object: its class and the text [str(e)] gives. *)
Record exn : Type := mk_exn { exc_type : exc_class; exc_str : string }.

(** The outcome of running a piece of Python code. *)
Inductive result (A : Type) : Type :=
  | Return (a : A)
  | Raise (e : exn).

Arguments Return {A} a.
Arguments Raise {A} e.

Definition bind {A B : Type} (m : result A) (k : A -> result B) : result B :=
  match m with
  | Return a => k a
  | Raise e => Raise e
  end.

(** [try: body  except <classes> as e: handler e]; [catches] decides
    whether the class of the raised exception is one of those named. *)
Definition try_except {A : Type} (body : result A)
    (catches : exc_class -> bool) (handler : exn -> result A) : result A :=
  match body with
  | Return a => Return a
  | Raise e => if catches (exc_type e) then handler e else Raise e
  end.

Definition raises {A : Type} (m : result A) : Prop :=
  exists e, m = Raise e.

Definition returns {A : Type} (m : result A) : Prop :=
  exists a, m = Return a.

End Exc.

Import Exc.

Declare Scope py_scope.
Delimit Scope py_scope with py.
Notation "x <- m ;; k" := (bind m (fun x => k))
  (at level 61, m at next level, right associativity) : py_scope.
Local Open Scope py_scope.

(** ** Python text primitives *)

Module PyStr.

Definition ord (c : ascii) : N := N_of_ascii c.

Definition in_range (lo hi n : N) : bool := ((lo <=? n) && (n <=? hi))%N.

(** [str.isspace] on one character: the white space of [str.strip],
    of [str.split] and of the regular expression class [\s]. *)
Definition isspace (c : ascii) : bool :=
  let n := ord c in
  in_range 9 13 n || in_range 28 32 n || (n =? 133)%N || (n =? 160)%N.

(** The line boundaries of [str.splitlines]. *)
Definition islinebreak (c : ascii) : bool :=
  let n := ord c in
  in_range 10 13 n || in_range 28 30 n || (n =? 133)%N.

Definition CR : ascii := ascii_of_N 13.
Definition LF : ascii := ascii_of_N 10.

(** [s.splitlines()]: the lines of [s] without their boundaries; a
    carriage return followed by a line feed is one boundary, and a final
    boundary opens no empty last line. *)
Fixpoint splitlines (s : string) : list string :=
  match s with
  | EmptyString => []
  | String c rest =>
      if islinebreak c then
        if Ascii.eqb c CR then
          match rest with
          | String c' rest' =>
              if Ascii.eqb c' LF then EmptyString :: splitlines rest'
              else EmptyString :: splitlines rest
          | EmptyString => EmptyString :: splitlines rest
          end
        else EmptyString :: splitlines rest
      else
        match splitlines rest with
        | [] => [String c EmptyString]
        | l :: ls => String c l :: ls
        end
  end.

Fixpoint lstrip (s : string) : string :=
  match s with
  | EmptyString => EmptyString
  | String c rest => if isspace c then lstrip rest else s
  end.

Fixpoint rstrip (s : string) : string :=
  match s with
  | EmptyString => EmptyString
  | String c rest =>
      match rstrip rest with
      | EmptyString => if isspace c then EmptyString else String c EmptyString
      | r => String c r
      end
  end.

(** [s.strip()]. *)
Definition strip (s : string) : string := rstrip (lstrip s).

(** [re.split(r"\s+", s)], scanning left to right; [in_run] tells that
    the previous character belonged to a white-space run, whose field
    separator has been emitted already. *)
Fixpoint re_split_ws_from (in_run : bool) (s : string) : list string :=
  match s with
  | EmptyString => [EmptyString]
  | String c rest =>
      if isspace c then
        if in_run then re_split_ws_from true rest
        else EmptyString :: re_split_ws_from true rest
      else
        match re_split_ws_from false rest with
        | [] => [String c EmptyString]
        | f :: fs => String c f :: fs
        end
  end.

Definition re_split_ws (s : string) : list string := re_split_ws_from false s.

(** [s.startswith(p)]. *)
Fixpoint startswith (p s : string) : bool :=
  match p, s with
  | EmptyString, _ => true
  | String _ _, EmptyString => false
  | String a p', String b s' => Ascii.eqb a b && startswith p' s'
  end.

(** [needle in s]. *)
Fixpoint contains (needle s : string) : bool :=
  startswith needle s ||
  match s with
  | EmptyString => false
  | String _ rest => contains needle rest
  end.

(** [str.lower] on one character. *)
Definition lower_char (c : ascii) : ascii :=
  let n := ord c in
  if in_range 65 90 n || in_range 192 214 n || in_range 216 222 n
  then ascii_of_N (n + 32) else c.

Fixpoint lower (s : string) : string :=
  match s with
  | EmptyString => EmptyString
  | String c rest => String (lower_char c) (lower rest)
  end.

(** [str(n)] for an integer. *)
Definition str_of_int (n : Z) : string := NilZero.string_of_int (Z.to_int n).

(** *** [repr] of a text, used by the interpreter's error messages *)

Definition hex_digit (n : N) : ascii :=
  if (n <? 10)%N then ascii_of_N (48 + n) else ascii_of_N (87 + n).

Definition quote1 : ascii := ascii_of_N 39.
Definition quote2 : ascii := ascii_of_N 34.
Definition backslash : ascii := ascii_of_N 92.

Definition isprintable (c : ascii) : bool :=
  let n := ord c in
  in_range 32 126 n || (in_range 161 255 n && negb (n =? 173)%N).

Definition repr_char (q c : ascii) : string :=
  let n := ord c in
  if Ascii.eqb c q || Ascii.eqb c backslash then String backslash (String c EmptyString)
  else if (n =? 9)%N then String backslash "t"
  else if (n =? 10)%N then String backslash "n"
  else if (n =? 13)%N then String backslash "r"
  else if isprintable c then String c EmptyString
  else String backslash
         (String "x" (String (hex_digit (n / 16)) (String (hex_digit (n mod 16)) EmptyString))).

Fixpoint repr_body (q : ascii) (s : string) : string :=
  match s with
  | EmptyString => EmptyString
  | String c rest => repr_char q c ++ repr_body q rest
  end.

Fixpoint has_char (c : ascii) (s : string) : bool :=
  match s with
  | EmptyString => false
  | String c' rest => Ascii.eqb c c' || has_char c rest
  end.

(** [repr(s)]. *)
Definition repr (s : string) : string :=
  let q := if has_char quote1 s && negb (has_char quote2 s) then quote2 else quote1 in
  String q (repr_body q s ++ String q EmptyString).

Fixpoint take (n : nat) (s : string) : string :=
  match n, s with
  | O, _ => EmptyString
  | S _, EmptyString => EmptyString
  | S n', String c rest => String c (take n' rest)
  end.

End PyStr.

Import PyStr.

(** ** [int(text)] *)

Module PyInt.

(** White space that [int] skips around the literal. *)
Definition int_space (c : ascii) : bool :=
  let n := ord c in
  in_range 9 13 n || (n =? 32)%N || (n =? 133)%N || (n =? 160)%N.

Definition is_digit (c : ascii) : bool := in_range 48 57 (ord c).

Definition digit_value (c : ascii) : Z := Z.of_N (ord c) - 48.

Definition underscore : ascii := ascii_of_N 95.

(** The scanner of the digit part: [prev_us] tells that the previous
    character was an underscore.  It returns the value and the number of
    digits read, and the text left over, or [None] when an underscore is
    doubled or ends the digit part. *)
Fixpoint scan_digits (prev_us : bool) (acc : Z) (count : nat) (s : string)
  : option (Z * nat * string) :=
  match s with
  | EmptyString => if prev_us then None else Some (acc, count, s)
  | String c rest =>
      if is_digit c then scan_digits false (10 * acc + digit_value c) (S count) rest
      else if Ascii.eqb c underscore then
        if prev_us then None else scan_digits true acc count rest
      else if prev_us then None else Some (acc, count, s)
  end.

Fixpoint skip_space (s : string) : string :=
  match s with
  | EmptyString => EmptyString
  | String c rest => if int_space c then skip_space rest else s
  end.

(** The limit [sys.get_int_max_str_digits()] of the interpreter, at its
    default. *)
Definition max_str_digits : nat := 4300.

Definition invalid_literal (s : string) : exn :=
  mk_exn ValueError ("invalid literal for int() with base 10: " ++ take 200 (repr s)).

Definition too_many_digits (count : nat) : exn :=
  mk_exn ValueError
    ("Exceeds the limit (" ++ str_of_int (Z.of_nat max_str_digits)
       ++ " digits) for integer string conversion: value has "
       ++ str_of_int (Z.of_nat count)
       ++ " digits; use sys.set_int_max_str_digits() to increase the limit").

(** [int(s)] in base ten: optional sign, digits with single underscores
    between them, white space around. *)
Definition py_int (s : string) : result Z :=
  let body := skip_space s in
  let '(negative, digits) :=
    match body with
    | String "-" rest => (true, rest)
    | String "+" rest => (false, rest)
    | _ => (false, body)
    end in
  match digits with
  | EmptyString => Raise (invalid_literal s)
  | String c _ =>
      if Ascii.eqb c underscore then Raise (invalid_literal s)
      else
        match scan_digits false 0 0 digits with
        | None => Raise (invalid_literal s)
        | Some (v, count, rest) =>
            if (max_str_digits <? count)%nat then Raise (too_many_digits count)
            else
              match count, skip_space rest with
              | S _, EmptyString => Return (if negative then - v else v)
              | _, _ => Raise (invalid_literal s)
              end
        end
  end.

End PyInt.

Import PyInt.

(** ** The port lookup *)

(** [class NetstatPortInfo(BaseModel)]. *)
Record NetstatPortInfo : Type := mk_NetstatPortInfo {
  port : Z;
  pid : option Z;
  protocol : option string;
  local_address : option string;
  foreign_address : option string;
  state : option string;
  raw_line : string
}.

(** The record both failure branches build: every optional field is
    [None] and [raw_line] carries the text given. *)
Definition absent_record (p : Z) (raw : string) : NetstatPortInfo :=
  mk_NetstatPortInfo p None None None None None raw.

(** The text [f":{port} "] looked for in a line. *)
Definition port_pattern (p : Z) : string := ":" ++ str_of_int p ++ " ".

(** The test of the two nested [if]s: the line mentions the port and
    splits into at least five fields. *)
Definition line_hits (p : Z) (line : string) : bool :=
  contains (port_pattern p) line
  && (5 <=? List.length (re_split_ws (strip line)))%nat.

(** [parts[i]] for an index counted from the start. *)
Definition item (parts : list string) (i : nat) : result string :=
  match nth_error parts i with
  | Some f => Return f
  | None => Raise (mk_exn IndexError "list index out of range")
  end.

(** [parts[-1]]. *)
Definition item_last (parts : list string) : result string :=
  match parts with
  | [] => Raise (mk_exn IndexError "list index out of range")
  | f :: fs => Return (last fs f)
  end.

(** The body of the innermost [if]: the record built from the fields. *)
Definition parse_line (p : Z) (line : string) (parts : list string)
  : result NetstatPortInfo :=
  proto <- item parts 0 ;;
  local <- item parts 1 ;;
  foreign <- item parts 2 ;;
  st <- (if String.eqb (lower proto) "tcp" then item parts 3
         else Return EmptyString) ;;
  tok <- item_last parts ;;
  n <- py_int tok ;;
  Return (mk_NetstatPortInfo p (Some n) (Some proto) (Some local)
            (Some foreign) (Some st) (strip line)).

(** The [for line in output.splitlines()] loop and the [return] that
    follows it. *)
Fixpoint scan_lines (p : Z) (lines : list string) : result NetstatPortInfo :=
  match lines with
  | [] => Return (absent_record p "Not found")
  | line :: rest =>
      if contains (port_pattern p) line then
        let parts := re_split_ws (strip line) in
        if (5 <=? List.length parts)%nat
        then parse_line p line parts
        else scan_lines p rest
      else scan_lines p rest
  end.

(** The [try] block: [netstat] is the outcome of
    [subprocess.run(...).stdout]. *)
Definition lookup_body (p : Z) (netstat : result string) : result NetstatPortInfo :=
  output <- netstat ;;
  scan_lines p (splitlines output).

(** [def get_port_info_netstat(port: int) -> NetstatPortInfo]. *)
Definition get_port_info_netstat (p : Z) (netstat : result string)
  : result NetstatPortInfo :=
  try_except (lookup_body p netstat) is_Exception
    (fun e => Return (absent_record p ("Error: " ++ exc_str e))).

(** ** Python floats *)

Module PyFloat.

(** A [float] is an IEEE 754 binary64 value. *)
Definition float : Type := spec_float.

Definition prec : Z := 53.
Definition emax : Z := 1024.

Definition fadd : float -> float -> float := SFadd prec emax.
Definition fsub : float -> float -> float := SFsub prec emax.
Definition fmul : float -> float -> float := SFmul prec emax.
Definition fdiv : float -> float -> float := SFdiv prec emax.
Definition fltb : float -> float -> bool := SFltb.
Definition feqb : float -> float -> bool := SFeqb.

Definition zero : float := S754_zero false.

(** The binary64 value nearest to the integer [n] (ties to even). *)
Definition of_Z (n : Z) : float := binary_normalize prec emax n 0 false.

(** The binary64 value nearest to [± num / den] (ties to even): the
    division of [SpecFloat] applied to the two integers as they are. *)
Definition of_ratio (negative : bool) (num den : positive) : float :=
  fdiv (S754_finite negative num 0) (S754_finite false den 0).

Definition sign_bit (x : float) : bool :=
  match x with
  | S754_zero s | S754_infinity s | S754_finite s _ _ => s
  | S754_nan => false
  end.

(** [x] is zero or a positive finite value of the format. *)
Definition nonneg_finite (x : float) : bool :=
  match x with
  | S754_zero false => true
  | S754_finite false m e => bounded prec emax m e
  | _ => false
  end.

(** Truth value of a float in C and in Python: it differs from zero. *)
Definition nonzero (x : float) : bool := negb (feqb x zero).

(** [a / b] on two integers: the correctly rounded quotient. *)
Definition int_truediv (a b : Z) : result float :=
  match b with
  | Z0 => Raise (mk_exn ZeroDivisionError "division by zero")
  | _ =>
      match a with
      | Z0 => Return (S754_zero (b <? 0))
      | _ =>
          match fdiv (S754_finite (a <? 0) (Z.to_pos (Z.abs a)) 0)
                     (S754_finite (b <? 0) (Z.to_pos (Z.abs b)) 0) with
          | S754_infinity _ =>
              Raise (mk_exn OverflowError "integer division result too large for a float")
          | q => Return q
          end
      end
  end.

(** The integer nearest to [num / den], ties to the even one. *)
Definition round_half_even (num den : Z) : Z :=
  let q := num / den in
  let r := num mod den in
  match 2 * r ?= den with
  | Lt => q
  | Gt => q + 1
  | Eq => if Z.even q then q else q + 1
  end.

(** [round(x, ndigits)] on a float: the value is rounded as an exact
    number to [ndigits] decimal places, ties to the even digit, and the
    decimal numeral obtained is read back as the nearest float. *)
Definition float_round (x : float) (ndigits : Z) : result float :=
  match x with
  | S754_finite s m e =>
      if 323 <? ndigits then Return x
      else if ndigits <? -308 then Return (S754_zero s)
      else
        let up := 10 ^ Z.max ndigits 0 in
        let down := 10 ^ Z.max (- ndigits) 0 in
        let q := round_half_even (Zpos m * 2 ^ Z.max e 0 * up)
                                 (2 ^ Z.max (- e) 0 * down) in
        match q * down with
        | Zpos n =>
            match of_ratio s n (Z.to_pos up) with
            | S754_infinity _ =>
                Raise (mk_exn OverflowError "rounded value too large to represent")
            | r => Return r
            end
        | _ => Return (S754_zero s)
        end
  | _ => Return x
  end.

(** C's [fmod]: the remainder of the truncated quotient, exact, with the
    sign of [x]. *)
Definition fmod (x y : float) : float :=
  match x, y with
  | S754_nan, _ | _, S754_nan => S754_nan
  | S754_infinity _, _ => S754_nan
  | _, S754_zero _ => S754_nan
  | _, S754_infinity _ => x
  | S754_zero _, _ => x
  | S754_finite sx mx ex, S754_finite _ my ey =>
      let e0 := Z.min ex ey in
      let ax := Zpos mx * 2 ^ (ex - e0) in
      let ay := Zpos my * 2 ^ (ey - e0) in
      binary_normalize prec emax (cond_Zopp sx (ax mod ay)) e0 sx
  end.

(** C's [floor]. *)
Definition floor (x : float) : float :=
  match x with
  | S754_finite s m e =>
      if 0 <=? e then x
      else binary_normalize prec emax (cond_Zopp s (Zpos m) / 2 ^ (- e)) 0 s
  | _ => x
  end.

Definition one : float := of_Z 1.
Definition half : float := fdiv one (of_Z 2).

(** The quotient and remainder of the interpreter's float [divmod],
    which [//] uses. *)
Definition float_div_mod (vx wx : float) : float * float :=
  let mod0 := fmod vx wx in
  let div0 := fdiv (fsub vx mod0) wx in
  let '(md, div) :=
    if nonzero mod0 then
      if negb (Bool.eqb (fltb wx zero) (fltb mod0 zero))
      then (fadd mod0 wx, fsub div0 one)
      else (mod0, div0)
    else (S754_zero (sign_bit wx), div0) in
  let floordiv :=
    if nonzero div then
      let fl := floor div in
      if fltb half (fsub div fl) then fadd fl one else fl
    else S754_zero (sign_bit (fdiv vx wx)) in
  (floordiv, md).

(** [vx // wx] on floats. *)
Definition float_floordiv (vx wx : float) : result float :=
  if feqb wx zero then Raise (mk_exn ZeroDivisionError "float floor division by zero")
  else Return (fst (float_div_mod vx wx)).

(** [vx % wx] on floats. *)
Definition float_mod (vx wx : float) : result float :=
  if feqb wx zero then Raise (mk_exn ZeroDivisionError "float modulo")
  else
    let md := fmod vx wx in
    Return
      (if nonzero md then
         if negb (Bool.eqb (fltb wx zero) (fltb md zero)) then fadd md wx else md
       else S754_zero (sign_bit wx)).

(** [x / y] on floats. *)
Definition float_truediv (x y : float) : result float :=
  if feqb y zero then Raise (mk_exn ZeroDivisionError "float division by zero")
  else Return (fdiv x y).

(** [int(x)] on a float: truncation towards zero. *)
Definition int_of_float (x : float) : result Z :=
  match x with
  | S754_zero _ => Return 0
  | S754_finite s m e =>
      Return (cond_Zopp s (if 0 <=? e then Zpos m * 2 ^ e else Zpos m / 2 ^ (- e)))
  | S754_infinity _ =>
      Raise (mk_exn OverflowError "cannot convert float infinity to integer")
  | S754_nan => Raise (mk_exn ValueError "cannot convert float NaN to integer")
  end.

End PyFloat.

Import PyFloat.

(** ** The values the float format holds *)

Module FloatValue.

(** The exponent of the format *)
Definition fexp64 (e : Z) : Z := SpecFloat.fexp prec emax e.

(** A mantissa carried through the rounding with no bit lost so far. *)
Definition exact_record (m : Z) : shr_record := Build_shr_record m false false.

(** ** Non-negative floats and their value

    [holds x w]: [x] is a float of the format, not negative, whose value
    is [w * 2 ^ -1074]. *)
Definition holds (x : float) (w : Z) : Prop :=
  match x with
  | S754_zero false => w = 0
  | S754_finite false m e =>
      fexp64 (Zdigits2 (Zpos m) + e) = e /\ e <= 971 /\ w = Zpos m * 2 ^ (e + 1074)
  | _ => False
  end.

(** A value is held by the format when its low bits, below the 53
    leading ones, are zero. *)
Definition fits (w : Z) : Prop := (2 ^ Z.max (Zdigits2 w - 53) 0 | w).

End FloatValue.

Import FloatValue.

(** ** Structured output models *)

Module TimeInfo.
Record t : Type := mk {
  current_time_ist : string;
  current_time_utc : string;
  timezone : string;
  timestamp : float
}.
End TimeInfo.

Module MemoryInfo.
Record t : Type := mk {
  total_gb : float;
  available_gb : float;
  used_gb : float;
  percentage_used : float;
  free_gb : float
}.
End MemoryInfo.

Module CPUInfo.
Record t : Type := mk {
  cpu_percent : float;
  cpu_count : Z;
  cpu_freq_current : float;
  load_average : list float
}.
End CPUInfo.

Module DiskInfo.
Record t : Type := mk {
  total_gb : float;
  used_gb : float;
  free_gb : float;
  percentage_used : float
}.
End DiskInfo.

Module SystemInfo.
Record t : Type := mk {
  time_info : TimeInfo.t;
  memory_info : MemoryInfo.t;
  cpu_info : CPUInfo.t;
  disk_info : DiskInfo.t;
  platform_info : list (string * string)
}.
End SystemInfo.

(** ** What psutil reports *)

(** [psutil.virtual_memory()]. *)
Record svmem : Type := mk_svmem {
  vm_total : Z;
  vm_available : Z;
  vm_percent : float;
  vm_used : Z;
  vm_free : Z
}.

(** [psutil.cpu_freq()], when there is one. *)
Record scpufreq : Type := mk_scpufreq { freq_current : float }.

(** [psutil.disk_usage('/')]. *)
Record sdiskusage : Type := mk_sdiskusage {
  du_total : Z;
  du_used : Z;
  du_free : Z
}.

(** [def bytes_to_gb(bytes_value: int) -> float]. *)
Definition bytes_to_gb (bytes_value : Z) : result float :=
  x <- int_truediv bytes_value (1024 ^ 3) ;;
  float_round x 2.

(** [[f(x) for x in xs]] for an [f] that may raise. *)
Fixpoint map_result {A B : Type} (f : A -> result B) (xs : list A) : result (list B) :=
  match xs with
  | [] => Return []
  | x :: rest =>
      y <- f x ;;
      ys <- map_result f rest ;;
      Return (y :: ys)
  end.

Section Server.

(** The date and time library: the type of an aware [datetime] and the
    three operations [get_current_time] applies to one. *)
Variable datetime : Type.
Variable astimezone_kolkata : datetime -> result datetime.
Variable strftime : datetime -> result string.
Variable timestamp : datetime -> result float.

(** The answers of the host to each query a tool makes. *)
Record Host : Type := mk_Host {
  datetime_now_utc : result datetime;
  psutil_virtual_memory : result svmem;
  psutil_cpu_percent : result float;
  psutil_cpu_count : result (option Z);
  psutil_cpu_freq : result (option scpufreq);
  psutil_getloadavg : result (float * float * float);
  psutil_disk_usage : result sdiskusage;
  psutil_boot_time : result float;
  datetime_now_timestamp : result float;
  platform_system : string;
  platform_platform : string;
  platform_machine : string;
  platform_processor : string;
  platform_python_version : string;
  platform_node : string
}.

Variable host : Host.

(** [def get_current_time() -> TimeInfo]. *)
Definition get_current_time : result TimeInfo.t :=
  utc_now <- datetime_now_utc host ;;
  ist_now <- astimezone_kolkata utc_now ;;
  ist_text <- strftime ist_now ;;
  utc_text <- strftime utc_now ;;
  stamp <- timestamp utc_now ;;
  Return (TimeInfo.mk ist_text utc_text "Asia/Kolkata (IST)" stamp).

(** [def get_memory_usage() -> MemoryInfo]. *)
Definition get_memory_usage : result MemoryInfo.t :=
  memory <- psutil_virtual_memory host ;;
  total <- bytes_to_gb (vm_total memory) ;;
  available <- bytes_to_gb (vm_available memory) ;;
  used <- bytes_to_gb (vm_used memory) ;;
  percent <- float_round (vm_percent memory) 1 ;;
  free <- bytes_to_gb (vm_free memory) ;;
  Return (MemoryInfo.mk total available used percent free).

(** The [try] statement of [get_cpu_usage]. *)
Definition load_avg_or_zeros : result (list float) :=
  try_except
    (avg <- psutil_getloadavg host ;;
     let '(a, b, c) := avg in Return [a; b; c])
    (fun c => is_AttributeError c || is_OSError c)
    (fun _ => Return [zero; zero; zero]).

(** [def get_cpu_usage() -> CPUInfo]; building a [CPUInfo] validates
    that [cpu_count] is an integer. *)
Definition get_cpu_usage : result CPUInfo.t :=
  cpu_percent <- psutil_cpu_percent host ;;
  cpu_count <- psutil_cpu_count host ;;
  cpu_freq <- psutil_cpu_freq host ;;
  let current_freq :=
    match cpu_freq with
    | Some f => freq_current f
    | None => zero
    end in
  load_avg <- load_avg_or_zeros ;;
  percent <- float_round cpu_percent 1 ;;
  freq <- float_round current_freq 1 ;;
  loads <- map_result (fun x => float_round x 2) load_avg ;;
  match cpu_count with
  | Some n => Return (CPUInfo.mk percent n freq loads)
  | None => Raise (mk_exn ValidationError "1 validation error for CPUInfo")
  end.

(** [def get_disk_usage() -> DiskInfo]. *)
Definition get_disk_usage : result DiskInfo.t :=
  disk_usage <- psutil_disk_usage host ;;
  total <- bytes_to_gb (du_total disk_usage) ;;
  used <- bytes_to_gb (du_used disk_usage) ;;
  free <- bytes_to_gb (du_free disk_usage) ;;
  ratio <- int_truediv (du_used disk_usage) (du_total disk_usage) ;;
  percent <- float_round (fmul ratio (of_Z 100)) 1 ;;
  Return (DiskInfo.mk total used free percent).

(** The dictionary literal of [get_system_info], in key order. *)
Definition platform_dict : list (string * string) :=
  [ ("system", platform_system host);
    ("platform", platform_platform host);
    ("machine", platform_machine host);
    ("processor", platform_processor host);
    ("python_version", platform_python_version host);
    ("hostname", platform_node host) ].

(** [def get_system_info() -> SystemInfo]. *)
Definition get_system_info : result SystemInfo.t :=
  time_info <- get_current_time ;;
  memory_info <- get_memory_usage ;;
  cpu_info <- get_cpu_usage ;;
  disk_info <- get_disk_usage ;;
  Return (SystemInfo.mk time_info memory_info cpu_info disk_info platform_dict).

(** The [try] block of [get_system_uptime]. *)
Definition uptime_body : result string :=
  boot_time <- psutil_boot_time host ;;
  now <- datetime_now_timestamp host ;;
  let uptime_seconds := fsub now boot_time in
  d <- float_floordiv uptime_seconds (of_Z 86400) ;;
  days <- int_of_float d ;;
  rem_day <- float_mod uptime_seconds (of_Z 86400) ;;
  h <- float_floordiv rem_day (of_Z 3600) ;;
  hours <- int_of_float h ;;
  rem_hour <- float_mod uptime_seconds (of_Z 3600) ;;
  m <- float_floordiv rem_hour (of_Z 60) ;;
  minutes <- int_of_float m ;;
  Return ("System uptime: " ++ str_of_int days ++ " days, "
            ++ str_of_int hours ++ " hours, "
            ++ str_of_int minutes ++ " minutes").

(** [def get_system_uptime() -> str]. *)
Definition get_system_uptime : result string :=
  try_except uptime_body is_Exception
    (fun e => Return ("Unable to get uptime: " ++ exc_str e)).

End Server.

Arguments mk_Host {datetime}.
Arguments datetime_now_utc {datetime}.
Arguments psutil_virtual_memory {datetime}.
Arguments psutil_cpu_percent {datetime}.
Arguments psutil_cpu_count {datetime}.
Arguments psutil_cpu_freq {datetime}.
Arguments psutil_getloadavg {datetime}.
Arguments psutil_disk_usage {datetime}.
Arguments psutil_boot_time {datetime}.
Arguments datetime_now_timestamp {datetime}.
Arguments get_memory_usage {datetime}.
Arguments load_avg_or_zeros {datetime}.
Arguments get_cpu_usage {datetime}.
Arguments get_disk_usage {datetime}.
Arguments platform_dict {datetime}.
Arguments uptime_body {datetime}.
Arguments get_system_uptime {datetime}.
Arguments get_current_time {datetime}.
Arguments get_system_info {datetime}.

(** ** Fixtures *)

Definition newline : string := String LF EmptyString.

Definition listening_line : string :=
  "  TCP    0.0.0.0:8080    0.0.0.0:0    LISTENING    1234".

Definition header_line : string :=
  "  Proto  Local Address          Foreign Address        State           PID".

(** An output of [netstat -ano] with one TCP listener and one UDP
    socket. *)
Definition netstat_fixture : string :=
  "Active Connections" ++ newline ++ newline
    ++ header_line ++ newline
    ++ "  TCP    0.0.0.0:135     0.0.0.0:0    LISTENING    1040" ++ newline
    ++ listening_line ++ newline
    ++ "  UDP    0.0.0.0:53    *:*    99" ++ newline.

(** A matching line whose last field is no number. *)
Definition garbled_line : string :=
  "  TCP    0.0.0.0:8080    0.0.0.0:0    LISTENING    abc".

(** A host without load averages ([psutil.getloadavg] is missing), with
    a disk of one GiB holding five million bytes, started 90061 seconds
    before the clock was read. *)
Definition fixture_host : Host unit :=
  {| datetime_now_utc := Return tt;
     psutil_virtual_memory :=
       Return (mk_svmem 17179869184 8589934592 (of_Z 50) 8589934592 8589934592);
     psutil_cpu_percent := Return (of_ratio false 25 2);
     psutil_cpu_count := Return (Some 8);
     psutil_cpu_freq := Return (Some (mk_scpufreq (of_Z 2400)));
     psutil_getloadavg :=
       Raise (mk_exn AttributeError "module 'psutil' has no attribute 'getloadavg'");
     psutil_disk_usage := Return (mk_sdiskusage (2 ^ 30) 5000000 (2 ^ 30 - 5000000));
     psutil_boot_time := Return (of_Z 1700000000);
     datetime_now_timestamp := Return (of_Z 1700090061);
     platform_system := "Windows";
     platform_platform := "Windows-10";
     platform_machine := "AMD64";
     platform_processor := "Intel64";
     platform_python_version := "3.12.0";
     platform_node := "host" |}.

(** A fixture for the date and time library: the clock reads the
    instant 1700000000. *)
Definition fixture_astimezone (t : unit) : result unit := Return t.
Definition fixture_strftime (t : unit) : result string := Return "2023-11-14 22:13:20".
Definition fixture_timestamp (t : unit) : result float := Return (of_Z 1700000000).

(** A host whose CPU sampling fails. *)
Definition broken_cpu_host : Host unit :=
  {| datetime_now_utc := Return tt;
     psutil_virtual_memory :=
       Return (mk_svmem 17179869184 8589934592 (of_Z 50) 8589934592 8589934592);
     psutil_cpu_percent := Raise (mk_exn OSError "cannot sample the CPU");
     psutil_cpu_count := Return (Some 8);
     psutil_cpu_freq := Return None;
     psutil_getloadavg := Return (zero, zero, zero);
     psutil_disk_usage := Return (mk_sdiskusage (2 ^ 31) (2 ^ 30) (2 ^ 30));
     psutil_boot_time := Return (of_Z 1700000000);
     datetime_now_timestamp := Return (of_Z 1700090061);
     platform_system := "Linux";
     platform_platform := "Linux-6.1";
     platform_machine := "x86_64";
     platform_processor := "x86_64";
     platform_python_version := "3.12.0";
     platform_node := "host" |}.

(** ** The claims' own formulas *)

(** The percentage as the claim words it: computed from the two rounded
    gigabyte fields of the record. *)
Definition percentage_from_gb_fields (r : DiskInfo.t) : result float :=
  q <- float_truediv (DiskInfo.used_gb r) (DiskInfo.total_gb r) ;;
  float_round (fmul q (of_Z 100)) 1.

(** The float nearest to the decimal [q / 100]. *)
Definition hundredths (q : Z) : float :=
  match q with
  | Z0 => zero
  | Zpos k => of_ratio false k 100
  | Zneg k => of_ratio true k 100
  end.

(** The gigabytes of the claim, in exact arithmetic: [n / 2^30] rounded
    to two decimal places, ties to the even digit, as the float nearest
    to that decimal. *)
Definition gigabytes_exact (n : Z) : float :=
  hundredths (round_half_even (100 * n) (2 ^ 30)).

(** ** The platform text and the greeting *)

(** [sep.join(parts)]. *)
Fixpoint join (sep : string) (parts : list string) : string :=
  match parts with
  | [] => EmptyString
  | [x] => x
  | x :: rest => x ++ sep ++ join sep rest
  end.

(** The dictionary literal of [get_platform_info], in key order. *)
Definition platform_info_dict {datetime : Type} (host : Host datetime)
  : list (string * string) :=
  [ ("System", platform_system _ host);
    ("Platform", platform_platform _ host);
    ("Machine", platform_machine _ host);
    ("Processor", platform_processor _ host);
    ("Python Version", platform_python_version _ host);
    ("Hostname", platform_node _ host) ].

(** [def get_platform_info() -> str]: one [key: value] per entry,
    joined by line feeds. *)
Definition get_platform_info {datetime : Type} (host : Host datetime) : string :=
  join newline (map (fun kv => fst kv ++ ": " ++ snd kv) (platform_info_dict host)).

(** [def get_greeting(name: str) -> str]. *)
Definition get_greeting (name : string) : string :=
  "Hello unga bunga, " ++ name ++ "!".

(** ** Vocabulary of the properties *)

(** The five optional fields of a port record, all there or all
    missing. *)
Definition all_present (r : NetstatPortInfo) : Prop :=
  pid r <> None /\ protocol r <> None /\ local_address r <> None
  /\ foreign_address r <> None /\ state r <> None.

Definition all_absent (r : NetstatPortInfo) : Prop :=
  pid r = None /\ protocol r = None /\ local_address r = None
  /\ foreign_address r = None /\ state r = None.

(** No character of [s] is white space. *)
Fixpoint no_space (s : string) : bool :=
  match s with
  | EmptyString => true
  | String c rest => negb (isspace c) && no_space rest
  end.

(** Every character of [s] is white space. *)
Fixpoint all_space (s : string) : bool :=
  match s with
  | EmptyString => true
  | String c rest => isspace c && all_space rest
  end.

Definition starts_with_space (s : string) : bool :=
  match s with
  | String c _ => isspace c
  | EmptyString => false
  end.

Fixpoint ends_with_space (s : string) : bool :=
  match s with
  | EmptyString => false
  | String c EmptyString => isspace c
  | String _ rest => ends_with_space rest
  end.

Definition nonempty (s : string) : bool :=
  match s with
  | EmptyString => false
  | String _ _ => true
  end.

(** A field of a netstat row: not empty, without white space. *)
Definition clean (f : string) : Prop := nonempty f = true /\ no_space f = true.

(** A gap between two fields of a row: white space, at least one
    character of it. *)
Definition gap (s : string) : Prop := nonempty s = true /\ all_space s = true.

(** [s.endswith(suffix)]. *)
Fixpoint endswith (suffix s : string) : bool :=
  String.eqb suffix s ||
  match s with
  | EmptyString => false
  | String _ rest => endswith suffix rest
  end.

(** A field that cannot be taken for an address of port [p]: it holds
    no colon, or it is some text, a colon and the decimal numeral of
    another port. *)
Definition foreign_to (p : Z) (f : string) : Prop :=
  has_char ":" f = false
  \/ exists g q, q <> p /\ f = g ++ ":" ++ str_of_int q.

(** No character of [s] is a line boundary of [str.splitlines]. *)
Fixpoint no_linebreak (s : string) : bool :=
  match s with
  | EmptyString => true
  | String c rest => negb (islinebreak c) && no_linebreak rest
  end.

(** The gigabytes of [n] bytes in hundredths: [100 * n / 2^30] rounded
    to the nearest integer, ties to even. *)
Definition gb_hundredths (n : Z) : Z := round_half_even (100 * n) (2 ^ 30).

(** [x] is a value of the binary64 format: a zero, an infinity, NaN, or
    a finite value with a canonical mantissa and exponent. *)
Definition is_binary64 (x : float) : bool := valid_binary prec emax x.

(** ** Further fixtures *)

(** A host that differs from [h] in what the CPU queries answer. *)
Definition with_cpu {datetime : Type}
    (percent : result float) (count : result (option Z))
    (freq : result (option scpufreq)) (loadavg : result (float * float * float))
    (h : Host datetime) : Host datetime :=
  {| datetime_now_utc := datetime_now_utc h;
     psutil_virtual_memory := psutil_virtual_memory h;
     psutil_cpu_percent := percent;
     psutil_cpu_count := count;
     psutil_cpu_freq := freq;
     psutil_getloadavg := loadavg;
     psutil_disk_usage := psutil_disk_usage h;
     psutil_boot_time := psutil_boot_time h;
     datetime_now_timestamp := datetime_now_timestamp h;
     platform_system := platform_system _ h;
     platform_platform := platform_platform _ h;
     platform_machine := platform_machine _ h;
     platform_processor := platform_processor _ h;
     platform_python_version := platform_python_version _ h;
     platform_node := platform_node _ h |}.

(** A host that differs from [h] in the disk and in the two clocks of
    the uptime. *)
Definition with_disk_and_clock {datetime : Type}
    (disk : result sdiskusage) (boot now : result float)
    (h : Host datetime) : Host datetime :=
  {| datetime_now_utc := datetime_now_utc h;
     psutil_virtual_memory := psutil_virtual_memory h;
     psutil_cpu_percent := psutil_cpu_percent h;
     psutil_cpu_count := psutil_cpu_count h;
     psutil_cpu_freq := psutil_cpu_freq h;
     psutil_getloadavg := psutil_getloadavg h;
     psutil_disk_usage := disk;
     psutil_boot_time := boot;
     datetime_now_timestamp := now;
     platform_system := platform_system _ h;
     platform_platform := platform_platform _ h;
     platform_machine := platform_machine _ h;
     platform_processor := platform_processor _ h;
     platform_python_version := platform_python_version _ h;
     platform_node := platform_node _ h |}.

(** Four cores at 12.5 per cent, no frequency, load averages 1.5, 0.25
    and 0. *)
Definition no_freq_host : Host unit :=
  with_cpu (Return (of_ratio false 25 2)) (Return (Some 4)) (Return None)
    (Return (of_ratio false 3 2, of_ratio false 1 4, zero)) fixture_host.

(** The number of cores is unknown. *)
Definition no_count_host : Host unit :=
  with_cpu (Return (of_Z 10)) (Return None) (Return None)
    (Return (zero, zero, zero)) fixture_host.

(** A disk of size zero, and a clock that reads no number. *)
Definition empty_disk_host : Host unit :=
  with_disk_and_clock (Return (mk_sdiskusage 0 0 0))
    (Return (of_Z 1700000000)) (Return S754_nan) fixture_host.

(** The record of the listener of port 8080 in [netstat_fixture]. *)
Definition listener_record : NetstatPortInfo :=
  mk_NetstatPortInfo 8080 (Some 1234) (Some "TCP")
    (Some "0.0.0.0:8080") (Some "0.0.0.0:0") (Some "LISTENING")
    "TCP    0.0.0.0:8080    0.0.0.0:0    LISTENING    1234".

(** The column titles and the listener of port 8080. *)
Definition listener_output : string := header_line ++ newline ++ listening_line.

(** The clock was read [1e-20] seconds before the start. *)
Definition early_clock_host : Host unit :=
  with_disk_and_clock (psutil_disk_usage fixture_host)
    (Return (S754_finite false 6646139978924579 (-119))) (Return zero) fixture_host.

(** A disk of 2^31 bytes, all of them used. *)
Definition full_disk_host : Host unit :=
  with_disk_and_clock (Return (mk_sdiskusage (2 ^ 31) (2 ^ 31) 0))
    (psutil_boot_time fixture_host) (datetime_now_timestamp fixture_host) fixture_host.

(** * Properties *)

Ltac each_line H :=
  repeat (destruct H as [<- | H]; [try reflexivity |]); try contradiction.

(** ** Port lookup *)

Section PortLookupFacts.

Variable p : Z.

Lemma line_hits_false_step (line : string) (rest : list string) :
  line_hits p line = false ->
  scan_lines p (line :: rest) = scan_lines p rest.
Proof.
  unfold line_hits. intros H. cbn [scan_lines].
  destruct (contains (port_pattern p) line); [| reflexivity].
  rewrite andb_true_l in H. cbv zeta. rewrite H. reflexivity.
Qed.

Lemma line_hits_true_step (line : string) (rest : list string) :
  line_hits p line = true ->
  scan_lines p (line :: rest) = parse_line p line (re_split_ws (strip line)).
Proof.
  unfold line_hits. intros H. apply andb_prop in H as [Hc Hn].
  cbn [scan_lines]. rewrite Hc. cbv zeta. rewrite Hn. reflexivity.
Qed.

(** Lines that do not hit are passed over by the loop. *)
Lemma scan_lines_skip (pre rest : list string) :
  (forall l, In l pre -> line_hits p l = false) ->
  scan_lines p (pre ++ rest) = scan_lines p rest.
Proof.
  induction pre as [| l pre IH]; intros H; [reflexivity |].
  rewrite <- app_comm_cons, line_hits_false_step by (apply H; left; reflexivity).
  apply IH. intros l' Hl'. apply H. right. exact Hl'.
Qed.

Lemma scan_lines_no_hit (lines : list string) :
  (forall l, In l lines -> line_hits p l = false) ->
  scan_lines p lines = Return (absent_record p "Not found").
Proof.
  intros H. rewrite <- (app_nil_r lines). rewrite scan_lines_skip by exact H.
  reflexivity.
Qed.

End PortLookupFacts.

Lemma item_nth (parts : list string) (i : nat) :
  (i < List.length parts)%nat ->
  item parts i = Return (nth i parts EmptyString).
Proof.
  intros H. unfold item.
  destruct (nth_error parts i) as [f |] eqn:E.
  - now rewrite (nth_error_nth _ _ _ E).
  - apply nth_error_None in E. lia.
Qed.

Lemma last_cons_default (fs : list string) :
  forall f d, last (f :: fs) d = last fs f.
Proof.
  induction fs as [| g fs IH]; intros f d; [reflexivity |].
  change (last (f :: g :: fs) d) with (last (g :: fs) d).
  now rewrite (IH g d), (IH g f).
Qed.

Lemma item_last_last (parts : list string) :
  parts <> [] -> item_last parts = Return (last parts EmptyString).
Proof.
  destruct parts as [| f fs]; [congruence |]. intros _. unfold item_last.
  now rewrite last_cons_default.
Qed.

(** What the innermost branch builds out of a line of five fields or
    more, given the outcome of [int] on the last one. *)
Lemma parse_line_fields (p : Z) (line : string) (parts : list string) :
  (5 <= List.length parts)%nat ->
  parse_line p line parts =
    (n <- py_int (last parts EmptyString) ;;
     Return (mk_NetstatPortInfo p (Some n)
               (Some (nth 0 parts EmptyString))
               (Some (nth 1 parts EmptyString))
               (Some (nth 2 parts EmptyString))
               (Some (if String.eqb (lower (nth 0 parts EmptyString)) "tcp"
                      then nth 3 parts EmptyString else EmptyString))
               (strip line))).
Proof.
  intros H. unfold parse_line.
  rewrite !item_nth by lia.
  rewrite item_last_last by (destruct parts; [simpl in H; lia | discriminate]).
  cbn [bind].
  destruct (String.eqb (lower (nth 0 parts EmptyString)) "tcp"); reflexivity.
Qed.

(** [int] raises nothing but [ValueError]. *)
Lemma py_int_raises_ValueError (s : string) (e : exn) :
  py_int s = Raise e -> exc_type e = ValueError.
Proof.
  unfold py_int.
  destruct (match skip_space s with
            | String "-" rest => (true, rest)
            | String "+" rest => (false, rest)
            | _ => (false, skip_space s)
            end) as [negative digits].
  destruct digits as [| c ds]; [intros [= <-]; reflexivity |].
  destruct (Ascii.eqb c underscore); [intros [= <-]; reflexivity |].
  destruct (scan_digits false 0 0 (String c ds)) as [[[v count] rest] |];
    [| intros [= <-]; reflexivity].
  destruct (max_str_digits <? count)%nat; [intros [= <-]; reflexivity |].
  destruct count; [intros [= <-]; reflexivity |].
  destruct (skip_space rest); [discriminate | intros [= <-]; reflexivity].
Qed.

(** Whatever the loop raises is an [Exception]. *)
Lemma scan_lines_raises_Exception (p : Z) (lines : list string) (e : exn) :
  scan_lines p lines = Raise e -> is_Exception (exc_type e) = true.
Proof.
  induction lines as [| line rest IH]; [discriminate |].
  destruct (line_hits p line) eqn:Hh.
  - rewrite line_hits_true_step by exact Hh.
    unfold line_hits in Hh. apply andb_prop in Hh as [_ Hn].
    apply Nat.leb_le in Hn. rewrite parse_line_fields by exact Hn.
    destruct (py_int _) as [n | e'] eqn:Hi; [discriminate |].
    cbn [bind]. intros [= <-]. now rewrite (py_int_raises_ValueError _ _ Hi).
  - rewrite line_hits_false_step by exact Hh. exact IH.
Qed.

(** C1 as stated fails: on an output whose only line mentions the port,
    has five fields and ends in a field that [int] rejects, the lookup
    raises nothing; it returns the record of absent fields whose raw text
    starts with [Error: ]. *)
Lemma parse_failure_is_swallowed :
  splitlines garbled_line = [garbled_line]
  /\ line_hits 8080 garbled_line = true
  /\ raises (py_int (last (re_split_ws (strip garbled_line)) EmptyString))
  /\ get_port_info_netstat 8080 (Return garbled_line)
     = Return (absent_record 8080
                 "Error: invalid literal for int() with base 10: 'abc'")
  /\ ~ raises (get_port_info_netstat 8080 (Return garbled_line)).
Proof.
  split; [reflexivity |]. split; [reflexivity |].
  split; [eexists; reflexivity |]. split; [reflexivity |].
  intros [e He]. vm_compute in He. discriminate He.
Qed.

(** C1, amended: when the first line that mentions the port and has at
    least five fields ends in a field that [int] rejects, the lookup
    returns the record whose optional fields are all absent and whose raw
    text is [Error: ] followed by the text of the error [int] raised. *)
Theorem parse_failure_gives_error_record
    (p : Z) (out : string) (pre post : list string) (line : string) (e : exn) :
  splitlines out = (pre ++ line :: post)%list ->
  (forall l, In l pre -> line_hits p l = false) ->
  line_hits p line = true ->
  py_int (last (re_split_ws (strip line)) EmptyString) = Raise e ->
  get_port_info_netstat p (Return out)
  = Return (mk_NetstatPortInfo p None None None None None
              ("Error: " ++ exc_str e)).
Proof.
  intros Hsplit Hpre Hhit Hint.
  unfold get_port_info_netstat, lookup_body. cbn [bind].
  rewrite Hsplit, scan_lines_skip by exact Hpre.
  rewrite line_hits_true_step by exact Hhit.
  unfold line_hits in Hhit. apply andb_prop in Hhit as [_ Hn].
  apply Nat.leb_le in Hn. rewrite parse_line_fields by exact Hn.
  rewrite Hint. cbn [bind try_except].
  rewrite (py_int_raises_ValueError _ _ Hint). reflexivity.
Qed.

Lemma parse_failure_gives_error_record_witness :
  get_port_info_netstat 8080 (Return garbled_line)
  = Return (mk_NetstatPortInfo 8080 None None None None None
              ("Error: " ++ "invalid literal for int() with base 10: 'abc'")).
Proof.
  apply (parse_failure_gives_error_record 8080 garbled_line [] [] garbled_line
           (invalid_literal "abc")).
  - reflexivity.
  - intros l H. contradiction.
  - reflexivity.
  - reflexivity.
Defined.

(** C2: whatever the port and whatever the sub-process does (it raises
    an [Exception], or it produces any text at all), the lookup returns a
    record and raises nothing; when its [try] block raised, the record
    is the one of absent fields carrying [Error: ] and the error text. *)
Theorem get_port_info_netstat_never_raises (p : Z) (netstat : result string) :
  (forall e, netstat = Raise e -> is_Exception (exc_type e) = true) ->
  exists r,
    get_port_info_netstat p netstat = Return r
    /\ (forall e, lookup_body p netstat = Raise e ->
          r = absent_record p ("Error: " ++ exc_str e))
    /\ (forall r', lookup_body p netstat = Return r' -> r = r').
Proof.
  intros Hexc. unfold get_port_info_netstat.
  destruct (lookup_body p netstat) as [r | e] eqn:Hbody.
  - exists r. cbn [try_except]. repeat split; intros; congruence.
  - assert (Hc : is_Exception (exc_type e) = true).
    { unfold lookup_body in Hbody. destruct netstat as [out | e0].
      - cbn [bind] in Hbody. exact (scan_lines_raises_Exception _ _ _ Hbody).
      - cbn [bind] in Hbody. injection Hbody as <-. now apply Hexc. }
    exists (absent_record p ("Error: " ++ exc_str e)).
    cbn [try_except]. rewrite Hc. repeat split; intros; congruence.
Qed.

Lemma get_port_info_netstat_never_raises_witness :
  exists r,
    get_port_info_netstat 8080
      (Raise (mk_exn FileNotFoundError "[Errno 2] No such file or directory"))
    = Return r
    /\ (forall e,
          lookup_body 8080
            (Raise (mk_exn FileNotFoundError "[Errno 2] No such file or directory"))
          = Raise e ->
          r = absent_record 8080 ("Error: " ++ exc_str e))
    /\ (forall r',
          lookup_body 8080
            (Raise (mk_exn FileNotFoundError "[Errno 2] No such file or directory"))
          = Return r' -> r = r').
Proof.
  apply (get_port_info_netstat_never_raises 8080
           (Raise (mk_exn FileNotFoundError "[Errno 2] No such file or directory"))).
  intros e H. injection H as <-. reflexivity.
Defined.

(** C3: the first line that mentions the port and has at least five
    fields decides the answer: protocol, local and foreign address are
    fields 0, 1 and 2, the state is field 3 for a protocol that is [tcp]
    in any letter case and the empty text otherwise, the process id is
    the last field read as an integer, and the raw text is the line
    stripped.  In particular the listener line of port 8080 gives process
    1234 in state [LISTENING]. *)
Theorem first_hit_is_reported :
  (forall (p : Z) (out : string) (pre post : list string) (line : string) (n : Z),
      splitlines out = (pre ++ line :: post)%list ->
      (forall l, In l pre -> line_hits p l = false) ->
      line_hits p line = true ->
      py_int (last (re_split_ws (strip line)) EmptyString) = Return n ->
      let parts := re_split_ws (strip line) in
      get_port_info_netstat p (Return out)
      = Return (mk_NetstatPortInfo p (Some n)
                  (Some (nth 0 parts EmptyString))
                  (Some (nth 1 parts EmptyString))
                  (Some (nth 2 parts EmptyString))
                  (Some (if String.eqb (lower (nth 0 parts EmptyString)) "tcp"
                         then nth 3 parts EmptyString else EmptyString))
                  (strip line)))
  /\ (forall (out : string) (pre post : list string),
        splitlines out = (pre ++ listening_line :: post)%list ->
        (forall l, In l pre -> line_hits 8080 l = false) ->
        get_port_info_netstat 8080 (Return out)
        = Return (mk_NetstatPortInfo 8080 (Some 1234) (Some "TCP")
                    (Some "0.0.0.0:8080") (Some "0.0.0.0:0") (Some "LISTENING")
                    "TCP    0.0.0.0:8080    0.0.0.0:0    LISTENING    1234")).
Proof.
  assert (General :
    forall p out pre post line n,
      splitlines out = (pre ++ line :: post)%list ->
      (forall l, In l pre -> line_hits p l = false) ->
      line_hits p line = true ->
      py_int (last (re_split_ws (strip line)) EmptyString) = Return n ->
      get_port_info_netstat p (Return out)
      = Return (mk_NetstatPortInfo p (Some n)
                  (Some (nth 0 (re_split_ws (strip line)) EmptyString))
                  (Some (nth 1 (re_split_ws (strip line)) EmptyString))
                  (Some (nth 2 (re_split_ws (strip line)) EmptyString))
                  (Some (if String.eqb
                              (lower (nth 0 (re_split_ws (strip line)) EmptyString))
                              "tcp"
                         then nth 3 (re_split_ws (strip line)) EmptyString
                         else EmptyString))
                  (strip line))).
  { intros p out pre post line n Hsplit Hpre Hhit Hint.
    unfold get_port_info_netstat, lookup_body. cbn [bind].
    rewrite Hsplit, scan_lines_skip by exact Hpre.
    rewrite line_hits_true_step by exact Hhit.
    unfold line_hits in Hhit. apply andb_prop in Hhit as [_ Hn].
    apply Nat.leb_le in Hn. rewrite parse_line_fields by exact Hn.
    rewrite Hint. reflexivity. }
  split.
  - intros p out pre post line n Hsplit Hpre Hhit Hint parts.
    exact (General p out pre post line n Hsplit Hpre Hhit Hint).
  - intros out pre post Hsplit Hpre.
    rewrite (General 8080 out pre post listening_line 1234 Hsplit Hpre);
      reflexivity.
Qed.

Lemma first_hit_is_reported_witness :
  get_port_info_netstat 8080 (Return netstat_fixture)
  = Return (mk_NetstatPortInfo 8080 (Some 1234) (Some "TCP")
              (Some "0.0.0.0:8080") (Some "0.0.0.0:0") (Some "LISTENING")
              "TCP    0.0.0.0:8080    0.0.0.0:0    LISTENING    1234").
Proof.
  apply (proj2 first_hit_is_reported netstat_fixture
           [ "Active Connections"; EmptyString; header_line;
             "  TCP    0.0.0.0:135     0.0.0.0:0    LISTENING    1040" ]
           [ "  UDP    0.0.0.0:53    *:*    99" ]).
  - reflexivity.
  - intros l H. each_line H.
Defined.

(** C6: when no line of the output contains the text [":<port> "], the
    lookup returns the record whose process id, protocol, addresses and
    state are all absent and whose raw text is [Not found]. *)
Theorem port_not_mentioned_gives_not_found (p : Z) (out : string) :
  (forall l, In l (splitlines out) -> contains (port_pattern p) l = false) ->
  get_port_info_netstat p (Return out)
  = Return (mk_NetstatPortInfo p None None None None None "Not found").
Proof.
  intros H. unfold get_port_info_netstat, lookup_body. cbn [bind].
  rewrite scan_lines_no_hit; [reflexivity |].
  intros l Hl. unfold line_hits. now rewrite (H l Hl).
Qed.

Lemma port_not_mentioned_gives_not_found_witness :
  get_port_info_netstat 9999 (Return netstat_fixture)
  = Return (mk_NetstatPortInfo 9999 None None None None None "Not found").
Proof.
  apply (port_not_mentioned_gives_not_found 9999 netstat_fixture).
  intros l H. vm_compute in H. each_line H.
Defined.

(** C10: a line that mentions the port but splits into fewer than five
    fields is passed over and the scan goes on with the lines after it;
    when every line that mentions the port is that short, the lookup
    returns the [Not found] record of absent fields. *)
Theorem short_lines_are_skipped (p : Z) :
  (forall (out : string) (pre rest : list string),
      splitlines out = (pre ++ rest)%list ->
      (forall l, In l pre -> contains (port_pattern p) l = true ->
                 (List.length (re_split_ws (strip l)) < 5)%nat) ->
      lookup_body p (Return out) = scan_lines p rest)
  /\ (forall out : string,
        (forall l, In l (splitlines out) -> contains (port_pattern p) l = true ->
                   (List.length (re_split_ws (strip l)) < 5)%nat) ->
        get_port_info_netstat p (Return out)
        = Return (absent_record p "Not found")).
Proof.
  assert (Hshort : forall lines,
    (forall l, In l lines -> contains (port_pattern p) l = true ->
               (List.length (re_split_ws (strip l)) < 5)%nat) ->
    forall l, In l lines -> line_hits p l = false).
  { intros lines H l Hl. unfold line_hits.
    destruct (contains (port_pattern p) l) eqn:Hc; [| reflexivity].
    rewrite andb_true_l. apply Nat.leb_gt. now apply H. }
  split.
  - intros out pre rest Hsplit H. unfold lookup_body. cbn [bind].
    rewrite Hsplit. apply scan_lines_skip. now apply Hshort.
  - intros out H. unfold get_port_info_netstat, lookup_body. cbn [bind].
    rewrite scan_lines_no_hit; [reflexivity |]. now apply Hshort.
Qed.

Lemma short_lines_are_skipped_witness :
  get_port_info_netstat 53 (Return netstat_fixture)
  = Return (absent_record 53 "Not found").
Proof.
  apply (proj2 (short_lines_are_skipped 53) netstat_fixture).
  intros l H Hc. vm_compute in H.
  repeat (destruct H as [<- | H]; [try discriminate Hc |]); try contradiction.
  apply Nat.ltb_lt. reflexivity.
Defined.

(** ** Float arithmetic on values the format holds *)

Module FloatFacts.

(** Number of binary digits *)
Lemma digits2_pos_bounds (p : positive) :
  2 ^ (Zpos (digits2_pos p) - 1) <= Zpos p < 2 ^ Zpos (digits2_pos p).
Proof.
  induction p as [p IH | p IH |]; cbn [digits2_pos].
  - rewrite Pos2Z.inj_succ.
    replace (Z.succ (Zpos (digits2_pos p)) - 1) with (Z.succ (Zpos (digits2_pos p) - 1)) by lia.
    rewrite !Z.pow_succ_r by lia. lia.
  - rewrite Pos2Z.inj_succ.
    replace (Z.succ (Zpos (digits2_pos p)) - 1) with (Z.succ (Zpos (digits2_pos p) - 1)) by lia.
    rewrite !Z.pow_succ_r by lia. lia.
  - cbn. lia.
Qed.

Lemma Zdigits2_bounds (n : Z) :
  0 < n -> 2 ^ (Zdigits2 n - 1) <= n < 2 ^ Zdigits2 n.
Proof.
  destruct n as [| p | p]; try lia. intros _. apply digits2_pos_bounds.
Qed.

Lemma Zdigits2_pos (n : Z) : 0 < n -> 0 < Zdigits2 n.
Proof. destruct n; cbn; lia. Qed.

Lemma Zdigits2_unique (n d : Z) :
  0 < n -> 2 ^ (d - 1) <= n < 2 ^ d -> Zdigits2 n = d.
Proof.
  intros Hn [Hlo Hhi]. pose proof (Zdigits2_bounds n Hn) as [Hlo' Hhi'].
  pose proof (Zdigits2_pos n Hn) as Hd.
  assert (0 < d).
  { destruct (Z_lt_le_dec 0 d); [assumption |].
    assert (2 ^ d <= 2 ^ 0) by (destruct (Z_lt_le_dec d 0);
      [rewrite Z.pow_neg_r by lia; cbn; lia | apply Z.pow_le_mono_r; lia]).
    cbn in *. lia. }
  destruct (Z.lt_trichotomy (Zdigits2 n) d) as [Hlt | [Heq | Hgt]]; [| exact Heq |].
  - assert (2 ^ Zdigits2 n <= 2 ^ (d - 1)) by (apply Z.pow_le_mono_r; lia). lia.
  - assert (2 ^ d <= 2 ^ (Zdigits2 n - 1)) by (apply Z.pow_le_mono_r; lia). lia.
Qed.

Lemma Zdigits2_mul_pow2 (n k : Z) :
  0 < n -> 0 <= k -> Zdigits2 (n * 2 ^ k) = Zdigits2 n + k.
Proof.
  intros Hn Hk. pose proof (Zdigits2_bounds n Hn) as [Hlo Hhi].
  pose proof (Zdigits2_pos n Hn).
  assert (0 < 2 ^ k) by (apply Z.pow_pos_nonneg; lia).
  apply Zdigits2_unique; [nia |].
  replace (Zdigits2 n + k - 1) with ((Zdigits2 n - 1) + k) by lia.
  rewrite !Z.pow_add_r by lia. split; nia.
Qed.

Lemma Zdigits2_le (n m : Z) : 0 < n -> n <= m -> Zdigits2 n <= Zdigits2 m.
Proof.
  intros Hn Hm. pose proof (Zdigits2_bounds n Hn) as [Hlo _].
  pose proof (Zdigits2_bounds m ltac:(lia)) as [_ Hhi].
  destruct (Z_lt_le_dec (Zdigits2 m) (Zdigits2 n)); [| lia].
  assert (2 ^ Zdigits2 m <= 2 ^ (Zdigits2 n - 1)).
  { apply Z.pow_le_mono_r; [lia |]. lia. }
  lia.
Qed.

Lemma Zdigits2_lt_pow2 (n d : Z) : 0 < n -> 0 <= d -> n < 2 ^ d -> Zdigits2 n <= d.
Proof.
  intros Hn Hd H. pose proof (Zdigits2_bounds n Hn) as [Hlo _].
  destruct (Z_lt_le_dec d (Zdigits2 n)); [| lia].
  assert (2 ^ d <= 2 ^ (Zdigits2 n - 1)) by (apply Z.pow_le_mono_r; lia). lia.
Qed.


Lemma fexp64_eq (e : Z) : fexp64 e = Z.max (e - 53) (-1074).
Proof. reflexivity. Qed.

(** Exact right shifts *)
Lemma shr_1_double (z : Z) :
  0 <= z -> shr_1 (exact_record (2 * z)) = exact_record z.
Proof. destruct z as [| p | p]; [reflexivity | reflexivity | lia]. Qed.

Lemma iter_pos_shr_1_exact (n : positive) :
  forall z, 0 <= z ->
  iter_pos shr_1 n (exact_record (z * 2 ^ Zpos n)) = exact_record z.
Proof.
  induction n as [n IH | n IH |]; intros z Hz; cbn [iter_pos].
  - replace (z * 2 ^ Zpos n~1) with (2 * ((z * 2 ^ Zpos n) * 2 ^ Zpos n)).
    + rewrite shr_1_double by (apply Z.mul_nonneg_nonneg; [| lia];
        apply Z.mul_nonneg_nonneg; lia).
      rewrite IH by (apply Z.mul_nonneg_nonneg; lia). now apply IH.
    + rewrite Pos2Z.inj_xI, Z.pow_add_r, Z.pow_mul_r by lia.
      change (2 ^ 2) with 4. change (2 ^ 1) with 2.
      replace (4 ^ Zpos n) with (2 ^ Zpos n * 2 ^ Zpos n); [ring |].
      rewrite <- Z.pow_add_r by lia. replace (Zpos n + Zpos n) with (2 * Zpos n) by lia.
      now rewrite Z.pow_mul_r by lia.
  - replace (z * 2 ^ Zpos n~0) with ((z * 2 ^ Zpos n) * 2 ^ Zpos n).
    + rewrite IH by (apply Z.mul_nonneg_nonneg; lia). now apply IH.
    + rewrite Pos2Z.inj_xO. rewrite <- Z.mul_assoc, <- Z.pow_add_r by lia.
      f_equal. f_equal. lia.
  - change (2 ^ 1) with 2. rewrite Z.mul_comm. now apply shr_1_double.
Qed.

Lemma shr_exact (z e n : Z) :
  0 <= z -> 0 <= n ->
  shr (exact_record (z * 2 ^ n)) e n = (exact_record z, e + n).
Proof.
  intros Hz Hn. destruct n as [| p | p]; [| | lia].
  - cbn [shr]. now rewrite Z.mul_1_r, Z.add_0_r.
  - cbn [shr]. now rewrite iter_pos_shr_1_exact.
Qed.

(** Left shifts *)
Lemma Pos_iter_xO (m d : positive) :
  Zpos (Pos.iter xO m d) = Zpos m * 2 ^ Zpos d.
Proof.
  induction d as [| d IH] using Pos.peano_ind.
  - cbn. lia.
  - rewrite Pos.iter_succ, Pos2Z.inj_xO, IH, Pos2Z.inj_succ, Z.pow_succ_r by lia. ring.
Qed.

Lemma shl_align_spec (m : positive) (e e' : Z) :
  e' <= e ->
  shl_align m e e' = (Z.to_pos (Zpos m * 2 ^ (e - e')), e').
Proof.
  intros H. unfold shl_align.
  destruct (e' - e) as [| d | d] eqn:E; [| lia |].
  - replace (e - e') with 0 by lia. replace e' with e by lia.
    now rewrite Z.mul_1_r.
  - replace (e - e') with (Zpos d) by lia.
    rewrite <- Pos_iter_xO. reflexivity.
Qed.

(** Rounding a value that the format holds *)
Lemma binary_round_aux_exact (s : bool) (z e n : Z) :
  0 < z -> 0 <= n ->
  fexp64 (Zdigits2 z + n + e) = e + n ->
  e + n <= 971 ->
  binary_round_aux prec emax s (z * 2 ^ n) e loc_Exact
  = S754_finite s (Z.to_pos z) (e + n).
Proof.
  intros Hz Hn Hf Hmax. unfold binary_round_aux, shr_fexp.
  cbn [shr_record_of_loc].
  assert (Hd : Zdigits2 (z * 2 ^ n) = Zdigits2 z + n) by now apply Zdigits2_mul_pow2.
  rewrite Hd. change (SpecFloat.fexp prec emax) with fexp64.
  rewrite Hf. replace (e + n - e) with n by lia.
  change (Build_shr_record (z * 2 ^ n) false false) with (exact_record (z * 2 ^ n)).
  rewrite shr_exact by lia.
  cbn [exact_record shr_m loc_of_shr_record round_nearest_even shr_record_of_loc].
  replace (Zdigits2 z + (e + n)) with (Zdigits2 z + n + e) by lia.
  rewrite Hf, Z.sub_diag. cbn [shr shr_m].
  destruct z as [| p | p]; [lia | | lia].
  replace (e + n <=? emax - prec) with true; [reflexivity |].
  symmetry. apply Z.leb_le. unfold emax, prec. lia.
Qed.


Lemma shl_align_noop (m : positive) (e e' : Z) :
  e <= e' -> shl_align m e e' = (m, e).
Proof.
  intros H. unfold shl_align. destruct (e' - e) eqn:E; try reflexivity. lia.
Qed.

Lemma fexp64_ge (e : Z) : -1074 <= fexp64 e.
Proof. rewrite fexp64_eq. lia. Qed.

Lemma holds_nonneg (x : float) (w : Z) : holds x w -> 0 <= w.
Proof.
  destruct x as [[|] | | | [|] m e]; cbn [holds]; try tauto; lia.
Qed.

Lemma holds_inj (x y : float) (w : Z) : holds x w -> holds y w -> x = y.
Proof.
  destruct x as [[|] | | | [|] m1 e1]; cbn [holds]; try tauto;
    destruct y as [[|] | | | [|] m2 e2]; cbn [holds]; try tauto.
  - intros -> (Hc & _ & H). pose proof (fexp64_ge (Zdigits2 (Zpos m2) + e2)).
    assert (0 < 2 ^ (e2 + 1074)) by (apply Z.pow_pos_nonneg; lia). nia.
  - intros (Hc & _ & ->) H. pose proof (fexp64_ge (Zdigits2 (Zpos m1) + e1)).
    assert (0 < 2 ^ (e1 + 1074)) by (apply Z.pow_pos_nonneg; lia). nia.
  - intros (Hc1 & _ & ->) (Hc2 & _ & H).
    pose proof (fexp64_ge (Zdigits2 (Zpos m1) + e1)).
    pose proof (fexp64_ge (Zdigits2 (Zpos m2) + e2)).
    assert (Hd : Zdigits2 (Zpos m1) + e1 = Zdigits2 (Zpos m2) + e2).
    { pose proof (Zdigits2_mul_pow2 (Zpos m1) (e1 + 1074) ltac:(lia) ltac:(lia)) as D1.
      pose proof (Zdigits2_mul_pow2 (Zpos m2) (e2 + 1074) ltac:(lia) ltac:(lia)) as D2.
      rewrite H in D1. lia. }
    assert (e1 = e2) by congruence. subst e2.
    assert (0 < 2 ^ (e1 + 1074)) by (apply Z.pow_pos_nonneg; lia).
    assert (Zpos m1 = Zpos m2) by nia. congruence.
Qed.

(** Rounding a positive value [d * 2 ^ e] that the format holds gives
    that value. *)
Lemma holds_binary_round (d : positive) (e : Z) :
  -1074 <= e ->
  let ec := fexp64 (Zdigits2 (Zpos d) + e) in
  ec <= 971 ->
  (ec <= e \/ (2 ^ (ec - e) | Zpos d)) ->
  holds (binary_round prec emax false d e) (Zpos d * 2 ^ (e + 1074)).
Proof.
  intros He ec Hmax Hrep. unfold binary_round.
  change (SpecFloat.fexp prec emax (Zpos (digits2_pos d) + e)) with ec.
  destruct (Z_le_gt_dec ec e) as [Hle | Hgt].
  - rewrite shl_align_spec by exact Hle.
    assert (Hp : 0 < Zpos d * 2 ^ (e - ec))
      by (apply Z.mul_pos_pos; [lia | apply Z.pow_pos_nonneg; lia]).
    rewrite Z2Pos.id by exact Hp.
    pose proof (binary_round_aux_exact false (Zpos d * 2 ^ (e - ec)) ec 0 Hp (Z.le_refl 0)) as R.
    rewrite Z.mul_1_r, !Z.add_0_r in R.
    rewrite Zdigits2_mul_pow2 in R by lia.
    replace (Zdigits2 (Zpos d) + (e - ec) + ec) with (Zdigits2 (Zpos d) + e) in R by lia.
    rewrite R by (try reflexivity; exact Hmax).
    cbn [holds]. rewrite Z2Pos.id by exact Hp.
    rewrite Zdigits2_mul_pow2 by lia.
    replace (Zdigits2 (Zpos d) + (e - ec) + ec) with (Zdigits2 (Zpos d) + e) by lia.
    repeat split; [exact Hmax |].
    rewrite <- Z.mul_assoc, <- Z.pow_add_r by (pose proof (fexp64_ge (Zdigits2 (Zpos d) + e)); fold ec in H; lia).
    f_equal. f_equal. lia.
  - rewrite shl_align_noop by lia.
    destruct Hrep as [Hle | [z Hz]]; [lia |].
    assert (Hpow : 0 < 2 ^ (ec - e)) by (apply Z.pow_pos_nonneg; lia).
    assert (Hzpos : 0 < z) by nia.
    rewrite Hz.
    pose proof (binary_round_aux_exact false z e (ec - e) Hzpos ltac:(lia)) as R.
    assert (Hdz : Zdigits2 z + (ec - e) = Zdigits2 (Zpos d))
      by (rewrite Hz; symmetry; apply Zdigits2_mul_pow2; lia).
    replace (Zdigits2 z + (ec - e) + e) with (Zdigits2 (Zpos d) + e) in R by lia.
    replace (e + (ec - e)) with ec in R by lia.
    rewrite R by (try reflexivity; exact Hmax).
    cbn [holds]. rewrite Z2Pos.id by exact Hzpos.
    replace (Zdigits2 z + ec) with (Zdigits2 (Zpos d) + e) by lia.
    repeat split; [exact Hmax |].
    rewrite <- Z.mul_assoc, <- Z.pow_add_r by lia. f_equal. f_equal. lia.
Qed.

Lemma holds_binary_normalize (d e : Z) :
  0 <= d -> -1074 <= e ->
  let ec := fexp64 (Zdigits2 d + e) in
  ec <= 971 ->
  (ec <= e \/ (2 ^ (ec - e) | d)) ->
  holds (binary_normalize prec emax d e false) (d * 2 ^ (e + 1074)).
Proof.
  intros Hd He ec Hmax Hrep. destruct d as [| p | p]; [reflexivity | | lia].
  now apply holds_binary_round.
Qed.


Lemma holds_mantissa_bound (s : bool) (m : positive) (e w : Z) :
  holds (S754_finite s m e) w ->
  s = false /\ Zpos m < 2 ^ 53 /\ -1074 <= e /\ e <= 971
  /\ w = Zpos m * 2 ^ (e + 1074) /\ 0 < w.
Proof.
  destruct s; cbn [holds]; [tauto |]. intros (Hc & Hmax & Hw).
  pose proof (fexp64_ge (Zdigits2 (Zpos m) + e)) as Hge. rewrite Hc in Hge.
  assert (Hd : Zdigits2 (Zpos m) <= 53) by (rewrite fexp64_eq in Hc; lia).
  pose proof (Zdigits2_bounds (Zpos m) ltac:(lia)) as [_ Hhi].
  assert (2 ^ Zdigits2 (Zpos m) <= 2 ^ 53) by (apply Z.pow_le_mono_r; lia).
  assert (0 < 2 ^ (e + 1074)) by (apply Z.pow_pos_nonneg; lia).
  repeat split; lia.
Qed.

Lemma holds_zero_inv (x : float) : holds x 0 -> x = S754_zero false.
Proof. intros H. apply (holds_inj x (S754_zero false) 0 H). reflexivity. Qed.

Lemma fits_small_multiple (k : Z) :
  0 <= k < 2 ^ 53 -> fits (k * 2 ^ 1074).
Proof.
  intros [Hk0 Hk]. unfold fits.
  destruct (Z.eq_dec k 0) as [-> | Hne]; [cbn; apply Z.divide_0_r |].
  rewrite Zdigits2_mul_pow2 by lia.
  pose proof (Zdigits2_lt_pow2 k 53 ltac:(lia) ltac:(lia) Hk).
  pose proof (Zdigits2_pos k ltac:(lia)).
  exists (k * 2 ^ (1074 - Z.max (Zdigits2 k + 1074 - 53) 0)).
  rewrite <- Z.mul_assoc, <- Z.pow_add_r by lia. f_equal. f_equal. lia.
Qed.

(** The general exact rounding, in units of [2 ^ -1074]. *)
Lemma holds_binary_normalize_fits (d e : Z) :
  0 <= d -> -1074 <= e ->
  fits (d * 2 ^ (e + 1074)) ->
  Zdigits2 d + e <= 1024 ->
  holds (binary_normalize prec emax d e false) (d * 2 ^ (e + 1074)).
Proof.
  intros Hd He Hfit Hmax.
  destruct (Z.eq_dec d 0) as [-> | Hne]; [reflexivity |].
  apply holds_binary_normalize; try assumption.
  - rewrite fexp64_eq. lia.
  - unfold fits in Hfit. rewrite Zdigits2_mul_pow2 in Hfit by lia.
    rewrite fexp64_eq.
    destruct (Z_le_gt_dec (Z.max (Zdigits2 d + e - 53) (-1074)) e) as [Hle | Hgt];
      [left; exact Hle | right].
    destruct Hfit as [c Hc].
    replace (Z.max (Zdigits2 d + (e + 1074) - 53) 0)
      with ((Z.max (Zdigits2 d + e - 53) (-1074) - e) + (e + 1074)) in Hc by lia.
    rewrite (Z.pow_add_r 2 (Z.max (Zdigits2 d + e - 53) (-1074) - e) (e + 1074)) in Hc
      by lia.
    rewrite Z.mul_assoc in Hc.
    exists c.
    assert (0 < 2 ^ (e + 1074)) by (apply Z.pow_pos_nonneg; lia).
    nia.
Qed.

Lemma holds_of_Z (k : Z) : 0 <= k < 2 ^ 53 -> holds (of_Z k) (k * 2 ^ 1074).
Proof.
  intros Hk. unfold of_Z.
  change (k * 2 ^ 1074) with (k * 2 ^ (0 + 1074)).
  apply holds_binary_normalize_fits; try lia.
  - now apply fits_small_multiple.
  - destruct (Z.eq_dec k 0) as [-> | Hne]; [cbn; lia |].
    pose proof (Zdigits2_lt_pow2 k 53 ltac:(lia) ltac:(lia) ltac:(lia)). lia.
Qed.

(** [fmod] is exact. *)
Lemma holds_fmod (x y : float) (wx wy : Z) :
  holds x wx -> holds y wy -> 0 < wy -> holds (fmod x y) (wx mod wy).
Proof.
  intros Hx Hy Hpos.
  destruct y as [[|] | | | sy my ey]; cbn [holds] in Hy; try tauto; try lia.
  apply holds_mantissa_bound in Hy as (-> & Hmy & Hey & Hymax & -> & _).
  destruct x as [[|] | | | sx mx ex]; cbn [holds] in Hx; try tauto.
  - subst wx. rewrite Z.mod_0_l by lia. reflexivity.
  - apply holds_mantissa_bound in Hx as (-> & Hmx & Hex & Hxmax & -> & _).
    cbn [fmod cond_Zopp].
    set (e0 := Z.min ex ey).
    set (ax := Zpos mx * 2 ^ (ex - e0)). set (ay := Zpos my * 2 ^ (ey - e0)).
    assert (Hax : Zpos mx * 2 ^ (ex + 1074) = ax * 2 ^ (e0 + 1074)).
    { unfold ax. rewrite <- Z.mul_assoc, <- Z.pow_add_r by lia. f_equal. f_equal. lia. }
    assert (Hay : Zpos my * 2 ^ (ey + 1074) = ay * 2 ^ (e0 + 1074)).
    { unfold ay. rewrite <- Z.mul_assoc, <- Z.pow_add_r by lia. f_equal. f_equal. lia. }
    assert (Hp0 : 0 < 2 ^ (e0 + 1074)) by (apply Z.pow_pos_nonneg; lia).
    assert (Hayp : 0 < ay) by (unfold ay; apply Z.mul_pos_pos; [lia | apply Z.pow_pos_nonneg; lia]).
    assert (Haxp : 0 < ax) by (unfold ax; apply Z.mul_pos_pos; [lia | apply Z.pow_pos_nonneg; lia]).
    rewrite Hax, Hay, Z.mul_mod_distr_r by lia.
    pose proof (Z.mod_pos_bound ax ay Hayp) as [Hr0 Hr1].
    pose proof (Z.mod_le ax ay ltac:(lia) Hayp) as Hr2.
    assert (Hsmall : ax mod ay < 2 ^ 53).
    { destruct (Z_le_gt_dec ex ey).
      - assert (ax = Zpos mx) by (unfold ax, e0; rewrite Z.min_l by lia;
          rewrite Z.sub_diag; lia). lia.
      - assert (ay = Zpos my) by (unfold ay, e0; rewrite Z.min_r by lia;
          rewrite Z.sub_diag; lia). lia. }
    destruct (Z.eq_dec (ax mod ay) 0) as [Hz | Hnz]; [rewrite Hz; reflexivity |].
    pose proof (Zdigits2_lt_pow2 (ax mod ay) 53 ltac:(lia) ltac:(lia) Hsmall) as Hdig.
    apply holds_binary_normalize; try lia.
    + rewrite fexp64_eq. lia.
    + left. rewrite fexp64_eq. lia.
Qed.


(** A subtraction whose result the format holds is exact. *)
Lemma holds_fsub (x y : float) (wx wy : Z) :
  holds x wx -> holds y wy -> wy <= wx -> fits (wx - wy) ->
  holds (fsub x y) (wx - wy).
Proof.
  intros Hx Hy Hle Hfit.
  destruct y as [[|] | | | sy my ey]; cbn [holds] in Hy; try tauto.
  - subst wy. rewrite Z.sub_0_r.
    destruct x as [[|] | | | [|] mx ex]; cbn [holds] in Hx; try tauto; exact Hx.
  - apply holds_mantissa_bound in Hy as (-> & Hmy & Hey & Hymax & -> & Hwy).
    destruct x as [[|] | | | sx mx ex]; cbn [holds] in Hx; try tauto; try lia.
    apply holds_mantissa_bound in Hx as (-> & Hmx & Hex & Hxmax & -> & Hwx).
    unfold fsub, SFsub. cbn [cond_Zopp].
    set (ez := Z.min ex ey).
    rewrite !shl_align_spec by (unfold ez; lia). cbn [fst].
    assert (Hpx : 0 < 2 ^ (ex - ez)) by (apply Z.pow_pos_nonneg; unfold ez; lia).
    assert (Hpy : 0 < 2 ^ (ey - ez)) by (apply Z.pow_pos_nonneg; unfold ez; lia).
    rewrite !Z2Pos.id by (apply Z.mul_pos_pos; lia).
    set (ax := Zpos mx * 2 ^ (ex - ez)). set (ay := Zpos my * 2 ^ (ey - ez)).
    assert (Hez : -1074 <= ez) by (unfold ez; lia).
    assert (Hp0 : 0 < 2 ^ (ez + 1074)) by (apply Z.pow_pos_nonneg; lia).
    assert (Hax : Zpos mx * 2 ^ (ex + 1074) = ax * 2 ^ (ez + 1074)).
    { unfold ax. rewrite <- Z.mul_assoc, <- Z.pow_add_r by (unfold ez; lia).
      f_equal. f_equal. lia. }
    assert (Hay : Zpos my * 2 ^ (ey + 1074) = ay * 2 ^ (ez + 1074)).
    { unfold ay. rewrite <- Z.mul_assoc, <- Z.pow_add_r by (unfold ez; lia).
      f_equal. f_equal. lia. }
    rewrite Hax, Hay in *. rewrite <- Z.mul_sub_distr_r in *.
    assert (Hd : 0 <= ax - ay) by nia.
    apply holds_binary_normalize_fits; try assumption.
    destruct (Z.eq_dec (ax - ay) 0) as [-> | Hne]; [cbn; lia |].
    assert (Hdax : Zdigits2 ax = Zdigits2 (Zpos mx) + (ex - ez))
      by (unfold ax; apply Zdigits2_mul_pow2; unfold ez; lia).
    pose proof (Zdigits2_le (ax - ay) ax ltac:(lia) ltac:(unfold ay; nia)).
    pose proof (Zdigits2_lt_pow2 (Zpos mx) 53 ltac:(lia) ltac:(lia) Hmx). lia.
Qed.

Lemma div_eucl_exact (a b : Z) : 0 < b -> Z.div_eucl (b * a) b = (a, 0).
Proof.
  intros Hb. pose proof (Z.div_mul a b ltac:(lia)) as Hq.
  pose proof (Z.mod_mul a b ltac:(lia)) as Hr.
  rewrite Z.mul_comm in Hq, Hr. unfold Z.div, Z.modulo in Hq, Hr.
  destruct (Z.div_eucl (b * a) b) as [q r]. cbn in Hq, Hr. congruence.
Qed.

Lemma new_location_exact (n : Z) : new_location n 0 = loc_Exact.
Proof.
  unfold new_location, new_location_even, new_location_odd.
  destruct (Z.even n); reflexivity.
Qed.

(** A division whose quotient is a small integer is exact. *)
Lemma fdiv_exact (x y : float) (wy q : Z) :
  holds x (wy * q) -> holds y wy -> 0 < wy -> 0 <= q < 2 ^ 53 ->
  fdiv x y = of_Z q.
Proof.
  intros Hx Hy Hwy [Hq0 Hq].
  destruct y as [[|] | | | sy my ey]; cbn [holds] in Hy; try tauto; try lia.
  apply holds_mantissa_bound in Hy as (-> & Hmy & Hey & Hymax & -> & _).
  destruct (Z.eq_dec q 0) as [-> | Hqne].
  { rewrite Z.mul_0_r in Hx. rewrite (holds_zero_inv x Hx). reflexivity. }
  destruct x as [[|] | | | sx mx ex]; cbn [holds] in Hx; try tauto; try nia.
  apply holds_mantissa_bound in Hx as (-> & Hmx & Hex & Hxmax & Hval & _).
  apply (holds_inj _ _ (q * 2 ^ 1074)); [| apply holds_of_Z; lia].
  pose proof (Zdigits2_pos q ltac:(lia)) as Hdq0.
  pose proof (Zdigits2_lt_pow2 q 53 ltac:(lia) ltac:(lia) Hq) as Hdq.
  pose proof (Zdigits2_bounds q ltac:(lia)) as [_ Hqhi].
  set (d1 := Zdigits2 (Zpos mx)) in *. set (d2 := Zdigits2 (Zpos my)) in *.
  assert (Hdelta : d1 + ex - (d2 + ey) <= Zdigits2 q).
  { pose proof (Zdigits2_mul_pow2 (Zpos mx) (ex + 1074) ltac:(lia) ltac:(lia)) as D1.
    pose proof (Zdigits2_mul_pow2 (Zpos my) (ey + 1074) ltac:(lia) ltac:(lia)) as D2.
    fold d1 in D1. fold d2 in D2.
    set (wy := Zpos my * 2 ^ (ey + 1074)) in *.
    assert (Hwy0 : 0 < wy) by (unfold wy; apply Z.mul_pos_pos;
      [lia | apply Z.pow_pos_nonneg; lia]).
    pose proof (Zdigits2_bounds wy Hwy0) as [_ Hwhi].
    pose proof (Zdigits2_pos wy Hwy0).
    assert (wy * q < 2 ^ (Zdigits2 wy + Zdigits2 q)).
    { rewrite Z.pow_add_r by lia. nia. }
    pose proof (Zdigits2_lt_pow2 (wy * q) (Zdigits2 wy + Zdigits2 q)
                  ltac:(nia) ltac:(lia) ltac:(assumption)).
    rewrite <- Hval in D1. lia. }
  unfold fdiv, SFdiv, SFdiv_core_binary.
  fold d1 d2. change (SpecFloat.fexp prec emax) with fexp64.
  set (e' := Z.min (fexp64 (d1 + ex - (d2 + ey))) (ex - ey)).
  assert (He' : e' <= Zdigits2 q - 53).
  { unfold e'. rewrite fexp64_eq. lia. }
  assert (He'lo : -1074 + Z.min 0 (ex - ey - (-1074)) <= e').
  { unfold e'. rewrite fexp64_eq. lia. }
  set (t := - e').
  assert (Hs : ex - ey - e' = ex - ey + t) by (unfold t; lia).
  assert (Hs0 : 0 <= ex - ey + t) by (unfold t, e'; lia).
  assert (Hm' : match ex - ey - e' with
                | 0 => Zpos mx
                | Zpos _ => Z.shiftl (Zpos mx) (ex - ey - e')
                | Zneg _ => 0
                end = Zpos my * (q * 2 ^ t)).
  { assert (Hshift : match ex - ey - e' with
                     | 0 => Zpos mx
                     | Zpos _ => Z.shiftl (Zpos mx) (ex - ey - e')
                     | Zneg _ => 0
                     end = Zpos mx * 2 ^ (ex - ey + t)).
    { rewrite Hs. destruct (ex - ey + t) as [| p | p] eqn:E; [lia | | lia].
      rewrite Z.shiftl_mul_pow2 by lia. reflexivity. }
    rewrite Hshift.
    assert (Hp : 0 < 2 ^ (ey + 1074)) by (apply Z.pow_pos_nonneg; lia).
    assert (HE : 2 ^ (ex - ey + t) * 2 ^ (ey + 1074) = 2 ^ (ex + 1074) * 2 ^ t).
    { rewrite <- !Z.pow_add_r by (unfold t; lia). f_equal. lia. }
    apply (Z.mul_reg_r _ _ (2 ^ (ey + 1074))); [lia |].
    transitivity (Zpos mx * 2 ^ (ex + 1074) * 2 ^ t).
    - rewrite <- !Z.mul_assoc. f_equal. exact HE.
    - rewrite <- Hval. ring. }
  rewrite Hm', div_eucl_exact by lia. rewrite new_location_exact.
  cbn [xorb].
  replace (q * 2 ^ t) with ((q * 2 ^ (53 - Zdigits2 q)) * 2 ^ (Zdigits2 q - 53 + t)).
  2:{ rewrite <- Z.mul_assoc, <- Z.pow_add_r by (unfold t; lia). f_equal. f_equal. lia. }
  assert (Hz : 0 < q * 2 ^ (53 - Zdigits2 q))
    by (apply Z.mul_pos_pos; [lia | apply Z.pow_pos_nonneg; lia]).
  assert (Hdz : Zdigits2 (q * 2 ^ (53 - Zdigits2 q)) = 53)
    by (rewrite Zdigits2_mul_pow2 by lia; lia).
  rewrite binary_round_aux_exact; try assumption; try (unfold t; lia).
  - cbn [holds]. rewrite Z2Pos.id by assumption. rewrite Hdz.
    replace (e' + (Zdigits2 q - 53 + t)) with (Zdigits2 q - 53) by (unfold t; lia).
    rewrite fexp64_eq. repeat split; try lia.
    rewrite <- Z.mul_assoc, <- Z.pow_add_r by lia. f_equal. f_equal. lia.
  - rewrite Hdz, fexp64_eq. unfold t. lia.
Qed.

(** [floor] leaves a small integer alone. *)
Lemma floor_integer (x : float) (k : Z) :
  holds x (k * 2 ^ 1074) -> 0 <= k < 2 ^ 53 -> floor x = x.
Proof.
  intros Hx Hk.
  destruct x as [[|] | | | sx mx ex]; cbn [holds] in Hx; try tauto; try reflexivity.
  pose proof Hx as Hx'.
  apply holds_mantissa_bound in Hx as (-> & Hmx & Hex & Hxmax & Hval & _).
  cbn [floor cond_Zopp]. destruct (Z.leb_spec 0 ex) as [Hle | Hlt]; [reflexivity |].
  assert (Hm : Zpos mx = k * 2 ^ (- ex)).
  { assert (Hp : 0 < 2 ^ (ex + 1074)) by (apply Z.pow_pos_nonneg; lia).
    apply (Z.mul_reg_r _ _ (2 ^ (ex + 1074))); [lia |].
    rewrite <- Hval, <- Z.mul_assoc, <- Z.pow_add_r by lia.
    f_equal. f_equal. lia. }
  rewrite Hm, Z.div_mul by (apply Z.pow_nonzero; lia).
  apply (holds_inj _ _ (k * 2 ^ 1074)); [| exact Hx'].
  apply holds_of_Z. exact Hk.
Qed.

(** [int] of a float that is not negative. *)
Lemma int_of_float_holds (x : float) (w : Z) :
  holds x w -> int_of_float x = Return (w / 2 ^ 1074).
Proof.
  intros Hx.
  destruct x as [[|] | | | sx mx ex]; cbn [holds] in Hx; try tauto.
  - subst w. reflexivity.
  - apply holds_mantissa_bound in Hx as (-> & Hmx & Hex & Hxmax & -> & _).
    cbn [int_of_float cond_Zopp]. f_equal.
    destruct (Z.leb_spec 0 ex) as [Hle | Hlt].
    + replace (ex + 1074) with (ex + 1074 - 1074 + 1074) by lia.
      rewrite (Z.pow_add_r 2 (ex + 1074 - 1074) 1074), Z.mul_assoc, Z.div_mul by lia.
      f_equal. f_equal. lia.
    + replace (2 ^ 1074) with (2 ^ (- ex) * 2 ^ (ex + 1074))
        by (rewrite <- Z.pow_add_r by lia; f_equal; lia).
      rewrite Z.div_mul_cancel_r; [reflexivity | |]; apply Z.pow_nonzero; lia.
Qed.

Lemma fltb_zero_holds (x : float) (w : Z) : holds x w -> fltb x zero = false.
Proof.
  destruct x as [[|] | | | [|] m e]; cbn [holds]; try tauto; reflexivity.
Qed.

Lemma nonzero_holds (x : float) (w : Z) :
  holds x w -> nonzero x = negb (w =? 0).
Proof.
  destruct x as [[|] | | | sx m e]; cbn [holds]; try tauto.
  - intros ->. reflexivity.
  - intros H. apply holds_mantissa_bound in H as (-> & _ & _ & _ & _ & Hw).
    destruct (Z.eqb_spec w 0); [lia | reflexivity].
Qed.

Lemma sign_bit_holds (x : float) (w : Z) : holds x w -> sign_bit x = false.
Proof.
  destruct x as [[|] | | | [|] m e]; cbn [holds]; try tauto; reflexivity.
Qed.

Lemma sign_bit_binary_round_aux (m e : Z) (l : location) :
  sign_bit (binary_round_aux prec emax false m e l) = false.
Proof.
  unfold binary_round_aux.
  destruct (shr_fexp prec emax m e l) as [mrs' e'].
  destruct (shr_fexp prec emax _ e' loc_Exact) as [mrs'' e''].
  destruct (shr_m mrs''); try reflexivity.
  destruct (e'' <=? emax - prec); reflexivity.
Qed.

Lemma sign_bit_fdiv (x y : float) (wx wy : Z) :
  holds x wx -> holds y wy -> sign_bit (fdiv x y) = false.
Proof.
  intros Hx Hy.
  destruct x as [[|] | | | [|] mx ex]; cbn [holds] in Hx; try tauto;
    destruct y as [[|] | | | [|] my ey]; cbn [holds] in Hy; try tauto;
    try reflexivity.
  unfold fdiv, SFdiv.
  destruct (SFdiv_core_binary prec emax (Zpos mx) ex (Zpos my) ey) as [[mz ez] lz].
  apply sign_bit_binary_round_aux.
Qed.


Lemma feqb_zero_holds (x : float) (w : Z) :
  holds x w -> feqb x zero = (w =? 0).
Proof.
  intros H. pose proof (nonzero_holds x w H) as N. unfold nonzero in N.
  destruct (feqb x zero), (w =? 0); cbn in N; congruence.
Qed.

(** Floor division of a float that is not negative by a small positive
    integer is the floor division of the integer parts. *)
Lemma float_floordiv_exact (x : float) (w b : Z) :
  holds x w -> w / 2 ^ 1074 < 2 ^ 53 -> 0 < b < 2 ^ 53 ->
  float_floordiv x (of_Z b) = Return (of_Z (w / 2 ^ 1074 / b)).
Proof.
  intros Hx Hw Hb.
  pose proof (holds_of_Z b ltac:(lia)) as Hy.
  pose proof (holds_nonneg x w Hx) as Hw0.
  set (y := of_Z b) in *. set (wy := b * 2 ^ 1074) in *.
  assert (Hp : 0 < 2 ^ 1074) by (apply Z.pow_pos_nonneg; lia).
  assert (Hwy : 0 < wy) by (unfold wy; nia).
  assert (Hq : w / 2 ^ 1074 / b = w / wy).
  { unfold wy. rewrite (Z.mul_comm b). rewrite Z.div_div by lia. reflexivity. }
  rewrite Hq. set (q := w / wy).
  assert (Hq0 : 0 <= q) by (apply Z.div_pos; lia).
  assert (Hbq : b * q <= w / 2 ^ 1074).
  { apply Z.div_le_lower_bound; [lia |].
    pose proof (Z.mul_div_le w wy Hwy). fold q in H. unfold wy in H. nia. }
  assert (Hqb : q < 2 ^ 53) by nia.
  pose proof (holds_fmod x y w wy Hx Hy Hwy) as Hmod.
  pose proof (Z.mod_pos_bound w wy Hwy) as [Hr0 Hr1].
  assert (Hsplit : w - w mod wy = wy * q).
  { pose proof (Z.div_mod w wy ltac:(lia)). fold q in H. lia. }
  assert (Hsub : holds (fsub x (fmod x y)) (wy * q)).
  { rewrite <- Hsplit. apply holds_fsub; try assumption.
    - pose proof (Z.mod_le w wy Hw0 Hwy). lia.
    - rewrite Hsplit. replace (wy * q) with ((b * q) * 2 ^ 1074) by (unfold wy; ring).
      apply fits_small_multiple. nia. }
  pose proof (fdiv_exact _ y wy q Hsub Hy Hwy ltac:(lia)) as Hdiv.
  pose proof (holds_of_Z q ltac:(lia)) as Hoq.
  assert (Hsnap : (if nonzero (of_Z q)
                   then if fltb half (fsub (of_Z q) (floor (of_Z q)))
                        then fadd (floor (of_Z q)) one else floor (of_Z q)
                   else S754_zero (sign_bit (fdiv x y))) = of_Z q).
  { rewrite (nonzero_holds _ _ Hoq).
    destruct (Z.eqb_spec (q * 2 ^ 1074) 0) as [Hz | Hnz]; cbn [negb].
    - rewrite (sign_bit_fdiv x y w wy Hx Hy).
      assert (Hq00 : q = 0) by nia. now rewrite Hq00.
    - rewrite (floor_integer _ q Hoq ltac:(lia)).
      assert (Hzero : fsub (of_Z q) (of_Z q) = S754_zero false).
      { apply holds_zero_inv. rewrite <- (Z.sub_diag (q * 2 ^ 1074)).
        apply holds_fsub; try assumption; try lia.
        rewrite Z.sub_diag. apply Z.divide_0_r. }
      rewrite Hzero. reflexivity. }
  unfold float_floordiv.
  rewrite (feqb_zero_holds y wy Hy).
  destruct (Z.eqb_spec wy 0) as [| _]; [lia |].
  unfold float_div_mod. rewrite Hdiv.
  rewrite (fltb_zero_holds y wy Hy), (fltb_zero_holds _ _ Hmod).
  cbn [Bool.eqb negb]. f_equal.
  destruct (nonzero (fmod x y)); cbn [fst]; exact Hsnap.
Qed.

(** The remainder of such a division is exact. *)
Lemma float_mod_exact (x : float) (w b : Z) :
  holds x w -> 0 < b < 2 ^ 53 ->
  exists r, float_mod x (of_Z b) = Return r /\ holds r (w mod (b * 2 ^ 1074)).
Proof.
  intros Hx Hb.
  pose proof (holds_of_Z b ltac:(lia)) as Hy.
  set (y := of_Z b) in *. set (wy := b * 2 ^ 1074) in *.
  assert (Hp : 0 < 2 ^ 1074) by (apply Z.pow_pos_nonneg; lia).
  assert (Hwy : 0 < wy) by (unfold wy; nia).
  pose proof (holds_fmod x y w wy Hx Hy Hwy) as Hmod.
  unfold float_mod. rewrite (feqb_zero_holds y wy Hy).
  destruct (Z.eqb_spec wy 0) as [| _]; [lia |].
  rewrite (fltb_zero_holds y wy Hy), (fltb_zero_holds _ _ Hmod).
  cbn [Bool.eqb negb]. rewrite (nonzero_holds _ _ Hmod).
  rewrite (sign_bit_holds y wy Hy).
  destruct (Z.eqb_spec (w mod wy) 0) as [Hz | Hnz]; cbn [negb].
  - eexists. split; [reflexivity |]. rewrite Hz. reflexivity.
  - eexists. split; [reflexivity | exact Hmod].
Qed.


Lemma nonneg_finite_holds (x : float) :
  nonneg_finite x = true -> exists w, holds x w.
Proof.
  destruct x as [[|] | | | [|] m e]; cbn [nonneg_finite]; try discriminate.
  - intros _. exists 0. reflexivity.
  - intros H. exists (Zpos m * 2 ^ (e + 1074)). cbn [holds].
    unfold bounded, canonical_mantissa in H. apply andb_prop in H as [Hc Hb].
    apply Z.eqb_eq in Hc. apply Z.leb_le in Hb.
    repeat split; [exact Hc | exact Hb].
Qed.

Lemma int_of_float_of_Z (k : Z) : 0 <= k < 2 ^ 53 -> int_of_float (of_Z k) = Return k.
Proof.
  intros Hk. rewrite (int_of_float_holds _ _ (holds_of_Z k Hk)).
  now rewrite Z.div_mul by (apply Z.pow_nonzero; lia).
Qed.

Lemma mod_scaled_div (w b s : Z) :
  0 < s -> 0 < b -> (w mod (b * s)) / s = (w / s) mod b.
Proof.
  intros Hs Hb.
  pose proof (Z.div_mod w (b * s) ltac:(nia)) as Hw.
  pose proof (Z.mod_pos_bound w (b * s) ltac:(nia)) as [Hr0 Hr1].
  set (r := w mod (b * s)) in *. set (q := w / (b * s)) in *.
  assert (Hdiv : w / s = r / s + q * b).
  { rewrite Hw. replace (b * s * q + r) with (r + (q * b) * s) by ring.
    now rewrite Z.div_add by lia. }
  rewrite Hdiv, Z.mod_add by lia.
  symmetry. apply Z.mod_small. split.
  - apply Z.div_pos; lia.
  - apply Z.div_lt_upper_bound; lia.
Qed.

(** Overflow *)

Lemma shr_1_bounds (mrs : shr_record) :
  0 <= shr_m mrs -> 0 <= shr_m (shr_1 mrs) <= shr_m mrs.
Proof.
  destruct mrs as [m r s]. cbn [shr_m]. intros H.
  destruct m as [| [p | p |] | p]; cbn [shr_1 shr_m]; lia.
Qed.

Lemma iter_pos_shr_1_bounds (n : positive) :
  forall mrs, 0 <= shr_m mrs ->
  0 <= shr_m (iter_pos shr_1 n mrs) <= shr_m mrs.
Proof.
  induction n as [n IH | n IH |]; intros mrs H; cbn [iter_pos].
  - pose proof (shr_1_bounds mrs H) as B1.
    pose proof (IH _ (proj1 B1)) as B2.
    pose proof (IH _ (proj1 B2)) as B3. lia.
  - pose proof (IH _ H) as B2.
    pose proof (IH _ (proj1 B2)) as B3. lia.
  - now apply shr_1_bounds.
Qed.

Lemma shr_record_of_loc_m (m : Z) (l : location) : shr_m (shr_record_of_loc m l) = m.
Proof. destruct l as [| []]; reflexivity. Qed.

(** One shift to the format: the mantissa does not grow and the
    exponent is the old one or the one of the format. *)
Lemma shr_fexp_bounds (m e : Z) (l : location) :
  0 <= m ->
  let '(mrs, e') := shr_fexp prec emax m e l in
  0 <= shr_m mrs <= m /\ (e' = e \/ e' = fexp64 (Zdigits2 m + e)).
Proof.
  intros Hm. unfold shr_fexp, shr.
  change (SpecFloat.fexp prec emax) with fexp64.
  destruct (fexp64 (Zdigits2 m + e) - e) as [| p | p] eqn:E.
  - rewrite shr_record_of_loc_m. split; [lia | left; reflexivity].
  - pose proof (iter_pos_shr_1_bounds p (shr_record_of_loc m l)) as B.
    rewrite shr_record_of_loc_m in B. split; [apply B; exact Hm | right; lia].
  - rewrite shr_record_of_loc_m. split; [lia | left; reflexivity].
Qed.

Lemma round_nearest_even_bounds (m : Z) (l : location) :
  0 <= m -> 0 <= round_nearest_even m l <= m + 1.
Proof.
  intros H. destruct l as [| []]; cbn [round_nearest_even]; try lia.
  destruct (Z.even m); lia.
Qed.

(** Rounding a moderate value does not overflow. *)
Lemma binary_round_aux_finite (s : bool) (m e : Z) (l : location) :
  0 <= m < 2 ^ 400 -> e <= 0 ->
  forall s', binary_round_aux prec emax s m e l <> S754_infinity s'.
Proof.
  intros [Hm0 Hm] He s'. unfold binary_round_aux.
  pose proof (shr_fexp_bounds m e l Hm0) as B1.
  destruct (shr_fexp prec emax m e l) as [mrs' e'].
  destruct B1 as [Bm1 Be1].
  pose proof (round_nearest_even_bounds (shr_m mrs') (loc_of_shr_record mrs')
                (proj1 Bm1)) as Br.
  set (m1 := round_nearest_even (shr_m mrs') (loc_of_shr_record mrs')) in *.
  pose proof (shr_fexp_bounds m1 e' loc_Exact (proj1 Br)) as B2.
  destruct (shr_fexp prec emax m1 e' loc_Exact) as [mrs'' e''].
  destruct B2 as [Bm2 Be2].
  assert (Hd : Zdigits2 m <= 400).
  { destruct (Z.eq_dec m 0) as [-> | Hne]; [cbn; lia |].
    apply Zdigits2_lt_pow2; lia. }
  assert (Hd1 : Zdigits2 m1 <= 401).
  { destruct (Z.eq_dec m1 0) as [-> | Hne]; [cbn; lia |].
    apply Zdigits2_lt_pow2; lia. }
  assert (He' : e' <= 347) by (rewrite fexp64_eq in Be1; lia).
  assert (He'' : e'' <= 971) by (rewrite fexp64_eq in Be2; lia).
  destruct (shr_m mrs''); try discriminate.
  replace (e'' <=? emax - prec) with true; [discriminate |].
  symmetry. apply Z.leb_le. unfold emax, prec. lia.
Qed.

Lemma of_ratio_finite (s : bool) (k d : positive) :
  Zpos k < 2 ^ 300 -> Zpos d < 2 ^ 300 ->
  forall s', of_ratio s k d <> S754_infinity s'.
Proof.
  intros Hk Hd s'. unfold of_ratio, fdiv, SFdiv, SFdiv_core_binary.
  change (SpecFloat.fexp prec emax) with fexp64.
  pose proof (Zdigits2_lt_pow2 (Zpos k) 300 ltac:(lia) ltac:(lia) Hk) as Hd1.
  pose proof (Zdigits2_lt_pow2 (Zpos d) 300 ltac:(lia) ltac:(lia) Hd) as Hd2.
  pose proof (Zdigits2_pos (Zpos k) ltac:(lia)) as Hd1p.
  pose proof (Zdigits2_pos (Zpos d) ltac:(lia)) as Hd2p.
  pose proof (Zdigits2_bounds (Zpos k) ltac:(lia)) as [_ Hkhi].
  set (d1 := Zdigits2 (Zpos k)) in *. set (d2 := Zdigits2 (Zpos d)) in *.
  set (e' := Z.min (fexp64 (d1 + 0 - (d2 + 0))) (0 - 0)).
  assert (He' : e' <= 0 /\ d1 - e' <= 353) by (unfold e'; rewrite fexp64_eq; lia).
  set (m' := match 0 - 0 - e' with
             | 0 => Zpos k
             | Zpos _ => Z.shiftl (Zpos k) (0 - 0 - e')
             | Zneg _ => 0
             end).
  assert (Hm' : 0 <= m' < 2 ^ 400).
  { assert (Hm'eq : m' = Zpos k * 2 ^ (- e')).
    { unfold m'. replace (0 - 0 - e') with (- e') by lia.
      destruct (- e') as [| p | p] eqn:E; [lia | | lia].
      now rewrite Z.shiftl_mul_pow2 by lia. }
    rewrite Hm'eq.
    assert (0 < 2 ^ (- e')) by (apply Z.pow_pos_nonneg; lia).
    split; [nia |].
    apply Z.lt_le_trans with (2 ^ d1 * 2 ^ (- e')); [nia |].
    rewrite <- Z.pow_add_r by lia. apply Z.pow_le_mono_r; lia. }
  pose proof (Z.div_pos m' (Zpos d) ltac:(lia) ltac:(lia)) as Hq0.
  pose proof (Z.div_le_upper_bound m' (Zpos d) m' ltac:(lia) ltac:(nia)) as Hq1.
  unfold Z.div in Hq0, Hq1.
  destruct (Z.div_eucl m' (Zpos d)) as [q r]. cbn [fst] in Hq0, Hq1.
  apply binary_round_aux_finite; lia.
Qed.

End FloatFacts.

Import FloatFacts.

(** ** Unit conversion *)

Lemma compare_scale (x y c : Z) : 0 < c -> (x * c ?= y * c) = (x ?= y).
Proof.
  intros Hc. destruct (Z.compare_spec x y) as [-> | H | H].
  - apply Z.compare_refl.
  - apply Z.compare_lt_iff. nia.
  - apply Z.compare_gt_iff. nia.
Qed.

Lemma round_half_even_scale (a b c : Z) :
  0 < b -> 0 < c -> round_half_even (a * c) (b * c) = round_half_even a b.
Proof.
  intros Hb Hc. unfold round_half_even.
  rewrite Z.div_mul_cancel_r, Z.mul_mod_distr_r by lia.
  rewrite Z.mul_assoc, compare_scale by lia. reflexivity.
Qed.

Lemma round_half_even_bounds (a b : Z) :
  0 <= a -> 0 < b -> 0 <= round_half_even a b <= a / b + 1.
Proof.
  intros Ha Hb. unfold round_half_even.
  pose proof (Z.div_pos a b Ha Hb).
  destruct (2 * (a mod b) ?= b); [destruct (Z.even (a / b)) | |]; lia.
Qed.

(** The quotient of a byte count below [2^53] by [2^30] is exact. *)
Lemma int_truediv_gib (n : Z) :
  0 < n < 2 ^ 53 ->
  int_truediv n (2 ^ 30)
  = Return (S754_finite false (Z.to_pos (n * 2 ^ (53 - Zdigits2 n))) (Zdigits2 n - 83)).
Proof.
  intros [Hn0 Hn].
  pose proof (Zdigits2_lt_pow2 n 53 ltac:(lia) ltac:(lia) Hn) as Hd.
  pose proof (Zdigits2_pos n Hn0) as Hd0.
  destruct n as [| p | p]; try lia.
  unfold int_truediv. change (2 ^ 30) with 1073741824.
  cbn [Z.abs Z.to_pos Z.ltb Z.compare].
  unfold fdiv, SFdiv, SFdiv_core_binary.
  change (SpecFloat.fexp prec emax) with fexp64.
  change (Zdigits2 1073741824) with 31.
  set (d1 := Zdigits2 (Zpos p)) in *.
  replace (Z.min (fexp64 (d1 + 0 - (31 + 0))) (0 - 0)) with (d1 - 84)
    by (rewrite fexp64_eq; lia).
  replace (0 - 0 - (d1 - 84)) with (84 - d1) by lia.
  assert (Hm' : match 84 - d1 with
                | 0 => Zpos p
                | Zpos _ => Z.shiftl (Zpos p) (84 - d1)
                | Zneg _ => 0
                end = 1073741824 * ((Zpos p * 2 ^ (53 - d1)) * 2 ^ 1)).
  { destruct (84 - d1) as [| k | k] eqn:E; try lia.
    rewrite Z.shiftl_mul_pow2 by lia. rewrite <- E.
    replace (84 - d1) with (30 + ((53 - d1) + 1)) by lia.
    rewrite !Z.pow_add_r by lia. change (2 ^ 30) with 1073741824. ring. }
  rewrite Hm', div_eucl_exact by lia. rewrite new_location_exact. cbn [xorb].
  assert (Hz : 0 < Zpos p * 2 ^ (53 - d1))
    by (apply Z.mul_pos_pos; [lia | apply Z.pow_pos_nonneg; lia]).
  rewrite binary_round_aux_exact; try lia.
  - replace (d1 - 84 + 1) with (d1 - 83) by lia. reflexivity.
  - rewrite Zdigits2_mul_pow2 by lia. fold d1. rewrite fexp64_eq. lia.
Qed.

(** Below [2^53] bytes, [bytes_to_gb] is the exact quotient rounded once
    to two decimal places. *)
Lemma bytes_to_gb_exact (n : Z) :
  0 <= n < 2 ^ 53 -> bytes_to_gb n = Return (gigabytes_exact n).
Proof.
  intros [Hn0 Hn]. unfold bytes_to_gb. change (1024 ^ 3) with (2 ^ 30).
  destruct (Z.eq_dec n 0) as [-> | Hne]; [reflexivity |].
  rewrite int_truediv_gib by lia. cbn [bind].
  pose proof (Zdigits2_lt_pow2 n 53 ltac:(lia) ltac:(lia) Hn) as Hd.
  pose proof (Zdigits2_pos n ltac:(lia)) as Hd0.
  set (d1 := Zdigits2 n) in *.
  assert (Hz : 0 < n * 2 ^ (53 - d1))
    by (apply Z.mul_pos_pos; [lia | apply Z.pow_pos_nonneg; lia]).
  unfold float_round. change (323 <? 2) with false. change (2 <? -308) with false.
  cbn [negb]. change (10 ^ Z.max 2 0) with 100. change (10 ^ Z.max (- 2) 0) with 1.
  rewrite Z2Pos.id by exact Hz.
  replace (Z.max (d1 - 83) 0) with 0 by lia.
  replace (Z.max (- (d1 - 83)) 0) with (30 + (53 - d1)) by lia.
  rewrite Z.pow_0_r, !Z.mul_1_r.
  replace (n * 2 ^ (53 - d1) * 100) with ((100 * n) * 2 ^ (53 - d1)) by ring.
  rewrite Z.pow_add_r by lia.
  rewrite round_half_even_scale
    by (try (apply Z.pow_pos_nonneg; lia); reflexivity).
  unfold gigabytes_exact.
  pose proof (round_half_even_bounds (100 * n) (2 ^ 30) ltac:(lia) ltac:(reflexivity))
    as [Hq0 Hq1].
  assert (Hq2 : round_half_even (100 * n) (2 ^ 30) < 2 ^ 300).
  { apply Z.le_lt_trans with (100 * n / 2 ^ 30 + 1); [exact Hq1 |].
    assert (100 * n / 2 ^ 30 <= 100 * n) by (apply Z.div_le_upper_bound; lia).
    assert (100 * n + 1 < 2 ^ 300); [| lia].
    apply Z.lt_trans with (2 ^ 60); [| reflexivity].
    change (2 ^ 60) with (128 * 2 ^ 53). lia. }
  destruct (round_half_even (100 * n) (2 ^ 30)) as [| k | k]; [reflexivity | | lia].
  cbn [hundredths]. change (Z.to_pos 100) with 100%positive.
  pose proof (of_ratio_finite false k 100 Hq2 ltac:(reflexivity)) as Hfin.
  destruct (of_ratio false k 100); try reflexivity.
  exfalso. eapply Hfin. reflexivity.
Qed.

(** Above [2^53] the quotient is itself rounded, and the two roundings
    together can differ from the single exact one. *)
Remark bytes_to_gb_double_rounding :
  bytes_to_gb 9007199270847119 <> Return (gigabytes_exact 9007199270847119).
Proof. intros H. vm_compute in H. discriminate H. Qed.

(** C4 as stated fails above [2^53] bytes.  For 9007199270847119 bytes
    the exact quotient rounded to two decimal places is 8388608.01,
    while [bytes_to_gb] returns 8388608.02: the quotient is rounded to
    a float first, and that float is a tie.  For [2^1100] bytes the
    quotient is no float, and [bytes_to_gb] raises [OverflowError]. *)
Lemma bytes_to_gb_differs_from_exact_rounding :
  (0 <= 9007199270847119
   /\ gigabytes_exact 9007199270847119 = hundredths 838860801
   /\ bytes_to_gb 9007199270847119 = Return (hundredths 838860802)
   /\ bytes_to_gb 9007199270847119 <> Return (gigabytes_exact 9007199270847119))
  /\ (0 <= 2 ^ 1100
      /\ bytes_to_gb (2 ^ 1100)
         = Raise (mk_exn OverflowError "integer division result too large for a float")).
Proof.
  split; [split; [lia |]; split; [| split] | split].
  - vm_compute. reflexivity.
  - vm_compute. reflexivity.
  - intros H. vm_compute in H. discriminate H.
  - apply Z.pow_nonneg. lia.
  - vm_compute. reflexivity.
Qed.

(** C4, amended: for every byte count [n] with [0 <= n < 2^53],
    [bytes_to_gb] returns the exact value of [n / 2^30] rounded to two
    decimal places, ties to the even digit, as the float nearest to
    that decimal. *)
Theorem bytes_to_gb_is_rounded_quotient (n : Z) :
  0 <= n < 2 ^ 53 ->
  bytes_to_gb n = Return (gigabytes_exact n).
Proof.
  intros Hn. apply bytes_to_gb_exact. exact Hn.
Qed.

Lemma bytes_to_gb_is_rounded_quotient_witness :
  bytes_to_gb 5000000 = Return (gigabytes_exact 5000000).
Proof.
  apply (bytes_to_gb_is_rounded_quotient 5000000). lia.
Defined.

(** ** Snapshot collectors *)

Lemma map_result_length {A B : Type} (f : A -> result B) (xs : list A) :
  forall ys, map_result f xs = Return ys -> List.length ys = List.length xs.
Proof.
  induction xs as [| x xs IH]; intros ys H.
  - injection H as <-. reflexivity.
  - cbn [map_result] in H. destruct (f x) as [y | e]; [| discriminate].
    cbn [bind] in H. destruct (map_result f xs) as [ys' | e]; [| discriminate].
    cbn [bind] in H. injection H as <-. cbn [List.length]. now rewrite (IH ys').
Qed.

Section CollectorFacts.

Context {datetime : Type}.
Variable host : Host datetime.

(** The list the [try] statement leaves in [load_avg] has three
    entries. *)
Lemma load_avg_or_zeros_length (l : list float) :
  load_avg_or_zeros host = Return l -> List.length l = 3%nat.
Proof.
  unfold load_avg_or_zeros.
  destruct (psutil_getloadavg host) as [[[a b] c] | e]; cbn [bind try_except].
  - intros [= <-]. reflexivity.
  - destruct (is_AttributeError (exc_type e) || is_OSError (exc_type e));
      [intros [= <-]; reflexivity | discriminate].
Qed.

Lemma load_avg_unsupported (e : exn) :
  psutil_getloadavg host = Raise e ->
  is_AttributeError (exc_type e) || is_OSError (exc_type e) = true ->
  load_avg_or_zeros host = Return [zero; zero; zero].
Proof.
  intros H Hc. unfold load_avg_or_zeros. rewrite H. cbn [bind try_except].
  now rewrite Hc.
Qed.

(** The load averages of a returned record are the roundings of the
    list left by the [try] statement. *)
Lemma get_cpu_usage_loads (r : CPUInfo.t) :
  get_cpu_usage host = Return r ->
  exists l,
    load_avg_or_zeros host = Return l
    /\ map_result (fun x => float_round x 2) l = Return (CPUInfo.load_average r).
Proof.
  unfold get_cpu_usage.
  destruct (psutil_cpu_percent host) as [percent | e]; [| discriminate].
  destruct (psutil_cpu_count host) as [count | e]; [| discriminate].
  destruct (psutil_cpu_freq host) as [freq | e]; [| discriminate].
  cbn [bind].
  destruct (load_avg_or_zeros host) as [l | e]; [| discriminate].
  cbn [bind].
  destruct (float_round percent 1) as [pr | e]; [| discriminate].
  cbn [bind].
  destruct (float_round _ 1) as [fr | e]; [| discriminate].
  cbn [bind].
  destruct (map_result _ l) as [loads | e] eqn:Hloads; [| discriminate].
  cbn [bind].
  destruct count as [n |]; [| discriminate].
  intros [= <-]. exists l. split; [reflexivity | exact Hloads].
Qed.

End CollectorFacts.

(** C7: the load-average list of every record [get_cpu_usage] returns
    has exactly three entries; when the load-average query raises
    [AttributeError] or [OSError], the list is [0.0, 0.0, 0.0] and the
    call does not fail for it: with the other queries answered it
    returns the record built from them. *)
Theorem load_average_has_three_entries {datetime : Type} (host : Host datetime) :
  (forall r, get_cpu_usage host = Return r ->
             List.length (CPUInfo.load_average r) = 3%nat)
  /\ (forall e r,
        psutil_getloadavg host = Raise e ->
        is_AttributeError (exc_type e) || is_OSError (exc_type e) = true ->
        get_cpu_usage host = Return r ->
        CPUInfo.load_average r = [zero; zero; zero])
  /\ (forall e percent count freq pr fr,
        psutil_getloadavg host = Raise e ->
        is_AttributeError (exc_type e) || is_OSError (exc_type e) = true ->
        psutil_cpu_percent host = Return percent ->
        psutil_cpu_count host = Return (Some count) ->
        psutil_cpu_freq host = Return freq ->
        float_round percent 1 = Return pr ->
        float_round (match freq with
                     | Some f => freq_current f
                     | None => zero
                     end) 1 = Return fr ->
        get_cpu_usage host = Return (CPUInfo.mk pr count fr [zero; zero; zero])).
Proof.
  split; [| split].
  - intros r H. destruct (get_cpu_usage_loads host r H) as [l [Hl Hm]].
    transitivity (List.length l).
    + exact (map_result_length _ _ _ Hm).
    + exact (load_avg_or_zeros_length host l Hl).
  - intros e r He Hc H. destruct (get_cpu_usage_loads host r H) as [l [Hl Hm]].
    rewrite (load_avg_unsupported host e He Hc) in Hl. injection Hl as <-.
    assert (Hz : map_result (fun x => float_round x 2) [zero; zero; zero]
                 = Return [zero; zero; zero]) by reflexivity.
    rewrite Hz in Hm. injection Hm as Hm. symmetry. exact Hm.
  - intros e percent count freq pr fr He Hc Hp Hn Hf Hpr Hfr.
    unfold get_cpu_usage. rewrite Hp, Hn, Hf. cbn [bind].
    rewrite (load_avg_unsupported host e He Hc). cbn [bind].
    rewrite Hpr. cbn [bind]. rewrite Hfr. reflexivity.
Qed.

Lemma load_average_has_three_entries_witness :
  get_cpu_usage fixture_host
  = Return (CPUInfo.mk (of_ratio false 25 2) 8 (of_Z 2400) [zero; zero; zero]).
Proof.
  apply (proj2 (proj2 (load_average_has_three_entries fixture_host))
           (mk_exn AttributeError "module 'psutil' has no attribute 'getloadavg'")
           (of_ratio false 25 2) 8 (Some (mk_scpufreq (of_Z 2400))));
    reflexivity.
Defined.

(** ** Aggregation *)

(** C9: [get_system_info] raises as soon as one of the four collectors
    raises, the exception it raises is one a collector raised, and it
    returns a record only when all four returned one: that record holds
    their four records and the platform dictionary. *)
Theorem get_system_info_all_or_nothing {datetime : Type}
    (astimezone_kolkata : datetime -> result datetime)
    (strftime : datetime -> result string)
    (timestamp : datetime -> result float)
    (host : Host datetime) :
  let time := get_current_time astimezone_kolkata strftime timestamp host in
  let info := get_system_info astimezone_kolkata strftime timestamp host in
  (raises time \/ raises (get_memory_usage host)
   \/ raises (get_cpu_usage host) \/ raises (get_disk_usage host) ->
   raises info)
  /\ (forall e, info = Raise e ->
        time = Raise e \/ get_memory_usage host = Raise e
        \/ get_cpu_usage host = Raise e \/ get_disk_usage host = Raise e)
  /\ (forall r, info = Return r ->
        time = Return (SystemInfo.time_info r)
        /\ get_memory_usage host = Return (SystemInfo.memory_info r)
        /\ get_cpu_usage host = Return (SystemInfo.cpu_info r)
        /\ get_disk_usage host = Return (SystemInfo.disk_info r))
  /\ (forall t m c d,
        time = Return t -> get_memory_usage host = Return m ->
        get_cpu_usage host = Return c -> get_disk_usage host = Return d ->
        info = Return (SystemInfo.mk t m c d
                         [ ("system", platform_system _ host);
                           ("platform", platform_platform _ host);
                           ("machine", platform_machine _ host);
                           ("processor", platform_processor _ host);
                           ("python_version", platform_python_version _ host);
                           ("hostname", platform_node _ host) ])).
Proof.
  intros time info. subst time info. unfold get_system_info.
  destruct (get_current_time astimezone_kolkata strftime timestamp host) as [t | et];
    destruct (get_memory_usage host) as [m | em];
    destruct (get_cpu_usage host) as [c | ec];
    destruct (get_disk_usage host) as [d | ed]; cbn [bind];
    repeat split;
    first
      [ solve [intros _; eexists; reflexivity]
      | solve [intros [[e H] | [[e H] | [[e H] | [e H]]]]; discriminate]
      | solve [intros e H; first [discriminate | injection H as <-; intuition congruence]]
      | solve [intros r H; first [discriminate | injection H as <-; cbn; intuition congruence]]
      | solve [match goal with H : Return _ = Return _ |- _ => injection H as <- end;
               reflexivity]
      | solve [intros; unfold platform_dict; congruence] ].
Qed.

Lemma get_system_info_all_or_nothing_witness :
  raises (get_system_info fixture_astimezone fixture_strftime fixture_timestamp
            broken_cpu_host).
Proof.
  apply (proj1 (get_system_info_all_or_nothing fixture_astimezone fixture_strftime
                  fixture_timestamp broken_cpu_host)).
  right. right. left. eexists. reflexivity.
Defined.

(** ** Disk usage *)

(** C5 as stated fails: with 5000000 bytes used out of 2^30, the record
    holds [total_gb = 1.0], [used_gb = 0.0] and [percentage_used = 0.5],
    while the two gigabyte fields give the percentage [0.0]. *)
Lemma percentage_differs_from_rounded_fields :
  get_disk_usage fixture_host = Return (DiskInfo.mk one zero one half)
  /\ fltb zero (DiskInfo.total_gb (DiskInfo.mk one zero one half)) = true
  /\ percentage_from_gb_fields (DiskInfo.mk one zero one half) = Return zero
  /\ percentage_from_gb_fields (DiskInfo.mk one zero one half)
     <> Return (DiskInfo.percentage_used (DiskInfo.mk one zero one half)).
Proof.
  repeat split; try reflexivity.
  intros H. vm_compute in H. discriminate H.
Qed.

(** C5, amended: the percentage of a returned record is the quotient of
    the raw byte counts [used / total], times 100, rounded to one
    decimal place; the gigabyte fields are the byte counts converted
    each on its own. *)
Theorem percentage_is_from_byte_counts {datetime : Type}
    (host : Host datetime) (du : sdiskusage) (r : DiskInfo.t) :
  psutil_disk_usage host = Return du ->
  get_disk_usage host = Return r ->
  (q <- int_truediv (du_used du) (du_total du) ;;
   float_round (fmul q (of_Z 100)) 1) = Return (DiskInfo.percentage_used r)
  /\ bytes_to_gb (du_total du) = Return (DiskInfo.total_gb r)
  /\ bytes_to_gb (du_used du) = Return (DiskInfo.used_gb r)
  /\ bytes_to_gb (du_free du) = Return (DiskInfo.free_gb r).
Proof.
  intros Hdu. unfold get_disk_usage. rewrite Hdu. cbn [bind].
  destruct (bytes_to_gb (du_total du)) as [t | e]; [| discriminate].
  destruct (bytes_to_gb (du_used du)) as [u | e]; [| discriminate].
  destruct (bytes_to_gb (du_free du)) as [f | e]; [| discriminate].
  cbn [bind].
  destruct (int_truediv (du_used du) (du_total du)) as [q | e]; [| discriminate].
  cbn [bind].
  destruct (float_round (fmul q (of_Z 100)) 1) as [pc | e]; [| discriminate].
  intros [= <-]. repeat split.
Qed.

Lemma percentage_is_from_byte_counts_witness :
  (q <- int_truediv 5000000 (2 ^ 30) ;; float_round (fmul q (of_Z 100)) 1)
  = Return half
  /\ bytes_to_gb (2 ^ 30) = Return one
  /\ bytes_to_gb 5000000 = Return zero
  /\ bytes_to_gb (2 ^ 30 - 5000000) = Return one.
Proof.
  exact (percentage_is_from_byte_counts fixture_host
           (mk_sdiskusage (2 ^ 30) 5000000 (2 ^ 30 - 5000000))
           (DiskInfo.mk one zero one half) eq_refl eq_refl).
Defined.

(** ** Uptime *)

Section UptimeFacts.

Context {datetime : Type}.
Variable host : Host datetime.

Lemma uptime_body_exact (boot now : float) (T : Z) :
  psutil_boot_time host = Return boot ->
  datetime_now_timestamp host = Return now ->
  nonneg_finite (fsub now boot) = true ->
  int_of_float (fsub now boot) = Return T ->
  T < 2 ^ 53 ->
  uptime_body host
  = Return ("System uptime: " ++ str_of_int (T / 86400) ++ " days, "
              ++ str_of_int (T mod 86400 / 3600) ++ " hours, "
              ++ str_of_int (T mod 3600 / 60) ++ " minutes").
Proof.
  intros Hb Hn Hfin Hint HT.
  destruct (nonneg_finite_holds _ Hfin) as [w Hw].
  rewrite (int_of_float_holds _ _ Hw) in Hint.
  assert (HTw : w / 2 ^ 1074 = T) by congruence. clear Hint.
  pose proof (holds_nonneg _ _ Hw) as Hw0.
  assert (Hp : 0 < 2 ^ 1074) by (apply Z.pow_pos_nonneg; lia).
  assert (HT0 : 0 <= T) by (rewrite <- HTw; apply Z.div_pos; lia).
  assert (H53 : 86400 < 2 ^ 53) by reflexivity.
  unfold uptime_body. rewrite Hb, Hn. cbn [bind].
  rewrite (float_floordiv_exact _ w 86400 Hw) by lia. cbn [bind].
  rewrite HTw.
  rewrite int_of_float_of_Z.
  2:{ split; [apply Z.div_pos; lia |].
      apply Z.le_lt_trans with T; [| exact HT].
      apply Z.div_le_upper_bound; lia. }
  cbn [bind].
  destruct (float_mod_exact _ w 86400 Hw ltac:(lia)) as (r1 & Hr1 & Hh1).
  rewrite Hr1. cbn [bind].
  pose proof (mod_scaled_div w 86400 (2 ^ 1074) Hp ltac:(lia)) as Hm1.
  rewrite HTw in Hm1.
  pose proof (Z.mod_pos_bound T 86400 ltac:(lia)) as B1.
  rewrite (float_floordiv_exact _ _ 3600 Hh1) by lia.
  cbn [bind]. rewrite Hm1.
  rewrite int_of_float_of_Z.
  2:{ split; [apply Z.div_pos; lia |].
      apply Z.le_lt_trans with (T mod 86400); [| lia].
      apply Z.div_le_upper_bound; lia. }
  cbn [bind].
  destruct (float_mod_exact _ w 3600 Hw ltac:(lia)) as (r2 & Hr2 & Hh2).
  rewrite Hr2. cbn [bind].
  pose proof (mod_scaled_div w 3600 (2 ^ 1074) Hp ltac:(lia)) as Hm2.
  rewrite HTw in Hm2.
  pose proof (Z.mod_pos_bound T 3600 ltac:(lia)) as B2.
  rewrite (float_floordiv_exact _ _ 60 Hh2) by lia.
  cbn [bind]. rewrite Hm2.
  rewrite int_of_float_of_Z.
  2:{ split; [apply Z.div_pos; lia |].
      apply Z.le_lt_trans with (T mod 3600); [| lia].
      apply Z.div_le_upper_bound; lia. }
  reflexivity.
Qed.

Lemma float_floordiv_raises (x y : float) (e : exn) :
  float_floordiv x y = Raise e -> is_Exception (exc_type e) = true.
Proof.
  unfold float_floordiv. destruct (feqb y zero); [| discriminate].
  intros [= <-]. reflexivity.
Qed.

Lemma float_mod_raises (x y : float) (e : exn) :
  float_mod x y = Raise e -> is_Exception (exc_type e) = true.
Proof.
  unfold float_mod. destruct (feqb y zero); [| discriminate].
  intros [= <-]. reflexivity.
Qed.

Lemma int_of_float_raises (x : float) (e : exn) :
  int_of_float x = Raise e -> is_Exception (exc_type e) = true.
Proof.
  destruct x; cbn [int_of_float]; try discriminate; intros [= <-]; reflexivity.
Qed.

(** What the [try] block of [get_system_uptime] raises comes from one of
    the two queries or is an [Exception] of the float arithmetic. *)
Lemma uptime_body_raises (e : exn) :
  uptime_body host = Raise e ->
  psutil_boot_time host = Raise e \/ datetime_now_timestamp host = Raise e
  \/ is_Exception (exc_type e) = true.
Proof.
  unfold uptime_body.
  destruct (psutil_boot_time host) as [boot | e1]; cbn [bind];
    [| intros [= <-]; left; reflexivity].
  destruct (datetime_now_timestamp host) as [now | e2]; cbn [bind];
    [| intros [= <-]; right; left; reflexivity].
  intros H. right. right. revert H.
  repeat match goal with
  | |- context [bind ?m _] =>
      let E := fresh "E" in
      destruct m eqn:E; cbn [bind];
      [| intros [= <-];
         first [ exact (float_floordiv_raises _ _ _ E)
               | exact (float_mod_raises _ _ _ E)
               | exact (int_of_float_raises _ _ E) ] ]
  end.
  discriminate.
Qed.

End UptimeFacts.

(** C8 as stated fails on the text: 90061 seconds after the start the
    tool returns [System uptime: 1 days, 1 hours, 1 minutes], which is
    not the text [1 days, 1 hours, 1 minutes]. *)
Lemma uptime_text_has_a_prefix :
  fsub (of_Z 1700090061) (of_Z 1700000000) = of_Z 90061
  /\ get_system_uptime fixture_host
     = Return "System uptime: 1 days, 1 hours, 1 minutes"
  /\ get_system_uptime fixture_host <> Return "1 days, 1 hours, 1 minutes".
Proof.
  split; [reflexivity |]. split; [reflexivity |].
  intros H. vm_compute in H. discriminate H.
Qed.

(** C8, amended: when the elapsed time [now - boot] is a float that is
    not negative, of integer part [T] below [2^53], the tool returns
    [System uptime: D days, H hours, M minutes] with [D = T / 86400],
    [H = (T mod 86400) / 3600] and [M = (T mod 3600) / 60], all floor
    divisions, the days not carried further; 90061 seconds give
    [System uptime: 1 days, 1 hours, 1 minutes]; when a query raises an
    [Exception] the tool returns [Unable to get uptime: ] followed by the
    error text, and it raises nothing. *)
Theorem uptime_is_days_hours_minutes {datetime : Type} (host : Host datetime) :
  (forall (boot now : float) (T : Z),
      psutil_boot_time host = Return boot ->
      datetime_now_timestamp host = Return now ->
      nonneg_finite (fsub now boot) = true ->
      int_of_float (fsub now boot) = Return T ->
      T < 2 ^ 53 ->
      get_system_uptime host
      = Return ("System uptime: " ++ str_of_int (T / 86400) ++ " days, "
                  ++ str_of_int (T mod 86400 / 3600) ++ " hours, "
                  ++ str_of_int (T mod 3600 / 60) ++ " minutes"))
  /\ (forall boot now : float,
        psutil_boot_time host = Return boot ->
        datetime_now_timestamp host = Return now ->
        fsub now boot = of_Z 90061 ->
        get_system_uptime host
        = Return "System uptime: 1 days, 1 hours, 1 minutes")
  /\ (forall e,
        psutil_boot_time host = Raise e
        \/ (returns (psutil_boot_time host) /\ datetime_now_timestamp host = Raise e) ->
        is_Exception (exc_type e) = true ->
        get_system_uptime host = Return ("Unable to get uptime: " ++ exc_str e))
  /\ ((forall e, psutil_boot_time host = Raise e -> is_Exception (exc_type e) = true) ->
      (forall e, datetime_now_timestamp host = Raise e ->
                 is_Exception (exc_type e) = true) ->
      returns (get_system_uptime host)).
Proof.
  assert (General : forall boot now T,
    psutil_boot_time host = Return boot ->
    datetime_now_timestamp host = Return now ->
    nonneg_finite (fsub now boot) = true ->
    int_of_float (fsub now boot) = Return T ->
    T < 2 ^ 53 ->
    get_system_uptime host
    = Return ("System uptime: " ++ str_of_int (T / 86400) ++ " days, "
                ++ str_of_int (T mod 86400 / 3600) ++ " hours, "
                ++ str_of_int (T mod 3600 / 60) ++ " minutes")).
  { intros boot now T Hb Hn Hf Hi HT. unfold get_system_uptime.
    now rewrite (uptime_body_exact host boot now T Hb Hn Hf Hi HT). }
  split; [exact General |]. split; [| split].
  - intros boot now Hb Hn Hu.
    rewrite (General boot now 90061 Hb Hn); rewrite ?Hu; reflexivity.
  - intros e H Hc. unfold get_system_uptime, uptime_body.
    destruct H as [Hb | [[boot Hb] Hn]].
    + rewrite Hb. cbn [bind try_except]. now rewrite Hc.
    + rewrite Hb, Hn. cbn [bind try_except]. now rewrite Hc.
  - intros Hb Hn. unfold get_system_uptime.
    destruct (uptime_body host) as [text | e] eqn:Hbody; cbn [try_except].
    + exists text. reflexivity.
    + assert (Hc : is_Exception (exc_type e) = true).
      { destruct (uptime_body_raises host e Hbody) as [H | [H | H]];
          [now apply Hb | now apply Hn | exact H]. }
      rewrite Hc. eexists. reflexivity.
Qed.

Lemma uptime_is_days_hours_minutes_witness :
  get_system_uptime fixture_host
  = Return ("System uptime: " ++ str_of_int (90061 / 86400) ++ " days, "
              ++ str_of_int (90061 mod 86400 / 3600) ++ " hours, "
              ++ str_of_int (90061 mod 3600 / 60) ++ " minutes").
Proof.
  apply (proj1 (uptime_is_days_hours_minutes fixture_host)
           (of_Z 1700000000) (of_Z 1700090061) 90061);
    reflexivity.
Defined.

(** * Further properties *)

(** ** Port lookup: what a returned record says *)

Lemma scan_lines_inv (p : Z) (lines : list string) (r : NetstatPortInfo) :
  scan_lines p lines = Return r ->
  r = absent_record p "Not found" /\ (forall l, In l lines -> line_hits p l = false)
  \/ exists pre line post n,
       lines = (pre ++ line :: post)%list
       /\ (forall l, In l pre -> line_hits p l = false)
       /\ line_hits p line = true
       /\ py_int (last (re_split_ws (strip line)) EmptyString) = Return n
       /\ r = mk_NetstatPortInfo p (Some n)
                (Some (nth 0 (re_split_ws (strip line)) EmptyString))
                (Some (nth 1 (re_split_ws (strip line)) EmptyString))
                (Some (nth 2 (re_split_ws (strip line)) EmptyString))
                (Some (if String.eqb (lower (nth 0 (re_split_ws (strip line)) EmptyString)) "tcp"
                       then nth 3 (re_split_ws (strip line)) EmptyString
                       else EmptyString))
                (strip line).
Proof.
  induction lines as [| line rest IH]; intros H.
  - left. injection H as <-. split; [reflexivity | intros l []].
  - destruct (line_hits p line) eqn:Hh.
    + right. rewrite line_hits_true_step in H by exact Hh.
      pose proof Hh as Hh'. unfold line_hits in Hh'. apply andb_prop in Hh' as [_ Hn].
      apply Nat.leb_le in Hn. rewrite parse_line_fields in H by exact Hn.
      destruct (py_int _) as [n | e] eqn:Hi; [| discriminate].
      cbn [bind] in H. injection H as <-.
      exists [], line, rest, n. repeat split; try assumption. intros l [].
    + rewrite line_hits_false_step in H by exact Hh.
      destruct (IH H) as [[-> Hall] | (pre & l0 & post & n & -> & Hpre & Hhit & Hint & ->)].
      * left. split; [reflexivity |]. intros l [<- | Hl]; [exact Hh | now apply Hall].
      * right. exists (line :: pre), l0, post, n. repeat split; try assumption.
        intros l [<- | Hl]; [exact Hh | now apply Hpre].
Qed.

Lemma get_port_info_netstat_inv (p : Z) (netstat : result string) (r : NetstatPortInfo) :
  get_port_info_netstat p netstat = Return r ->
  (exists out, netstat = Return out /\ scan_lines p (splitlines out) = Return r)
  \/ (exists e, lookup_body p netstat = Raise e
                /\ r = absent_record p ("Error: " ++ exc_str e)).
Proof.
  unfold get_port_info_netstat. destruct (lookup_body p netstat) as [r' | e] eqn:Hb;
    cbn [try_except].
  - intros [= <-]. left. unfold lookup_body in Hb.
    destruct netstat as [out | e]; [| discriminate]. exists out. split; [reflexivity | exact Hb].
  - destruct (is_Exception (exc_type e)); [| discriminate].
    intros [= <-]. right. exists e. split; reflexivity.
Qed.

Lemma lstrip_starts (s : string) : starts_with_space (lstrip s) = false.
Proof.
  induction s as [| c r IH]; [reflexivity |]. cbn [lstrip].
  destruct (isspace c) eqn:E; [exact IH | cbn; exact E].
Qed.

Lemma rstrip_starts (s : string) :
  starts_with_space s = false -> starts_with_space (rstrip s) = false.
Proof.
  destruct s as [| c r]; [reflexivity |]. cbn [starts_with_space rstrip]. intros H.
  destruct (rstrip r); rewrite ?H; cbn; exact H.
Qed.

Lemma rstrip_ends (s : string) : ends_with_space (rstrip s) = false.
Proof.
  induction s as [| c r IH]; [reflexivity |]. cbn [rstrip].
  destruct (rstrip r) as [| c' r'] eqn:E.
  - destruct (isspace c) eqn:Ec; [reflexivity | cbn; exact Ec].
  - exact IH.
Qed.

(** The stripped text neither starts nor ends with white space. *)
Lemma strip_trimmed (s : string) :
  starts_with_space (strip s) = false /\ ends_with_space (strip s) = false.
Proof.
  unfold strip. split; [apply rstrip_starts, lstrip_starts | apply rstrip_ends].
Qed.

Lemma re_split_ws_from_no_space (s : string) :
  forall b, Forall (fun t => no_space t = true) (re_split_ws_from b s).
Proof.
  induction s as [| c r IH]; intros b; cbn [re_split_ws_from].
  - repeat constructor.
  - destruct (isspace c) eqn:Ec.
    + destruct b; [apply IH | constructor; [reflexivity | apply IH]].
    + specialize (IH false). destruct (re_split_ws_from false r) as [| f fs].
      * constructor; [cbn; now rewrite Ec | constructor].
      * inversion IH as [| ? ? Hf Hfs]; subst.
        constructor; [cbn; now rewrite Ec, Hf | exact Hfs].
Qed.

Lemma re_split_ws_from_nonempty (s : string) :
  s <> EmptyString -> ends_with_space s = false ->
  Forall (fun t => nonempty t = true) (re_split_ws_from true s)
  /\ (starts_with_space s = false ->
      Forall (fun t => nonempty t = true) (re_split_ws_from false s))
  /\ (starts_with_space s = true ->
      exists ts, re_split_ws_from false s = EmptyString :: ts
                 /\ Forall (fun t => nonempty t = true) ts).
Proof.
  induction s as [| c r IH]; [congruence |]. intros _ Hend.
  destruct r as [| c' r'].
  - cbn in Hend. cbn [re_split_ws_from starts_with_space]. rewrite Hend.
    repeat split; try (repeat constructor); discriminate.
  - assert (Hend' : ends_with_space (String c' r') = false) by exact Hend.
    destruct (IH ltac:(discriminate) Hend') as (IHt & IHf & IHs).
    set (r := String c' r') in *.
    cbn [re_split_ws_from starts_with_space].
    destruct (isspace c) eqn:Ec.
    + repeat split; [exact IHt | discriminate |].
      intros _. exists (re_split_ws_from true r). split; [reflexivity | exact IHt].
    + assert (Hpre : Forall (fun t => nonempty t = true)
                        match re_split_ws_from false r with
                        | [] => [String c EmptyString]
                        | f :: fs => String c f :: fs
                        end).
      { destruct (starts_with_space r) eqn:Es.
        - destruct (IHs eq_refl) as (ts & -> & Hts). constructor; [reflexivity | exact Hts].
        - specialize (IHf eq_refl). destruct (re_split_ws_from false r) as [| f fs].
          + repeat constructor.
          + inversion IHf; subst. constructor; [reflexivity | assumption]. }
      repeat split; [exact Hpre | intros _; exact Hpre | discriminate].
Qed.

(** The fields of a stripped line that is not empty are not empty and
    hold no white space. *)
Lemma fields_of_stripped_line (line : string) :
  strip line <> EmptyString ->
  Forall (fun t => nonempty t = true /\ no_space t = true)
         (re_split_ws (strip line)).
Proof.
  intros Hne. destruct (strip_trimmed line) as [Hs He].
  destruct (re_split_ws_from_nonempty (strip line) Hne He) as (_ & Hf & _).
  specialize (Hf Hs). pose proof (re_split_ws_from_no_space (strip line) false) as Hn.
  unfold re_split_ws. rewrite Forall_forall in *. intros t Ht. split; auto.
Qed.

Lemma line_hits_strip_nonempty (p : Z) (line : string) :
  line_hits p line = true -> strip line <> EmptyString.
Proof.
  unfold line_hits. intros H. apply andb_prop in H as [_ Hn]. intros E.
  rewrite E in Hn. cbn in Hn. discriminate.
Qed.

Lemma startswith_app (n b : string) : startswith n (n ++ b) = true.
Proof.
  induction n as [| c n IH]; [reflexivity |]. cbn. now rewrite Ascii.eqb_refl.
Qed.

(** X1: a record that [get_port_info_netstat] returns carries the port
    asked for, and its five optional fields (process id, protocol, local
    address, foreign address, state) are present together or absent
    together; when they are absent the raw text is [Not found] or
    starts with [Error: ]. *)
Theorem port_record_all_or_none (p : Z) (netstat : result string) (r : NetstatPortInfo) :
  get_port_info_netstat p netstat = Return r ->
  port r = p
  /\ (all_present r
      \/ (all_absent r
          /\ (raw_line r = "Not found" \/ startswith "Error: " (raw_line r) = true))).
Proof.
  intros H. destruct (get_port_info_netstat_inv p netstat r H)
    as [(out & _ & Hs) | (e & _ & ->)].
  - destruct (scan_lines_inv p _ r Hs)
      as [[-> _] | (pre & line & post & n & _ & _ & _ & _ & ->)].
    + split; [reflexivity | right; split; [repeat split | left; reflexivity]].
    + split; [reflexivity | left; repeat split; discriminate].
  - split; [reflexivity | right; split; [repeat split | right]].
    cbn [raw_line absent_record]. apply startswith_app.
Qed.

Lemma port_record_all_or_none_witness :
  port listener_record = 8080
  /\ (all_present listener_record
      \/ (all_absent listener_record
          /\ (raw_line listener_record = "Not found"
              \/ startswith "Error: " (raw_line listener_record) = true))).
Proof.
  apply (port_record_all_or_none 8080 (Return netstat_fixture) listener_record).
  reflexivity.
Defined.

(** X2: a returned record with a process id comes from a line of the
    command output: the command returned its output, no earlier line
    both mentions the port and has five fields, and that line contains
    the text [":<port> "], has five fields or more, its last field is
    what [int] reads as the process id, its fields 0, 1 and 2 are the
    protocol and the two addresses, and the raw text is the line
    stripped. *)
Theorem populated_record_is_first_hit
    (p : Z) (netstat : result string) (r : NetstatPortInfo) (n : Z) :
  get_port_info_netstat p netstat = Return r ->
  pid r = Some n ->
  exists out pre line post,
    netstat = Return out
    /\ splitlines out = (pre ++ line :: post)%list
    /\ (forall l, In l pre -> line_hits p l = false)
    /\ contains (port_pattern p) line = true
    /\ (5 <= List.length (re_split_ws (strip line)))%nat
    /\ py_int (last (re_split_ws (strip line)) EmptyString) = Return n
    /\ protocol r = Some (nth 0 (re_split_ws (strip line)) EmptyString)
    /\ local_address r = Some (nth 1 (re_split_ws (strip line)) EmptyString)
    /\ foreign_address r = Some (nth 2 (re_split_ws (strip line)) EmptyString)
    /\ raw_line r = strip line.
Proof.
  intros H Hpid. destruct (get_port_info_netstat_inv p netstat r H)
    as [(out & -> & Hs) | (e & _ & ->)]; [| discriminate].
  destruct (scan_lines_inv p _ r Hs)
    as [[-> _] | (pre & line & post & n' & Hsplit & Hpre & Hhit & Hint & ->)];
    [discriminate |].
  cbn [pid] in Hpid. injection Hpid as ->.
  exists out, pre, line, post. unfold line_hits in Hhit.
  apply andb_prop in Hhit as [Hc Hn]. apply Nat.leb_le in Hn.
  repeat split; assumption.
Qed.

Lemma populated_record_is_first_hit_witness :
  exists out pre line post,
    Return netstat_fixture = Return out
    /\ splitlines out = (pre ++ line :: post)%list
    /\ (forall l, In l pre -> line_hits 8080 l = false)
    /\ contains (port_pattern 8080) line = true
    /\ (5 <= List.length (re_split_ws (strip line)))%nat
    /\ py_int (last (re_split_ws (strip line)) EmptyString) = Return 1234
    /\ protocol listener_record = Some (nth 0 (re_split_ws (strip line)) EmptyString)
    /\ local_address listener_record
       = Some (nth 1 (re_split_ws (strip line)) EmptyString)
    /\ foreign_address listener_record
       = Some (nth 2 (re_split_ws (strip line)) EmptyString)
    /\ raw_line listener_record = strip line.
Proof.
  apply (populated_record_is_first_hit 8080 (Return netstat_fixture) listener_record 1234);
    reflexivity.
Defined.

(** X3: in a returned record with a process id, the protocol and the
    two addresses are not empty and hold no white space, the state holds
    none and is empty exactly when the protocol is not [tcp] in some
    letter case, and the raw line neither starts nor ends with white
    space. *)
Theorem populated_fields_are_clean
    (p : Z) (netstat : result string) (r : NetstatPortInfo) (n : Z) :
  get_port_info_netstat p netstat = Return r ->
  pid r = Some n ->
  exists proto local foreign st,
    protocol r = Some proto /\ local_address r = Some local
    /\ foreign_address r = Some foreign /\ state r = Some st
    /\ nonempty proto = true /\ no_space proto = true
    /\ nonempty local = true /\ no_space local = true
    /\ nonempty foreign = true /\ no_space foreign = true
    /\ no_space st = true
    /\ nonempty st = String.eqb (lower proto) "tcp"
    /\ starts_with_space (raw_line r) = false
    /\ ends_with_space (raw_line r) = false.
Proof.
  intros H Hpid. destruct (get_port_info_netstat_inv p netstat r H)
    as [(out & -> & Hs) | (e & _ & ->)]; [| discriminate].
  destruct (scan_lines_inv p _ r Hs)
    as [[-> _] | (pre & line & post & n' & Hsplit & Hpre & Hhit & Hint & ->)];
    [discriminate |].
  pose proof (fields_of_stripped_line line (line_hits_strip_nonempty p line Hhit)) as Hf.
  unfold line_hits in Hhit. apply andb_prop in Hhit as [_ Hn]. apply Nat.leb_le in Hn.
  rewrite Forall_forall in Hf.
  assert (Hnth : forall i, (i < 5)%nat ->
            nonempty (nth i (re_split_ws (strip line)) EmptyString) = true
            /\ no_space (nth i (re_split_ws (strip line)) EmptyString) = true).
  { intros i Hi. apply Hf. apply nth_In. lia. }
  destruct (strip_trimmed line) as [Hs1 Hs2].
  do 4 eexists. cbn [protocol local_address foreign_address state raw_line].
  repeat (split; [reflexivity |]).
  repeat (split; [apply (Hnth 0%nat); lia |]).
  repeat (split; [apply (Hnth 1%nat); lia |]).
  repeat (split; [apply (Hnth 2%nat); lia |]).
  destruct (String.eqb (lower (nth 0 (re_split_ws (strip line)) EmptyString)) "tcp").
  - repeat (split; [apply (Hnth 3%nat); lia |]). split; assumption.
  - repeat split; assumption.
Qed.

Lemma populated_fields_are_clean_witness :
  exists proto local foreign st,
    protocol listener_record = Some proto /\ local_address listener_record = Some local
    /\ foreign_address listener_record = Some foreign /\ state listener_record = Some st
    /\ nonempty proto = true /\ no_space proto = true
    /\ nonempty local = true /\ no_space local = true
    /\ nonempty foreign = true /\ no_space foreign = true
    /\ no_space st = true
    /\ nonempty st = String.eqb (lower proto) "tcp"
    /\ starts_with_space (raw_line listener_record) = false
    /\ ends_with_space (raw_line listener_record) = false.
Proof.
  apply (populated_fields_are_clean 8080 (Return netstat_fixture) listener_record 1234);
    reflexivity.
Defined.

(** ** Port lookup: reading back a formatted row *)

Lemma scan_digits_step (c : ascii) (s : string) (acc : Z) (count : nat) :
  is_digit c = true ->
  scan_digits false acc count (String c s)
  = scan_digits false (10 * acc + digit_value c) (S count) s.
Proof. intros H. cbn [scan_digits]. now rewrite H. Qed.

Lemma scan_digits_uint_acc (u : Decimal.uint) :
  forall (acc : positive) (count : nat),
  scan_digits false (Zpos acc) count (NilEmpty.string_of_uint u)
  = Some (Zpos (Pos.of_uint_acc u acc), (count + Decimal.nb_digits u)%nat, EmptyString).
Proof.
  induction u as [| u IH | u IH | u IH | u IH | u IH | u IH | u IH | u IH | u IH | u IH];
    intros acc count; cbn [NilEmpty.string_of_uint Decimal.nb_digits Pos.of_uint_acc];
    [cbn [scan_digits]; now rewrite Nat.add_0_r | ..];
    rewrite scan_digits_step by reflexivity;
    match goal with
    | |- context [digit_value ?c] =>
        let d := eval vm_compute in (digit_value c) in
        change (digit_value c) with d
    end;
    match goal with
    | |- scan_digits false ?v _ _ = Some (Zpos (Pos.of_uint_acc _ ?a), _, _) =>
        replace v with (Zpos a) by lia
    end;
    rewrite IH; do 2 f_equal; f_equal; lia.
Qed.

Lemma scan_digits_uint (u : Decimal.uint) :
  forall count : nat,
  scan_digits false 0 count (NilEmpty.string_of_uint u)
  = Some (Z.of_N (Pos.of_uint u), (count + Decimal.nb_digits u)%nat, EmptyString).
Proof.
  induction u as [| u IH | u IH | u IH | u IH | u IH | u IH | u IH | u IH | u IH | u IH];
    intros count; cbn [NilEmpty.string_of_uint Decimal.nb_digits Pos.of_uint];
    [cbn [scan_digits]; now rewrite Nat.add_0_r | ..];
    rewrite scan_digits_step by reflexivity.
  - change (10 * 0 + digit_value "0") with 0. rewrite IH. do 2 f_equal. f_equal. lia.
  - change (10 * 0 + digit_value "1") with (Zpos 1).
    rewrite scan_digits_uint_acc. cbn [Z.of_N]. do 2 f_equal. f_equal. lia.
  - change (10 * 0 + digit_value "2") with (Zpos 2).
    rewrite scan_digits_uint_acc. cbn [Z.of_N]. do 2 f_equal. f_equal. lia.
  - change (10 * 0 + digit_value "3") with (Zpos 3).
    rewrite scan_digits_uint_acc. cbn [Z.of_N]. do 2 f_equal. f_equal. lia.
  - change (10 * 0 + digit_value "4") with (Zpos 4).
    rewrite scan_digits_uint_acc. cbn [Z.of_N]. do 2 f_equal. f_equal. lia.
  - change (10 * 0 + digit_value "5") with (Zpos 5).
    rewrite scan_digits_uint_acc. cbn [Z.of_N]. do 2 f_equal. f_equal. lia.
  - change (10 * 0 + digit_value "6") with (Zpos 6).
    rewrite scan_digits_uint_acc. cbn [Z.of_N]. do 2 f_equal. f_equal. lia.
  - change (10 * 0 + digit_value "7") with (Zpos 7).
    rewrite scan_digits_uint_acc. cbn [Z.of_N]. do 2 f_equal. f_equal. lia.
  - change (10 * 0 + digit_value "8") with (Zpos 8).
    rewrite scan_digits_uint_acc. cbn [Z.of_N]. do 2 f_equal. f_equal. lia.
  - change (10 * 0 + digit_value "9") with (Zpos 9).
    rewrite scan_digits_uint_acc. cbn [Z.of_N]. do 2 f_equal. f_equal. lia.
Qed.

Lemma string_of_uint_length (u : Decimal.uint) :
  String.length (NilEmpty.string_of_uint u) = Decimal.nb_digits u.
Proof. induction u; cbn; congruence. Qed.

Lemma py_int_unsigned (c : ascii) (s : string) (v : Z) (k : nat) :
  is_digit c = true ->
  scan_digits false 0 0 (String c s) = Some (v, S k, EmptyString) ->
  (S k <= max_str_digits)%nat ->
  py_int (String c s) = Return v /\ py_int (String "-" (String c s)) = Return (- v).
Proof.
  intros Hd Hscan Hlen.
  assert (Hlimit : (max_str_digits <? S k)%nat = false) by (apply Nat.ltb_ge; exact Hlen).
  assert (Hsp : int_space c = false /\ Ascii.eqb c underscore = false
                /\ Ascii.eqb c "-" = false /\ Ascii.eqb c "+" = false).
  { destruct c as [[] [] [] [] [] [] [] []]; try discriminate Hd; repeat split. }
  destruct Hsp as (Hsp & Hus & Hm & Hp).
  split.
  - unfold py_int. cbn [skip_space]. rewrite Hsp.
    replace (match String c s with
             | String "-" rest => (true, rest)
             | String "+" rest => (false, rest)
             | _ => (false, String c s)
             end) with (false, String c s).
    + rewrite Hus, Hscan, Hlimit. reflexivity.
    + destruct c as [[] [] [] [] [] [] [] []]; try discriminate Hd; reflexivity.
  - unfold py_int. change (skip_space (String "-" (String c s))) with (String "-" (String c s)).
    cbv beta iota. rewrite Hus, Hscan, Hlimit. reflexivity.
Qed.

Lemma string_of_uint_head (u : Decimal.uint) :
  u <> Decimal.Nil ->
  exists c s, NilEmpty.string_of_uint u = String c s /\ is_digit c = true.
Proof.
  destruct u; try congruence; intros _; cbn [NilEmpty.string_of_uint];
    do 2 eexists; split; reflexivity.
Qed.

Lemma str_of_int_pos (p : positive) :
  str_of_int (Zpos p) = NilEmpty.string_of_uint (Pos.to_uint p)
  /\ str_of_int (Zneg p) = String "-" (NilEmpty.string_of_uint (Pos.to_uint p)).
Proof.
  unfold str_of_int. cbn [Z.to_int NilZero.string_of_int].
  unfold NilZero.string_of_uint.
  pose proof (Unsigned.to_uint_nonnil p) as H.
  destruct (Pos.to_uint p); try congruence; split; reflexivity.
Qed.

(** The decimal text that [str] writes for an integer is read back by
    [int], as long as it stays within the digit limit. *)
Lemma py_int_str_of_int (n : Z) :
  (String.length (str_of_int n) <= max_str_digits)%nat ->
  py_int (str_of_int n) = Return n.
Proof.
  destruct n as [| p | p]; [reflexivity | |]; intros Hlen;
    destruct (str_of_int_pos p) as [Hpos Hneg].
  - rewrite Hpos in *.
    destruct (string_of_uint_head _ (Unsigned.to_uint_nonnil p)) as (c & s & Hs & Hd).
    pose proof (scan_digits_uint (Pos.to_uint p) 0) as Hscan. cbn [Nat.add] in Hscan.
    rewrite Unsigned.of_to in Hscan. cbn [Z.of_N] in Hscan.
    rewrite string_of_uint_length in Hlen. rewrite Hs in *.
    destruct (Decimal.nb_digits (Pos.to_uint p)) as [| k] eqn:Hk.
    + pose proof (string_of_uint_length (Pos.to_uint p)) as L. rewrite Hs, Hk in L.
      discriminate L.
    + exact (proj1 (py_int_unsigned c s (Zpos p) k Hd Hscan Hlen)).
  - rewrite Hneg in *.
    destruct (string_of_uint_head _ (Unsigned.to_uint_nonnil p)) as (c & s & Hs & Hd).
    pose proof (scan_digits_uint (Pos.to_uint p) 0) as Hscan. cbn [Nat.add] in Hscan.
    rewrite Unsigned.of_to in Hscan. cbn [Z.of_N] in Hscan.
    cbn [String.length] in Hlen. rewrite string_of_uint_length in Hlen. rewrite Hs in *.
    destruct (Decimal.nb_digits (Pos.to_uint p)) as [| k] eqn:Hk.
    + pose proof (string_of_uint_length (Pos.to_uint p)) as L. rewrite Hs, Hk in L.
      discriminate L.
    + exact (proj2 (py_int_unsigned c s (Zpos p) k Hd Hscan ltac:(lia))).
Qed.

Lemma app_assoc_string (a b c : string) : (a ++ b) ++ c = a ++ (b ++ c).
Proof. induction a as [| x a IH]; cbn; [reflexivity | now rewrite IH]. Qed.

Lemma app_nil_r_string (a : string) : a ++ EmptyString = a.
Proof. induction a as [| x a IH]; cbn; [reflexivity | now rewrite IH]. Qed.

Lemma re_split_ws_from_not_nil (s : string) : forall b, re_split_ws_from b s <> [].
Proof.
  induction s as [| c r IH]; intros b; cbn [re_split_ws_from]; [discriminate |].
  destruct (isspace c); [destruct b; [apply IH | discriminate] |].
  destruct (re_split_ws_from false r); discriminate.
Qed.

Lemma re_split_ws_from_token_app (f s : string) :
  no_space f = true ->
  re_split_ws_from false (f ++ s)
  = match re_split_ws_from false s with
    | t :: ts => (f ++ t) :: ts
    | [] => [f]
    end.
Proof.
  induction f as [| c f IH]; intros Hf.
  - cbn [append]. pose proof (re_split_ws_from_not_nil s false).
    destruct (re_split_ws_from false s); [congruence | reflexivity].
  - cbn [no_space] in Hf. apply andb_prop in Hf as [Hc Hf].
    apply negb_true_iff in Hc. cbn [append re_split_ws_from]. rewrite Hc, (IH Hf).
    pose proof (re_split_ws_from_not_nil s false).
    destruct (re_split_ws_from false s); [congruence | reflexivity].
Qed.

Lemma re_split_ws_from_token_any (f s : string) (b : bool) :
  no_space f = true -> nonempty f = true ->
  re_split_ws_from b (f ++ s) = re_split_ws_from false (f ++ s).
Proof.
  destruct f as [| c f]; [discriminate |]. cbn [no_space]. intros Hf _.
  apply andb_prop in Hf as [Hc _]. apply negb_true_iff in Hc.
  cbn [append re_split_ws_from]. now rewrite Hc.
Qed.

Lemma re_split_ws_from_space_app (w s : string) :
  all_space w = true ->
  re_split_ws_from true (w ++ s) = re_split_ws_from true s.
Proof.
  induction w as [| c w IH]; [reflexivity |]. cbn [all_space]. intros H.
  apply andb_prop in H as [Hc Hw]. cbn [append re_split_ws_from]. rewrite Hc. now apply IH.
Qed.

Lemma re_split_ws_from_sep_app (w s : string) :
  nonempty w = true -> all_space w = true ->
  re_split_ws_from false (w ++ s) = EmptyString :: re_split_ws_from true s.
Proof.
  destruct w as [| c w]; [discriminate |]. cbn [all_space]. intros _ H.
  apply andb_prop in H as [Hc Hw]. cbn [append re_split_ws_from]. rewrite Hc.
  now rewrite re_split_ws_from_space_app.
Qed.

(** A field and the gap after it are split off the text. *)
Lemma re_split_ws_from_field (f sep s : string) (b : bool) :
  clean f -> gap sep ->
  re_split_ws_from b (f ++ sep ++ s) = f :: re_split_ws_from true s.
Proof.
  intros [Hf1 Hf2] [Hs1 Hs2].
  rewrite re_split_ws_from_token_any, re_split_ws_from_token_app by assumption.
  rewrite re_split_ws_from_sep_app by assumption.
  now rewrite app_nil_r_string.
Qed.

Lemma re_split_ws_from_last (f : string) (b : bool) :
  clean f -> re_split_ws_from b f = [f].
Proof.
  intros [Hf1 Hf2]. rewrite <- (app_nil_r_string f) at 1.
  rewrite re_split_ws_from_token_any, re_split_ws_from_token_app by assumption.
  cbn [re_split_ws_from]. now rewrite app_nil_r_string.
Qed.

Lemma lstrip_space_app (w s : string) :
  all_space w = true -> lstrip (w ++ s) = lstrip s.
Proof.
  induction w as [| c w IH]; [reflexivity |]. cbn [all_space]. intros H.
  apply andb_prop in H as [Hc Hw]. cbn [append lstrip]. rewrite Hc. now apply IH.
Qed.

Lemma lstrip_id (s : string) : starts_with_space s = false -> lstrip s = s.
Proof. destruct s as [| c r]; [reflexivity |]. cbn. now intros ->. Qed.

Lemma rstrip_all_space (w : string) : all_space w = true -> rstrip w = EmptyString.
Proof.
  induction w as [| c w IH]; [reflexivity |]. cbn [all_space]. intros H.
  apply andb_prop in H as [Hc Hw]. cbn [rstrip]. now rewrite (IH Hw), Hc.
Qed.

Lemma rstrip_space_app (s w : string) :
  all_space w = true -> rstrip (s ++ w) = rstrip s.
Proof.
  intros Hw. induction s as [| c s IH]; cbn [append rstrip].
  - now apply rstrip_all_space.
  - now rewrite IH.
Qed.

Lemma rstrip_id (s : string) : ends_with_space s = false -> rstrip s = s.
Proof.
  induction s as [| c r IH]; [reflexivity |]. intros H. cbn [rstrip].
  destruct r as [| c' r'].
  - cbn in H. cbn. now rewrite H.
  - rewrite IH by exact H. reflexivity.
Qed.

Lemma lstrip_all_space (w : string) : all_space w = true -> lstrip w = EmptyString.
Proof.
  intros H. rewrite <- (app_nil_r_string w). now rewrite lstrip_space_app.
Qed.

(** Stripping a row padded with white space on both sides gives the
    row. *)
Lemma strip_padded (lead row trail : string) :
  all_space lead = true -> all_space trail = true ->
  starts_with_space row = false -> ends_with_space row = false ->
  strip (lead ++ row ++ trail) = row.
Proof.
  intros Hl Ht Hs He. unfold strip. rewrite lstrip_space_app by exact Hl.
  destruct row as [| c r].
  - cbn [append]. now rewrite lstrip_all_space.
  - rewrite lstrip_id by exact Hs. rewrite rstrip_space_app by exact Ht.
    now apply rstrip_id.
Qed.

Lemma ends_with_space_app (a b : string) :
  nonempty b = true -> ends_with_space (a ++ b) = ends_with_space b.
Proof.
  intros Hb. induction a as [| c a IH]; [reflexivity |].
  cbn [append]. destruct (a ++ b) eqn:E.
  - destruct a; destruct b; discriminate.
  - cbn [ends_with_space]. rewrite <- IH. reflexivity.
Qed.

Lemma no_space_ends (f : string) : no_space f = true -> ends_with_space f = false.
Proof.
  induction f as [| c r IH]; [reflexivity |]. cbn [no_space]. intros H.
  apply andb_prop in H as [Hc Hr]. apply negb_true_iff in Hc.
  destruct r; [exact Hc | exact (IH Hr)].
Qed.

Lemma clean_starts (f s : string) : clean f -> starts_with_space (f ++ s) = false.
Proof.
  intros [H1 H2]. destruct f as [| c r]; [discriminate |]. cbn in *.
  apply andb_prop in H2 as [Hc _]. now apply negb_true_iff in Hc.
Qed.

Lemma contains_here (n b : string) : contains n (n ++ b) = true.
Proof.
  destruct (n ++ b) eqn:E; cbn [contains]; rewrite <- E, startswith_app; reflexivity.
Qed.

Lemma contains_app_r (n a s : string) :
  contains n s = true -> contains n (a ++ s) = true.
Proof.
  intros H. induction a as [| c a IH]; [exact H |].
  cbn [append contains]. rewrite IH. apply orb_true_r.
Qed.

Lemma startswith_app_l (n a b : string) :
  startswith n a = true -> startswith n (a ++ b) = true.
Proof.
  revert a. induction n as [| c n IH]; intros a H; [reflexivity |].
  destruct a as [| x a]; [discriminate |]. cbn in *.
  apply andb_prop in H as [H1 H2]. rewrite H1. now apply IH.
Qed.

Lemma contains_app_l (n a b : string) :
  contains n a = true -> contains n (a ++ b) = true.
Proof.
  induction a as [| c a IH]; cbn [append contains]; intros H.
  - rewrite orb_false_r in H. destruct n; [| discriminate].
    destruct b; reflexivity.
  - apply orb_prop in H as [H | H].
    + change (String c (a ++ b)) with (String c a ++ b).
      now rewrite startswith_app_l.
    + rewrite (IH H). apply orb_true_r.
Qed.

Lemma string_of_uint_no_space (u : Decimal.uint) :
  no_space (NilEmpty.string_of_uint u) = true.
Proof. induction u; cbn [NilEmpty.string_of_uint no_space]; try reflexivity; exact IHu. Qed.

Lemma str_of_int_clean (n : Z) : clean (str_of_int n).
Proof.
  destruct n as [| p | p]; [split; reflexivity | |];
    destruct (str_of_int_pos p) as [Hpos Hneg];
    destruct (string_of_uint_head _ (Unsigned.to_uint_nonnil p)) as (c & s & Hs & _).
  - rewrite Hpos. split; [now rewrite Hs | apply string_of_uint_no_space].
  - rewrite Hneg. split; [reflexivity |].
    cbn [no_space]. now rewrite string_of_uint_no_space.
Qed.

Lemma startswith_inv (n s : string) :
  startswith n s = true -> exists b, s = n ++ b.
Proof.
  revert s. induction n as [| c n IH]; intros s H.
  - exists s. reflexivity.
  - destruct s as [| x s]; [discriminate |]. cbn [startswith] in H.
    apply andb_prop in H as [Hc Hs]. apply Ascii.eqb_eq in Hc. subst x.
    destruct (IH s Hs) as [b ->]. exists b. reflexivity.
Qed.

Lemma ends_with_space_token (a t : string) :
  clean t -> ends_with_space (a ++ t) = false.
Proof.
  intros [Hne Hns]. rewrite ends_with_space_app by exact Hne. now apply no_space_ends.
Qed.

(** An address that ends in [:port], followed by a gap that starts
    with a space, makes the text mention the port. *)
Lemma contains_port_here (p : Z) (g w rest : string) :
  contains (port_pattern p) ((g ++ ":" ++ str_of_int p) ++ String " " w ++ rest) = true.
Proof.
  replace ((g ++ ":" ++ str_of_int p) ++ String " " w ++ rest)
    with (g ++ port_pattern p ++ (w ++ rest)).
  - apply contains_app_r, contains_here.
  - unfold port_pattern. rewrite !app_assoc_string. cbn [append].
    rewrite ?app_assoc_string. reflexivity.
Qed.

(** X4: a row as netstat prints it is read back field by field.  The
    row is five fields with a gap of white space between each two, the
    four gaps of any length and each its own, padded with white space
    on both sides; the fields are not empty and hold no white space,
    the local or the foreign address ends in [:<port>] and the gap
    after that address starts with a space, and the last field is the
    decimal text of the process id (within the digit limit of [int]).
    When no earlier line hits, the lookup returns exactly these fields,
    the state only for the protocol [tcp], and the row without its
    padding as the raw text. *)
Theorem formatted_row_is_read_back
    (p n : Z) (proto local foreign st g lead trail s1 s2 s3 s4 out : string)
    (pre post : list string) :
  clean proto -> clean local -> clean foreign -> clean st ->
  gap s1 -> gap s2 -> gap s3 -> gap s4 ->
  (local = g ++ ":" ++ str_of_int p /\ startswith " " s2 = true)
  \/ (foreign = g ++ ":" ++ str_of_int p /\ startswith " " s3 = true) ->
  (String.length (str_of_int n) <= max_str_digits)%nat ->
  all_space lead = true -> all_space trail = true ->
  let row := proto ++ s1 ++ local ++ s2 ++ foreign ++ s3 ++ st ++ s4 ++ str_of_int n in
  splitlines out = (pre ++ (lead ++ row ++ trail)%string :: post)%list ->
  (forall l, In l pre -> line_hits p l = false) ->
  get_port_info_netstat p (Return out)
  = Return (mk_NetstatPortInfo p (Some n) (Some proto) (Some local) (Some foreign)
              (Some (if String.eqb (lower proto) "tcp" then st else EmptyString))
              row).
Proof.
  intros Hproto Hlocal Hforeign Hst G1 G2 G3 G4 Hport Hlen Hlead Htrail row Hsplit Hpre.
  assert (Hrs : starts_with_space row = false) by (unfold row; now apply clean_starts).
  assert (Hre : ends_with_space row = false).
  { unfold row. rewrite <- !app_assoc_string.
    apply ends_with_space_token, str_of_int_clean. }
  assert (Hstrip : strip (lead ++ row ++ trail) = row) by now apply strip_padded.
  assert (Hparts : re_split_ws (strip (lead ++ row ++ trail))
                   = [proto; local; foreign; st; str_of_int n]).
  { rewrite Hstrip. unfold re_split_ws, row.
    rewrite !re_split_ws_from_field by assumption.
    rewrite re_split_ws_from_last by apply str_of_int_clean. reflexivity. }
  assert (Hcontains : contains (port_pattern p) (lead ++ row ++ trail) = true).
  { apply contains_app_r, contains_app_l. unfold row.
    destruct Hport as [[-> Hs] | [-> Hs]];
      destruct (startswith_inv _ _ Hs) as [w Hw]; cbn [append] in Hw; subst.
    - do 2 apply contains_app_r. apply contains_port_here.
    - do 4 apply contains_app_r. apply contains_port_here. }
  assert (Hhit : line_hits p (lead ++ row ++ trail) = true).
  { unfold line_hits. now rewrite Hcontains, Hparts. }
  unfold get_port_info_netstat, lookup_body. cbn [bind].
  rewrite Hsplit, scan_lines_skip by exact Hpre.
  rewrite line_hits_true_step by exact Hhit.
  rewrite Hparts, parse_line_fields by (cbn; lia).
  cbn [last nth]. rewrite py_int_str_of_int by exact Hlen.
  cbn [bind try_except]. now rewrite Hstrip.
Qed.

Lemma formatted_row_is_read_back_witness :
  get_port_info_netstat 135 (Return netstat_fixture)
  = Return (mk_NetstatPortInfo 135 (Some 1040) (Some "TCP")
              (Some "0.0.0.0:135") (Some "0.0.0.0:0") (Some "LISTENING")
              "TCP    0.0.0.0:135     0.0.0.0:0    LISTENING    1040").
Proof.
  apply (formatted_row_is_read_back 135 1040 "TCP" "0.0.0.0:135" "0.0.0.0:0"
           "LISTENING" "0.0.0.0" "  " EmptyString "    " "     " "    " "    "
           netstat_fixture
           [ "Active Connections"; EmptyString; header_line ]
           [ listening_line; "  UDP    0.0.0.0:53    *:*    99" ]).
  - split; reflexivity.
  - split; reflexivity.
  - split; reflexivity.
  - split; reflexivity.
  - split; reflexivity.
  - split; reflexivity.
  - split; reflexivity.
  - split; reflexivity.
  - left. split; reflexivity.
  - apply Nat.leb_le. reflexivity.
  - reflexivity.
  - reflexivity.
  - reflexivity.
  - intros l H. each_line H.
Defined.

(** ** Port lookup: no partial matches *)

Lemma contains_inv (n s : string) :
  contains n s = true -> exists a b, s = a ++ n ++ b.
Proof.
  induction s as [| x s IH]; cbn [contains]; intros H.
  - rewrite orb_false_r in H. destruct (startswith_inv _ _ H) as [b Hb].
    exists EmptyString, b. exact Hb.
  - apply orb_prop in H as [H | H].
    + destruct (startswith_inv _ _ H) as [b Hb]. exists EmptyString, b. exact Hb.
    + destruct (IH H) as (a & b & ->). exists (String x a), b. reflexivity.
Qed.

Lemma lstrip_keeps_token (a t s : string) :
  clean t -> exists a', lstrip (a ++ t ++ s) = a' ++ t ++ s.
Proof.
  intros Ht. induction a as [| x a IH].
  - exists EmptyString. cbn [append]. apply lstrip_id. now apply clean_starts.
  - cbn [append lstrip]. destruct (isspace x).
    + exact IH.
    + exists (String x a). reflexivity.
Qed.

Lemma rstrip_app_keep (w v : string) :
  ends_with_space w = false -> rstrip (w ++ v) = w ++ rstrip v.
Proof.
  induction w as [| x w IH]; intros H; [reflexivity |].
  cbn [append rstrip].
  destruct w as [| y w'].
  - cbn [append]. cbn [ends_with_space] in H.
    destruct (rstrip v); [now rewrite H | reflexivity].
  - rewrite IH by exact H. reflexivity.
Qed.

Lemma rstrip_space_head (c : ascii) (b : string) :
  isspace c = true ->
  rstrip (String c b) = EmptyString
  \/ starts_with_space (rstrip (String c b)) = true.
Proof.
  intros Hc. cbn [rstrip]. destruct (rstrip b).
  - left. now rewrite Hc.
  - right. exact Hc.
Qed.

(** Stripping a line keeps a token of the line that a white space
    follows, and what follows it is nothing or starts with a white
    space. *)
Lemma strip_keeps_token (a t b : string) (c : ascii) :
  clean t -> isspace c = true ->
  exists a' rest,
    strip (a ++ t ++ String c b) = a' ++ t ++ rest
    /\ (rest = EmptyString \/ starts_with_space rest = true).
Proof.
  intros Ht Hc. unfold strip.
  destruct (lstrip_keeps_token a t (String c b) Ht) as [a' ->].
  exists a', (rstrip (String c b)). split.
  - rewrite <- !app_assoc_string. rewrite rstrip_app_keep; [reflexivity |].
    now apply ends_with_space_token.
  - now apply rstrip_space_head.
Qed.

Lemma endswith_refl (t : string) : endswith t t = true.
Proof. destruct t; cbn [endswith]; now rewrite String.eqb_refl. Qed.

Lemma endswith_cons (t : string) (x : ascii) (f : string) :
  endswith t f = true -> endswith t (String x f) = true.
Proof. intros H. cbn [endswith]. rewrite H. apply orb_true_r. Qed.

(** A token followed by nothing or by a white space ends one of the
    fields. *)
Lemma token_ends_a_field (t rest : string) :
  clean t -> rest = EmptyString \/ starts_with_space rest = true ->
  forall (a : string) (r : bool),
  exists f, In f (re_split_ws_from r (a ++ t ++ rest)) /\ endswith t f = true.
Proof.
  intros Ht Hrest.
  assert (Hbase : forall r, exists f,
            In f (re_split_ws_from r (t ++ rest)) /\ endswith t f = true).
  { intros r. destruct Ht as [Hne Hns].
    rewrite re_split_ws_from_token_any, re_split_ws_from_token_app by assumption.
    assert (Hhead : exists ts, re_split_ws_from false rest = EmptyString :: ts).
    { destruct Hrest as [-> | Hs]; [exists []; reflexivity |].
      destruct rest as [| c rest']; [discriminate |]. cbn [starts_with_space] in Hs.
      cbn [re_split_ws_from]. rewrite Hs. eexists. reflexivity. }
    destruct Hhead as [ts ->]. exists (t ++ EmptyString). split; [left; reflexivity |].
    rewrite app_nil_r_string. apply endswith_refl. }
  induction a as [| x a IH]; intros r; [apply Hbase |].
  cbn [append re_split_ws_from]. destruct (isspace x).
  - destruct (IH true) as (f & Hin & He). exists f.
    split; [| exact He]. destruct r; [exact Hin | right; exact Hin].
  - destruct (IH false) as (f & Hin & He).
    destruct (re_split_ws_from false (a ++ t ++ rest)) as [| f0 fs]; [destruct Hin |].
    destruct Hin as [<- | Hin].
    + exists (String x f0). split; [left; reflexivity | now apply endswith_cons].
    + exists f. split; [right; exact Hin | exact He].
Qed.

Lemma port_token_clean (p : Z) : clean (":" ++ str_of_int p).
Proof.
  destruct (str_of_int_clean p) as [_ Hns]. split; [reflexivity |].
  cbn [append no_space]. now rewrite Hns.
Qed.

(** A line that contains [":<port> "] has a field that ends in
    [":<port>"]. *)
Lemma hit_has_port_field (p : Z) (line : string) :
  contains (port_pattern p) line = true ->
  exists f, In f (re_split_ws (strip line))
            /\ endswith (":" ++ str_of_int p) f = true.
Proof.
  intros H. destruct (contains_inv _ _ H) as (a & b & ->).
  unfold port_pattern.
  replace (a ++ (":" ++ str_of_int p ++ " ") ++ b)
    with (a ++ (":" ++ str_of_int p) ++ String " " b).
  2:{ f_equal. cbn [append]. f_equal. now rewrite app_assoc_string. }
  destruct (strip_keeps_token a (":" ++ str_of_int p) b " " (port_token_clean p) eq_refl)
    as (a' & rest & -> & Hrest).
  exact (token_ends_a_field _ rest (port_token_clean p) Hrest a' false).
Qed.

(** X5: when no field of any line of the output ends in
    [":<port>"], the lookup answers [Not found]: a line can only match
    through a field whose end is a colon and the port. *)
Theorem no_field_ends_in_port_gives_not_found (p : Z) (out : string) :
  (forall line f,
      In line (splitlines out) -> In f (re_split_ws (strip line)) ->
      endswith (":" ++ str_of_int p) f = false) ->
  get_port_info_netstat p (Return out) = Return (absent_record p "Not found").
Proof.
  intros H. unfold get_port_info_netstat, lookup_body. cbn [bind].
  rewrite scan_lines_no_hit; [reflexivity |].
  intros line Hline. unfold line_hits.
  destruct (contains (port_pattern p) line) eqn:Hc; [| reflexivity].
  destruct (hit_has_port_field p line Hc) as (f & Hf & He).
  rewrite (H line f Hline Hf) in He. discriminate.
Qed.

Lemma no_field_ends_in_port_gives_not_found_witness :
  get_port_info_netstat 80 (Return netstat_fixture)
  = Return (absent_record 80 "Not found").
Proof.
  apply (no_field_ends_in_port_gives_not_found 80 netstat_fixture).
  intros line f Hline Hf. vm_compute in Hline.
  repeat (destruct Hline as [<- | Hline];
          [vm_compute in Hf;
           repeat (destruct Hf as [<- | Hf]; [reflexivity |]); contradiction |]).
  contradiction.
Defined.

Lemma has_char_app (c : ascii) (a b : string) :
  has_char c (a ++ b) = has_char c a || has_char c b.
Proof.
  induction a as [| x a IH]; [reflexivity |].
  cbn [append has_char]. now rewrite IH, orb_assoc.
Qed.

Lemma endswith_has_char (c : ascii) (t f : string) :
  endswith t f = true -> has_char c t = true -> has_char c f = true.
Proof.
  induction f as [| x f IH]; cbn [endswith]; intros H Ht.
  - rewrite orb_false_r in H. apply String.eqb_eq in H. now subst.
  - apply orb_prop in H as [H | H].
    + apply String.eqb_eq in H. now subst.
    + cbn [has_char]. rewrite (IH H Ht). apply orb_true_r.
Qed.

Lemma string_of_uint_no_colon (u : Decimal.uint) :
  has_char ":" (NilEmpty.string_of_uint u) = false.
Proof. induction u; cbn [NilEmpty.string_of_uint has_char]; try reflexivity; exact IHu. Qed.

Lemma str_of_int_no_colon (n : Z) : has_char ":" (str_of_int n) = false.
Proof.
  destruct n as [| p | p]; [reflexivity | |]; destruct (str_of_int_pos p) as [Hpos Hneg].
  - rewrite Hpos. apply string_of_uint_no_colon.
  - rewrite Hneg. cbn [has_char]. apply string_of_uint_no_colon.
Qed.

Lemma str_of_int_inj (n m : Z) : str_of_int n = str_of_int m -> n = m.
Proof.
  unfold str_of_int. intros H.
  assert (Hnil : forall z, Z.to_int z <> Decimal.Pos Decimal.Nil
                           /\ Z.to_int z <> Decimal.Neg Decimal.Nil).
  { intros [| q | q]; cbn [Z.to_int]; split; try discriminate;
      intros E; injection E as E; exact (Unsigned.to_uint_nonnil q E). }
  pose proof (NilZero.isi (Z.to_int n) (proj1 (Hnil n)) (proj2 (Hnil n))) as Hn.
  pose proof (NilZero.isi (Z.to_int m) (proj1 (Hnil m)) (proj2 (Hnil m))) as Hm.
  rewrite H in Hn. rewrite Hn in Hm. injection Hm as Hm.
  rewrite <- (DecimalZ.of_to n), <- (DecimalZ.of_to m). now f_equal.
Qed.

(** The text after the last colon of an address is its port. *)
Lemma endswith_port_inv (t u g : string) :
  has_char ":" t = false -> has_char ":" u = false ->
  endswith (":" ++ t) (g ++ ":" ++ u) = true -> t = u.
Proof.
  intros Ht Hu. induction g as [| x g IH]; cbn [append endswith]; intros H.
  - apply orb_prop in H as [H | H].
    + apply String.eqb_eq in H. now injection H.
    + exfalso. pose proof (endswith_has_char ":" _ _ H eq_refl) as Hc.
      rewrite Hu in Hc. discriminate.
  - apply orb_prop in H as [H | H]; [| now apply IH].
    exfalso. apply String.eqb_eq in H. injection H as _ H.
    assert (Hc : has_char ":" t = true).
    { rewrite H, has_char_app. cbn [append has_char]. apply orb_true_r. }
    rewrite Ht in Hc. discriminate.
Qed.

Lemma foreign_field_does_not_end_in_port (p : Z) (f : string) :
  foreign_to p f -> endswith (":" ++ str_of_int p) f = false.
Proof.
  intros [Hno | (g & q & Hq & ->)];
    destruct (endswith _ _) eqn:E; try reflexivity; exfalso.
  - pose proof (endswith_has_char ":" _ _ E eq_refl) as Hc.
    rewrite Hno in Hc. discriminate.
  - apply Hq. apply str_of_int_inj. symmetry.
    exact (endswith_port_inv _ _ g (str_of_int_no_colon p) (str_of_int_no_colon q) E).
Qed.

(** X6: partial matches do not count.  When every field of every
    line either holds no colon or is some text, a colon and the decimal
    numeral of a port other than the one asked for, the lookup answers
    [Not found]: asking for port 80 is not answered by a row of port
    8080. *)
Theorem rows_of_other_ports_give_not_found (p : Z) (out : string) :
  (forall line f,
      In line (splitlines out) -> In f (re_split_ws (strip line)) -> foreign_to p f) ->
  get_port_info_netstat p (Return out) = Return (absent_record p "Not found").
Proof.
  intros H. unfold get_port_info_netstat, lookup_body. cbn [bind].
  rewrite scan_lines_no_hit; [reflexivity |].
  intros line Hline. unfold line_hits.
  destruct (contains (port_pattern p) line) eqn:Hc; [| reflexivity].
  destruct (hit_has_port_field p line Hc) as (f & Hf & He).
  rewrite (foreign_field_does_not_end_in_port p f (H line f Hline Hf)) in He.
  discriminate.
Qed.

Lemma rows_of_other_ports_give_not_found_witness :
  get_port_info_netstat 80 (Return listener_output)
  = Return (absent_record 80 "Not found").
Proof.
  apply (rows_of_other_ports_give_not_found 80 listener_output).
  intros line f Hline Hf. vm_compute in Hline.
  repeat (destruct Hline as [<- | Hline];
          [vm_compute in Hf;
           repeat (destruct Hf as [<- | Hf];
                   [first [ left; reflexivity
                          | right; exists "0.0.0.0", 8080; split; [discriminate | reflexivity]
                          | right; exists "0.0.0.0", 0; split; [discriminate | reflexivity] ]
                   |]);
           contradiction |]).
  contradiction.
Defined.

(** ** Gigabytes in hundredths *)

Lemma round_half_even_error (a b : Z) :
  0 < b -> 2 * Z.abs (a - round_half_even a b * b) <= b.
Proof.
  intros Hb. unfold round_half_even.
  pose proof (Z.div_mod a b ltac:(lia)) as Ha.
  pose proof (Z.mod_pos_bound a b Hb) as Hr.
  destruct (Z.compare_spec (2 * (a mod b)) b) as [E | L | G];
    [destruct (Z.even (a / b)) | |]; nia.
Qed.

Lemma round_half_even_mono (a a' b : Z) :
  0 < b -> a <= a' -> round_half_even a b <= round_half_even a' b.
Proof.
  intros Hb Hle. unfold round_half_even.
  pose proof (Z.div_mod a b ltac:(lia)) as Ha.
  pose proof (Z.mod_pos_bound a b Hb) as Hr.
  pose proof (Z.div_mod a' b ltac:(lia)) as Ha'.
  pose proof (Z.mod_pos_bound a' b Hb) as Hr'.
  pose proof (Z.div_le_mono a a' b Hb Hle) as Hq.
  destruct (Z.eq_dec (a / b) (a' / b)) as [E | N].
  - rewrite <- E in *.
    assert (a mod b <= a' mod b) by nia.
    destruct (Z.compare_spec (2 * (a mod b)) b);
      destruct (Z.compare_spec (2 * (a' mod b)) b);
      destruct (Z.even (a / b)); lia.
  - destruct (2 * (a mod b) ?= b); destruct (2 * (a' mod b) ?= b);
      destruct (Z.even (a / b)); destruct (Z.even (a' / b)); lia.
Qed.

Lemma round_half_even_multiple (c b : Z) : 0 < b -> round_half_even (c * b) b = c.
Proof.
  intros Hb. unfold round_half_even.
  rewrite Z.div_mul, Z.mod_mul by lia.
  destruct (Z.compare_spec (2 * 0) b); [lia | reflexivity | lia].
Qed.

(** X7: below [2^53] bytes, [bytes_to_gb] returns the float nearest to
    a whole number of hundredths; that number is within half a hundredth
    of the exact [n / 2^30] gigabytes, it is not negative, and a larger
    byte count never gives a smaller one. *)
Theorem bytes_to_gb_is_near_and_monotone (n m : Z) :
  0 <= n -> n <= m -> m < 2 ^ 53 ->
  bytes_to_gb n = Return (hundredths (gb_hundredths n))
  /\ bytes_to_gb m = Return (hundredths (gb_hundredths m))
  /\ 2 * Z.abs (100 * n - gb_hundredths n * 2 ^ 30) <= 2 ^ 30
  /\ 0 <= gb_hundredths n <= gb_hundredths m.
Proof.
  intros Hn Hnm Hm. repeat split.
  - apply bytes_to_gb_exact. lia.
  - apply bytes_to_gb_exact. lia.
  - apply round_half_even_error. reflexivity.
  - apply round_half_even_bounds; [lia | reflexivity].
  - apply round_half_even_mono; [reflexivity | lia].
Qed.

Lemma bytes_to_gb_is_near_and_monotone_witness :
  bytes_to_gb 5000000 = Return (hundredths (gb_hundredths 5000000))
  /\ bytes_to_gb (2 ^ 30) = Return (hundredths (gb_hundredths (2 ^ 30)))
  /\ 2 * Z.abs (100 * 5000000 - gb_hundredths 5000000 * 2 ^ 30) <= 2 ^ 30
  /\ 0 <= gb_hundredths 5000000 <= gb_hundredths (2 ^ 30).
Proof.
  apply (bytes_to_gb_is_near_and_monotone 5000000 (2 ^ 30)); cbn; lia.
Defined.

Lemma of_ratio_multiple (q d : positive) :
  Zpos q < 2 ^ 53 -> of_ratio false (q * d) d = of_Z (Zpos q).
Proof.
  intros Hq.
  apply (holds_inj _ _ (Zpos q * 2 ^ 1074)); [| apply holds_of_Z; lia].
  pose proof (Zdigits2_pos (Zpos q) ltac:(lia)) as Hdq0.
  pose proof (Zdigits2_lt_pow2 (Zpos q) 53 ltac:(lia) ltac:(lia) Hq) as Hdq.
  pose proof (Zdigits2_bounds (Zpos q) ltac:(lia)) as [_ Hqhi].
  pose proof (Zdigits2_bounds (Zpos d) ltac:(lia)) as [_ Hdhi].
  pose proof (Zdigits2_pos (Zpos d) ltac:(lia)) as Hdd0.
  unfold of_ratio, fdiv, SFdiv, SFdiv_core_binary.
  change (SpecFloat.fexp prec emax) with fexp64.
  set (dq := Zdigits2 (Zpos q)) in *.
  set (d1 := Zdigits2 (Zpos (q * d))). set (d2 := Zdigits2 (Zpos d)) in *.
  assert (Hdelta : d1 - d2 <= dq).
  { assert (Zpos (q * d) < 2 ^ (dq + d2)).
    { rewrite Z.pow_add_r by lia. rewrite Pos2Z.inj_mul. nia. }
    pose proof (Zdigits2_lt_pow2 (Zpos (q * d)) (dq + d2)
                  ltac:(lia) ltac:(lia) ltac:(assumption)).
    fold d1 in H0. lia. }
  set (e' := Z.min (fexp64 (d1 + 0 - (d2 + 0))) (0 - 0)).
  assert (He' : e' <= dq - 53 /\ -1074 <= e' <= 0).
  { unfold e'. rewrite fexp64_eq. lia. }
  set (t := - e').
  assert (Hm' : match 0 - 0 - e' with
                | 0 => Zpos (q * d)
                | Zpos _ => Z.shiftl (Zpos (q * d)) (0 - 0 - e')
                | Zneg _ => 0
                end = Zpos d * (Zpos q * 2 ^ t)).
  { replace (0 - 0 - e') with t by (unfold t; lia).
    rewrite Pos2Z.inj_mul.
    destruct t as [| p | p] eqn:E; [rewrite Z.pow_0_r; ring | | lia].
    rewrite Z.shiftl_mul_pow2 by lia. ring. }
  rewrite Hm', div_eucl_exact by lia. rewrite new_location_exact.
  cbn [xorb].
  replace (Zpos q * 2 ^ t) with ((Zpos q * 2 ^ (53 - dq)) * 2 ^ (dq - 53 + t)).
  2:{ rewrite <- Z.mul_assoc, <- Z.pow_add_r by (unfold t; lia). f_equal. f_equal. lia. }
  assert (Hz : 0 < Zpos q * 2 ^ (53 - dq))
    by (apply Z.mul_pos_pos; [lia | apply Z.pow_pos_nonneg; lia]).
  assert (Hdz : Zdigits2 (Zpos q * 2 ^ (53 - dq)) = 53)
    by (rewrite Zdigits2_mul_pow2 by lia; fold dq; lia).
  rewrite binary_round_aux_exact; try assumption; try (unfold t; lia).
  - cbn [holds]. rewrite Z2Pos.id by assumption. rewrite Hdz.
    replace (e' + (dq - 53 + t)) with (dq - 53) by (unfold t; lia).
    rewrite fexp64_eq. repeat split; try lia.
    rewrite <- Z.mul_assoc, <- Z.pow_add_r by lia. f_equal. f_equal. lia.
  - rewrite Hdz, fexp64_eq. unfold t. lia.
Qed.

(** X8: a whole number [k] of gibibytes, [k] below [2^23], converts
    to the float [k] itself: [bytes_to_gb (k * 2^30) = float(k)]. *)
Theorem whole_gigabytes_are_exact (k : Z) :
  0 <= k < 2 ^ 23 -> bytes_to_gb (k * 2 ^ 30) = Return (of_Z k).
Proof.
  intros [Hk0 Hk].
  rewrite bytes_to_gb_exact.
  2:{ change (2 ^ 53) with (2 ^ 23 * 2 ^ 30). nia. }
  unfold gigabytes_exact.
  replace (100 * (k * 2 ^ 30)) with ((k * 100) * 2 ^ 30) by ring.
  rewrite round_half_even_multiple by reflexivity.
  destruct k as [| p | p]; [reflexivity | | lia].
  change (Zpos p * 100) with (Zpos (p * 100)). cbn [hundredths].
  rewrite of_ratio_multiple; [reflexivity |].
  apply Z.lt_trans with (2 ^ 23); [exact Hk | reflexivity].
Qed.

Lemma whole_gigabytes_are_exact_witness :
  bytes_to_gb (16 * 2 ^ 30) = Return (of_Z 16).
Proof.
  apply (whole_gigabytes_are_exact 16). cbn. lia.
Defined.

(** ** Rounding never overflows *)

Lemma Zdigits2_ge_pow2 (n d : Z) : 0 < n -> 2 ^ (d - 1) <= n -> d <= Zdigits2 n.
Proof.
  intros Hn H. pose proof (Zdigits2_bounds n Hn) as [_ Hhi].
  pose proof (Zdigits2_pos n Hn).
  destruct (Z_lt_le_dec (Zdigits2 n) d); [| lia].
  assert (2 ^ Zdigits2 n <= 2 ^ (d - 1)) by (apply Z.pow_le_mono_r; lia). lia.
Qed.

(** The quotient of a float's own value, scaled, by the scale. *)
Lemma of_ratio_scaled (s : bool) (m : positive) (e : Z) (n d : positive) :
  Zdigits2 (Zpos m) = 53 -> 0 <= e <= 971 ->
  Zpos n = Zpos d * (Zpos m * 2 ^ e) ->
  of_ratio s n d = S754_finite s m e.
Proof.
  intros Hm He Hn.
  pose proof (Zdigits2_bounds (Zpos m) ltac:(lia)) as [Hmlo Hmhi]. rewrite Hm in Hmlo, Hmhi.
  pose proof (Zdigits2_bounds (Zpos d) ltac:(lia)) as [Hdlo Hdhi].
  pose proof (Zdigits2_pos (Zpos d) ltac:(lia)) as Hdd0.
  unfold of_ratio, fdiv, SFdiv, SFdiv_core_binary.
  change (SpecFloat.fexp prec emax) with fexp64.
  set (d1 := Zdigits2 (Zpos n)). set (d2 := Zdigits2 (Zpos d)) in *.
  assert (Hp : 0 < 2 ^ e) by (apply Z.pow_pos_nonneg; lia).
  assert (Hhi : d1 <= 53 + e + d2).
  { apply Zdigits2_lt_pow2; [lia | lia |].
    rewrite Hn. replace (53 + e + d2) with (d2 + (53 + e)) by lia.
    rewrite (Z.pow_add_r 2 d2), (Z.pow_add_r 2 53 e) by lia.
    assert (Zpos m * 2 ^ e < 2 ^ 53 * 2 ^ e) by nia.
    set (X := Zpos m * 2 ^ e) in *. set (Y := 2 ^ 53 * 2 ^ e) in *.
    assert (0 < X) by (unfold X; nia). nia. }
  assert (Hlo : 52 + e + d2 <= d1).
  { apply Zdigits2_ge_pow2; [lia |].
    replace (52 + e + d2 - 1) with ((d2 - 1) + (52 + e)) by lia.
    rewrite Hn. rewrite (Z.pow_add_r 2 (d2 - 1)), (Z.pow_add_r 2 52 e) by lia.
    change (53 - 1) with 52 in Hmlo.
    assert (2 ^ 52 * 2 ^ e <= Zpos m * 2 ^ e) by nia.
    set (X := Zpos m * 2 ^ e) in *. set (Y := 2 ^ 52 * 2 ^ e) in *.
    assert (0 < Y) by (unfold Y; nia).
    assert (0 < 2 ^ (d2 - 1)) by (apply Z.pow_pos_nonneg; lia). nia. }
  set (e' := Z.min (fexp64 (d1 + 0 - (d2 + 0))) (0 - 0)).
  assert (He' : -1 <= e' <= 0 /\ (1 <= e -> e' = 0)).
  { unfold e'. rewrite fexp64_eq. lia. }
  set (t := - e').
  assert (Hm' : match 0 - 0 - e' with
                | 0 => Zpos n
                | Zpos _ => Z.shiftl (Zpos n) (0 - 0 - e')
                | Zneg _ => 0
                end = Zpos d * (Zpos m * 2 ^ (e + t))).
  { replace (0 - 0 - e') with t by (unfold t; lia).
    rewrite Hn. rewrite Z.pow_add_r by (unfold t; lia).
    destruct t as [| p | p] eqn:E; [rewrite Z.pow_0_r; ring | | lia].
    rewrite Z.shiftl_mul_pow2 by lia. ring. }
  rewrite Hm', div_eucl_exact by lia. rewrite new_location_exact.
  rewrite xorb_false_r.
  rewrite binary_round_aux_exact; try (unfold t; lia).
  - f_equal. unfold t. lia.
  - rewrite Hm, fexp64_eq. unfold t. lia.
Qed.

Lemma returns_Return {A : Type} (a : A) : returns (Return a).
Proof. exists a. reflexivity. Qed.

(** Rounding to at most two decimal places a value of moderate size
    gives a float. *)
Lemma float_round_moderate (s : bool) (m : positive) (e nd : Z) :
  0 <= nd <= 2 ->
  Zpos m * 2 ^ Z.max e 0 < 2 ^ 290 ->
  returns (float_round (S754_finite s m e) nd).
Proof.
  intros Hnd Hsize. unfold float_round.
  replace (323 <? nd) with false by (symmetry; apply Z.ltb_ge; lia).
  replace (nd <? -308) with false by (symmetry; apply Z.ltb_ge; lia).
  replace (Z.max (- nd) 0) with 0 by lia. rewrite Z.pow_0_r, !Z.mul_1_r.
  replace (Z.max nd 0) with nd by lia.
  assert (Hup : 0 < 10 ^ nd <= 100).
  { assert (nd = 0 \/ nd = 1 \/ nd = 2) as [-> | [-> | ->]] by lia; cbn; lia. }
  set (up := 10 ^ nd) in *.
  set (a := Zpos m * 2 ^ Z.max e 0) in *.
  assert (Ha : 0 < a).
  { unfold a. apply Z.mul_pos_pos; [lia | apply Z.pow_pos_nonneg; lia]. }
  assert (Hb : 0 < 2 ^ Z.max (- e) 0) by (apply Z.pow_pos_nonneg; lia).
  pose proof (round_half_even_bounds (a * up) (2 ^ Z.max (- e) 0) ltac:(nia) Hb)
    as [Hq0 Hq1].
  assert (Hq2 : round_half_even (a * up) (2 ^ Z.max (- e) 0) < 2 ^ 300).
  { apply Z.le_lt_trans with (a * up / 2 ^ Z.max (- e) 0 + 1); [exact Hq1 |].
    assert (a * up / 2 ^ Z.max (- e) 0 <= a * up) by (apply Z.div_le_upper_bound; nia).
    change (2 ^ 300) with (2 ^ 290 * 1024). nia. }
  destruct (round_half_even (a * up) (2 ^ Z.max (- e) 0)) as [| k | k];
    [apply returns_Return | | apply returns_Return].
  assert (Hupd : Zpos (Z.to_pos up) < 2 ^ 300).
  { rewrite Z2Pos.id by lia. apply Z.le_lt_trans with 100; [lia | reflexivity]. }
  pose proof (of_ratio_finite s k (Z.to_pos up) Hq2 Hupd) as Hfin.
  destruct (of_ratio s k (Z.to_pos up)); try apply returns_Return.
  exfalso. eapply Hfin. reflexivity.
Qed.

Lemma is_binary64_finite (s : bool) (m : positive) (e : Z) :
  is_binary64 (S754_finite s m e) = true ->
  fexp64 (Zdigits2 (Zpos m) + e) = e /\ e <= 971.
Proof.
  unfold is_binary64. cbn [valid_binary]. unfold bounded, canonical_mantissa.
  intros H. apply andb_prop in H as [Hc Hb].
  apply Z.eqb_eq in Hc. apply Z.leb_le in Hb. split; [exact Hc | exact Hb].
Qed.

(** [round(x, 0)], [round(x, 1)] and [round(x, 2)] raise for no
    value of the format. *)
Lemma float_round_binary64 (x : float) (nd : Z) :
  is_binary64 x = true -> 0 <= nd <= 2 -> returns (float_round x nd).
Proof.
  intros Hx Hnd.
  destruct x as [sx | sx | | s m e]; try apply returns_Return.
  apply is_binary64_finite in Hx as [Hc Hmax].
  rewrite fexp64_eq in Hc.
  pose proof (Zdigits2_bounds (Zpos m) ltac:(lia)) as [_ Hmhi].
  pose proof (Zdigits2_pos (Zpos m) ltac:(lia)) as Hd0.
  destruct (Z_lt_le_dec e 0) as [Hneg | Hpos].
  - apply float_round_moderate; [exact Hnd |].
    replace (Z.max e 0) with 0 by lia. rewrite Z.pow_0_r, Z.mul_1_r.
    apply Z.lt_le_trans with (2 ^ Zdigits2 (Zpos m)); [exact Hmhi |].
    apply Z.pow_le_mono_r; lia.
  - assert (Hd : Zdigits2 (Zpos m) = 53) by lia.
    unfold float_round.
    replace (323 <? nd) with false by (symmetry; apply Z.ltb_ge; lia).
    replace (nd <? -308) with false by (symmetry; apply Z.ltb_ge; lia).
    replace (Z.max (- nd) 0) with 0 by lia.
    replace (Z.max (- e) 0) with 0 by lia.
    replace (Z.max e 0) with e by lia.
    replace (Z.max nd 0) with nd by lia.
    rewrite Z.pow_0_r, !Z.mul_1_r.
    assert (Hup : 0 < 10 ^ nd) by (apply Z.pow_pos_nonneg; lia).
    assert (Hp : 0 < 2 ^ e) by (apply Z.pow_pos_nonneg; lia).
    replace (Zpos m * 2 ^ e * 10 ^ nd) with ((Zpos m * 2 ^ e * 10 ^ nd) * 1) by ring.
    rewrite round_half_even_multiple by lia.
    destruct (Zpos m * 2 ^ e * 10 ^ nd) as [| k | k] eqn:Hk; [nia | | nia].
    rewrite (of_ratio_scaled s m e k (Z.to_pos (10 ^ nd)) Hd ltac:(lia)).
    + apply returns_Return.
    + rewrite Z2Pos.id by lia. rewrite <- Hk. ring.
Qed.

(** What a rounding can return: the mantissa grows by at most one and
    the exponent by what the format asks. *)
Lemma binary_round_aux_bounds (s : bool) (m e : Z) (l : location) (A B : Z) :
  0 <= A -> 0 <= m < 2 ^ A -> e <= B ->
  match binary_round_aux prec emax s m e l with
  | S754_finite _ m' e' =>
      Zpos m' <= 2 ^ A
      /\ e' <= Z.max (Z.max B (A + B - 53)) (-1074) + Z.max 0 (A - 52)
  | S754_infinity _ => True
  | _ => True
  end.
Proof.
  intros HA [Hm0 Hm] He. unfold binary_round_aux.
  pose proof (shr_fexp_bounds m e l Hm0) as B1.
  destruct (shr_fexp prec emax m e l) as [mrs' e'].
  destruct B1 as [Bm1 Be1].
  pose proof (round_nearest_even_bounds (shr_m mrs') (loc_of_shr_record mrs')
                (proj1 Bm1)) as Br.
  set (m1 := round_nearest_even (shr_m mrs') (loc_of_shr_record mrs')) in *.
  pose proof (shr_fexp_bounds m1 e' loc_Exact (proj1 Br)) as B2.
  destruct (shr_fexp prec emax m1 e' loc_Exact) as [mrs'' e''].
  destruct B2 as [Bm2 Be2].
  assert (Hd : Zdigits2 m <= A).
  { destruct (Z.eq_dec m 0) as [-> | Hne]; [cbn; lia |].
    apply Zdigits2_lt_pow2; lia. }
  assert (Hd0 : 0 <= Zdigits2 m).
  { destruct (Z.eq_dec m 0) as [-> | Hne]; [cbn; lia |].
    pose proof (Zdigits2_pos m ltac:(lia)). lia. }
  assert (Hd1 : Zdigits2 m1 <= A + 1).
  { destruct (Z.eq_dec m1 0) as [-> | Hne]; [cbn; lia |].
    apply Zdigits2_lt_pow2; [lia | lia |].
    rewrite Z.pow_add_r by lia. change (2 ^ 1) with 2. lia. }
  rewrite fexp64_eq in Be1, Be2.
  destruct (shr_m mrs'') as [| p | p] eqn:Ep; try exact I.
  destruct (e'' <=? emax - prec); [| exact I].
  split; lia.
Qed.

(** The quotient of two byte counts, in per cent, is of moderate
    size. *)
Lemma percent_of_ratio_moderate (u t : positive) :
  Zpos u < 2 ^ 53 -> Zpos t < 2 ^ 53 ->
  match fmul (of_ratio false u t) (of_Z 100) with
  | S754_finite _ m e => Zpos m * 2 ^ Z.max e 0 < 2 ^ 290
  | S754_infinity _ => False
  | _ => True
  end.
Proof.
  intros Hu Ht.
  pose proof (Zdigits2_bounds (Zpos u) ltac:(lia)) as [Hulo Huhi].
  pose proof (Zdigits2_bounds (Zpos t) ltac:(lia)) as [Htlo Hthi].
  pose proof (Zdigits2_pos (Zpos u) ltac:(lia)) as Hdu0.
  pose proof (Zdigits2_pos (Zpos t) ltac:(lia)) as Hdt0.
  pose proof (Zdigits2_lt_pow2 (Zpos u) 53 ltac:(lia) ltac:(lia) Hu) as Hdu.
  pose proof (Zdigits2_lt_pow2 (Zpos t) 53 ltac:(lia) ltac:(lia) Ht) as Hdt.
  assert (Hratio : match of_ratio false u t with
                   | S754_finite _ m e => Zpos m <= 2 ^ 54 /\ e <= 2
                   | _ => True
                   end).
  { unfold of_ratio, fdiv, SFdiv, SFdiv_core_binary.
    change (SpecFloat.fexp prec emax) with fexp64.
    set (d1 := Zdigits2 (Zpos u)) in *. set (d2 := Zdigits2 (Zpos t)) in *.
    set (e' := Z.min (fexp64 (d1 + 0 - (d2 + 0))) (0 - 0)).
    assert (He' : e' = d1 - d2 - 53) by (unfold e'; rewrite fexp64_eq; lia).
    set (m' := match 0 - 0 - e' with
               | 0 => Zpos u
               | Zpos _ => Z.shiftl (Zpos u) (0 - 0 - e')
               | Zneg _ => 0
               end).
    assert (Hm'eq : m' = Zpos u * 2 ^ (53 + d2 - d1)).
    { unfold m'. replace (0 - 0 - e') with (53 + d2 - d1) by lia.
      destruct (53 + d2 - d1) as [| p | p] eqn:E; [lia | | lia].
      now rewrite Z.shiftl_mul_pow2 by lia. }
    assert (Hp : 0 < 2 ^ (53 + d2 - d1)) by (apply Z.pow_pos_nonneg; lia).
    assert (Hm' : 0 <= m' < Zpos t * 2 ^ 54).
    { rewrite Hm'eq. split; [nia |].
      apply Z.lt_le_trans with (2 ^ d1 * 2 ^ (53 + d2 - d1)); [nia |].
      rewrite <- Z.pow_add_r by lia.
      replace (d1 + (53 + d2 - d1)) with ((d2 - 1) + 54) by lia.
      rewrite Z.pow_add_r by lia.
      apply Z.mul_le_mono_nonneg_r; [apply Z.pow_nonneg; lia | exact Htlo]. }
    pose proof (Z.div_pos m' (Zpos t) ltac:(lia) ltac:(lia)) as Hq0.
    pose proof (Z.div_lt_upper_bound m' (Zpos t) (2 ^ 54) ltac:(lia) ltac:(lia)) as Hq1.
    unfold Z.div in Hq0, Hq1.
    destruct (Z.div_eucl m' (Zpos t)) as [q r]. cbn [fst] in Hq0, Hq1.
    pose proof (binary_round_aux_bounds (xorb false false) q e' (new_location (Zpos t) r)
                  54 (-1) ltac:(lia) ltac:(lia) ltac:(lia)) as Hb.
    destruct (binary_round_aux prec emax (xorb false false) q e'
                (new_location (Zpos t) r)); try exact I.
    change (Z.max (Z.max (-1) (54 + -1 - 53)) (-1074) + Z.max 0 (54 - 52)) with 2 in Hb.
    exact Hb. }
  pose proof (of_ratio_finite false u t ltac:(apply Z.lt_trans with (2 ^ 53);
    [exact Hu | reflexivity]) ltac:(apply Z.lt_trans with (2 ^ 53);
    [exact Ht | reflexivity])) as Hfin.
  destruct (of_ratio false u t) as [sq | sq | | sq mq eq];
    try exact I; [exfalso; eapply Hfin; reflexivity |].
  destruct Hratio as [Hmq Heq].
  change (of_Z 100) with (S754_finite false 7036874417766400 (-46)).
  unfold fmul. cbn [SFmul].
  pose proof (binary_round_aux_bounds (xorb sq false)
                (Zpos (mq * 7036874417766400)) (eq + -46) loc_Exact
                108 (-44) ltac:(lia)) as Hb.
  assert (Hprod : 0 <= Zpos (mq * 7036874417766400) < 2 ^ 108).
  { split; [lia |]. rewrite Pos2Z.inj_mul.
    change (2 ^ 108) with (2 ^ 55 * 2 ^ 53).
    assert (Zpos mq < 2 ^ 55) by (change (2 ^ 55) with (2 * 2 ^ 54); lia).
    assert (7036874417766400 < 2 ^ 53) by reflexivity.
    nia. }
  specialize (Hb Hprod ltac:(lia)).
  assert (Hnotinf : forall s', binary_round_aux prec emax (xorb sq false)
            (Zpos (mq * 7036874417766400)) (eq + -46) loc_Exact <> S754_infinity s').
  { apply binary_round_aux_finite; [| lia].
    split; [lia |]. apply Z.lt_trans with (2 ^ 108); [apply Hprod | reflexivity]. }
  destruct (binary_round_aux prec emax (xorb sq false)
              (Zpos (mq * 7036874417766400)) (eq + -46) loc_Exact) as [| s' | | s' m e];
    try exact I; [eapply Hnotinf; reflexivity |].
  change (Z.max (Z.max (-44) (108 + -44 - 53)) (-1074) + Z.max 0 (108 - 52)) with 67 in Hb.
  destruct Hb as [Hm He].
  apply Z.le_lt_trans with (2 ^ 108 * 2 ^ 67); [| reflexivity].
  assert (0 < 2 ^ Z.max e 0) by (apply Z.pow_pos_nonneg; lia).
  assert (2 ^ Z.max e 0 <= 2 ^ 67) by (apply Z.pow_le_mono_r; lia).
  nia.
Qed.

Lemma map_float_round_returns (xs : list float) :
  Forall (fun x => is_binary64 x = true) xs ->
  returns (map_result (fun x => float_round x 2) xs).
Proof.
  induction 1 as [| x xs Hx Hxs [ys IH]]; [apply returns_Return |].
  destruct (float_round_binary64 x 2 Hx ltac:(lia)) as [y Hy].
  cbn [map_result]. rewrite Hy, IH. apply returns_Return.
Qed.

(** ** Memory snapshot *)

(** X9: [get_memory_usage] returns a record whenever psutil answers
    with byte counts from 0 to below [2^53] and a percentage that is a
    binary64 value (infinities and NaN included): the four gigabyte
    fields are the byte counts converted each on its own, and the
    percentage is [round(percent, 1)]. *)
Theorem get_memory_usage_returns {datetime : Type} (host : Host datetime) (m : svmem) :
  psutil_virtual_memory host = Return m ->
  0 <= vm_total m < 2 ^ 53 ->
  0 <= vm_available m < 2 ^ 53 ->
  0 <= vm_used m < 2 ^ 53 ->
  0 <= vm_free m < 2 ^ 53 ->
  is_binary64 (vm_percent m) = true ->
  exists percent,
    float_round (vm_percent m) 1 = Return percent
    /\ get_memory_usage host
       = Return (MemoryInfo.mk (gigabytes_exact (vm_total m))
                   (gigabytes_exact (vm_available m)) (gigabytes_exact (vm_used m))
                   percent (gigabytes_exact (vm_free m))).
Proof.
  intros Hm Ht Ha Hu Hf Hp. unfold get_memory_usage. rewrite Hm. cbn [bind].
  rewrite !bytes_to_gb_exact by lia. cbn [bind].
  destruct (float_round_binary64 (vm_percent m) 1 Hp ltac:(lia)) as [pc Hpc].
  rewrite Hpc. cbn [bind]. exists pc. split; reflexivity.
Qed.

Lemma get_memory_usage_returns_witness :
  exists percent,
    float_round (of_Z 50) 1 = Return percent
    /\ get_memory_usage fixture_host
       = Return (MemoryInfo.mk (gigabytes_exact 17179869184)
                   (gigabytes_exact 8589934592) (gigabytes_exact 8589934592)
                   percent (gigabytes_exact 8589934592)).
Proof.
  apply (get_memory_usage_returns fixture_host
           (mk_svmem 17179869184 8589934592 (of_Z 50) 8589934592 8589934592));
    first [reflexivity | cbn; lia].
Defined.

(** X10: when the total memory is the sum of the used and the free
    memory (as psutil computes them on Windows), the three gigabyte
    fields of the record are whole hundredths that add up to within one
    hundredth: [|total_gb - (used_gb + free_gb)| <= 0.01]. *)
Theorem memory_fields_add_up {datetime : Type} (host : Host datetime)
    (m : svmem) (r : MemoryInfo.t) :
  psutil_virtual_memory host = Return m ->
  0 <= vm_used m -> 0 <= vm_free m ->
  vm_total m = vm_used m + vm_free m ->
  vm_total m < 2 ^ 53 ->
  get_memory_usage host = Return r ->
  exists total used free,
    MemoryInfo.total_gb r = hundredths total
    /\ MemoryInfo.used_gb r = hundredths used
    /\ MemoryInfo.free_gb r = hundredths free
    /\ Z.abs (total - (used + free)) <= 1.
Proof.
  intros Hm Hu Hf Hsum Ht. unfold get_memory_usage. rewrite Hm. cbn [bind].
  rewrite (bytes_to_gb_exact (vm_total m)) by lia.
  rewrite (bytes_to_gb_exact (vm_used m)) by lia.
  rewrite (bytes_to_gb_exact (vm_free m)) by lia.
  cbn [bind].
  destruct (bytes_to_gb (vm_available m)) as [av | e]; [| discriminate].
  cbn [bind].
  destruct (float_round (vm_percent m) 1) as [pc | e]; [| discriminate].
  cbn [bind]. intros [= <-].
  exists (gb_hundredths (vm_total m)), (gb_hundredths (vm_used m)),
    (gb_hundredths (vm_free m)).
  cbn [MemoryInfo.total_gb MemoryInfo.used_gb MemoryInfo.free_gb].
  repeat split.
  pose proof (round_half_even_error (100 * vm_total m) (2 ^ 30) ltac:(reflexivity)) as Et.
  pose proof (round_half_even_error (100 * vm_used m) (2 ^ 30) ltac:(reflexivity)) as Eu.
  pose proof (round_half_even_error (100 * vm_free m) (2 ^ 30) ltac:(reflexivity)) as Ef.
  fold (gb_hundredths (vm_total m)) in Et.
  fold (gb_hundredths (vm_used m)) in Eu.
  fold (gb_hundredths (vm_free m)) in Ef.
  change (2 ^ 30) with 1073741824 in *. lia.
Qed.

Lemma memory_fields_add_up_witness :
  exists total used free,
    of_Z 16 = hundredths total /\ of_Z 8 = hundredths used /\ of_Z 8 = hundredths free
    /\ Z.abs (total - (used + free)) <= 1.
Proof.
  apply (memory_fields_add_up fixture_host
           (mk_svmem 17179869184 8589934592 (of_Z 50) 8589934592 8589934592)
           (MemoryInfo.mk (of_Z 16) (of_Z 8) (of_Z 8) (of_Z 50) (of_Z 8)));
    first [reflexivity | cbn; lia].
Defined.

(** ** CPU snapshot *)

(** X11: a failure of a query made by [get_cpu_usage] reaches the
    caller unchanged: of the CPU percentage, of the core count and of
    the frequency whatever its class, and of the load average when its
    class is neither [AttributeError] nor [OSError]. *)
Theorem get_cpu_usage_propagates {datetime : Type} (host : Host datetime) (e : exn) :
  (psutil_cpu_percent host = Raise e -> get_cpu_usage host = Raise e)
  /\ (returns (psutil_cpu_percent host) -> psutil_cpu_count host = Raise e ->
      get_cpu_usage host = Raise e)
  /\ (returns (psutil_cpu_percent host) -> returns (psutil_cpu_count host) ->
      psutil_cpu_freq host = Raise e -> get_cpu_usage host = Raise e)
  /\ (returns (psutil_cpu_percent host) -> returns (psutil_cpu_count host) ->
      returns (psutil_cpu_freq host) ->
      psutil_getloadavg host = Raise e ->
      is_AttributeError (exc_type e) || is_OSError (exc_type e) = false ->
      get_cpu_usage host = Raise e).
Proof.
  unfold get_cpu_usage, load_avg_or_zeros. repeat split.
  - intros ->. reflexivity.
  - intros [a ->] ->. reflexivity.
  - intros [a ->] [b ->] ->. reflexivity.
  - intros [a ->] [b ->] [c ->] -> Hc. cbn [bind try_except]. now rewrite Hc.
Qed.

Lemma get_cpu_usage_propagates_witness :
  get_cpu_usage broken_cpu_host = Raise (mk_exn OSError "cannot sample the CPU").
Proof.
  apply (proj1 (get_cpu_usage_propagates broken_cpu_host
                  (mk_exn OSError "cannot sample the CPU"))).
  reflexivity.
Defined.

(** X12: when the number of cores is unknown ([psutil.cpu_count()]
    is [None]) [get_cpu_usage] returns no record: it raises, and with
    every other step done what it raises is the [ValidationError] of the
    record model. *)
Theorem get_cpu_usage_needs_count {datetime : Type} (host : Host datetime) :
  psutil_cpu_count host = Return None ->
  raises (get_cpu_usage host)
  /\ (forall percent freq loads pr fr rounded,
        psutil_cpu_percent host = Return percent ->
        psutil_cpu_freq host = Return freq ->
        load_avg_or_zeros host = Return loads ->
        float_round percent 1 = Return pr ->
        float_round (match freq with
                     | Some f => freq_current f
                     | None => zero
                     end) 1 = Return fr ->
        map_result (fun x => float_round x 2) loads = Return rounded ->
        exists e, get_cpu_usage host = Raise e /\ exc_type e = ValidationError).
Proof.
  intros Hn. split.
  - unfold get_cpu_usage. rewrite Hn.
    destruct (psutil_cpu_percent host) as [percent | e]; [| eexists; reflexivity].
    cbn [bind].
    destruct (psutil_cpu_freq host) as [freq | e]; [| eexists; reflexivity].
    cbn [bind].
    destruct (load_avg_or_zeros host) as [l | e]; [| eexists; reflexivity].
    cbn [bind].
    destruct (float_round percent 1) as [pr | e]; [| eexists; reflexivity].
    cbn [bind].
    destruct (float_round _ 1) as [fr | e]; [| eexists; reflexivity].
    cbn [bind].
    destruct (map_result _ l) as [loads | e]; eexists; reflexivity.
  - intros percent freq loads pr fr rounded Hp Hf Hl Hpr Hfr Hr.
    unfold get_cpu_usage. rewrite Hp, Hn, Hf. cbn [bind]. rewrite Hl. cbn [bind].
    rewrite Hpr. cbn [bind]. rewrite Hfr. cbn [bind]. rewrite Hr. cbn [bind].
    eexists. split; reflexivity.
Qed.

Lemma get_cpu_usage_needs_count_witness :
  raises (get_cpu_usage no_count_host)
  /\ (forall percent freq loads pr fr rounded,
        psutil_cpu_percent no_count_host = Return percent ->
        psutil_cpu_freq no_count_host = Return freq ->
        load_avg_or_zeros no_count_host = Return loads ->
        float_round percent 1 = Return pr ->
        float_round (match freq with
                     | Some f => freq_current f
                     | None => zero
                     end) 1 = Return fr ->
        map_result (fun x => float_round x 2) loads = Return rounded ->
        exists e, get_cpu_usage no_count_host = Raise e
                  /\ exc_type e = ValidationError).
Proof.
  apply (get_cpu_usage_needs_count no_count_host). reflexivity.
Defined.

(** X13: when the frequency is unavailable ([psutil.cpu_freq()] is
    [None]) a returned record reports the frequency [0.0]. *)
Theorem cpu_freq_missing_is_zero {datetime : Type} (host : Host datetime) (r : CPUInfo.t) :
  psutil_cpu_freq host = Return None ->
  get_cpu_usage host = Return r ->
  CPUInfo.cpu_freq_current r = zero.
Proof.
  intros Hf. unfold get_cpu_usage. rewrite Hf.
  destruct (psutil_cpu_percent host) as [percent | e]; [| discriminate].
  destruct (psutil_cpu_count host) as [count | e]; [| discriminate].
  cbn [bind].
  destruct (load_avg_or_zeros host) as [l | e]; [| discriminate].
  cbn [bind].
  destruct (float_round percent 1) as [pr | e]; [| discriminate].
  cbn [bind]. change (float_round zero 1) with (Return zero). cbn [bind].
  destruct (map_result _ l) as [loads | e]; [| discriminate].
  cbn [bind]. destruct count; [| discriminate]. intros [= <-]. reflexivity.
Qed.

Lemma cpu_freq_missing_is_zero_witness :
  CPUInfo.cpu_freq_current
    (CPUInfo.mk (of_ratio false 25 2) 4 zero [of_ratio false 3 2; of_ratio false 1 4; zero])
  = zero.
Proof.
  apply (cpu_freq_missing_is_zero no_freq_host); reflexivity.
Defined.

(** X14: [get_cpu_usage] returns a record with the core count psutil
    gave, whenever the percentage, the count and the frequency queries
    answer, the count is a number, every float answered is a binary64
    value, and the load-average query either answers or raises
    [AttributeError] or [OSError]. *)
Theorem get_cpu_usage_returns {datetime : Type} (host : Host datetime)
    (percent : float) (count : Z) (freq : option scpufreq) :
  psutil_cpu_percent host = Return percent ->
  psutil_cpu_count host = Return (Some count) ->
  psutil_cpu_freq host = Return freq ->
  is_binary64 percent = true ->
  (forall f, freq = Some f -> is_binary64 (freq_current f) = true) ->
  (forall a b c, psutil_getloadavg host = Return (a, b, c) ->
     is_binary64 a = true /\ is_binary64 b = true /\ is_binary64 c = true) ->
  (forall e, psutil_getloadavg host = Raise e ->
     is_AttributeError (exc_type e) || is_OSError (exc_type e) = true) ->
  exists r, get_cpu_usage host = Return r /\ CPUInfo.cpu_count r = count.
Proof.
  intros Hp Hc Hf Vp Vf Vl Ve. unfold get_cpu_usage. rewrite Hp, Hc, Hf. cbn [bind].
  assert (Hl : exists l, load_avg_or_zeros host = Return l
                         /\ Forall (fun x => is_binary64 x = true) l).
  { unfold load_avg_or_zeros.
    destruct (psutil_getloadavg host) as [[[a b] c] | e] eqn:E; cbn [bind try_except].
    - destruct (Vl a b c eq_refl) as (Va & Vb & Vc).
      eexists. split; [reflexivity |]. repeat constructor; assumption.
    - rewrite (Ve e eq_refl). eexists. split; [reflexivity |].
      repeat constructor. }
  destruct Hl as (l & -> & Hl). cbn [bind].
  destruct (float_round_binary64 percent 1 Vp ltac:(lia)) as [pr ->]. cbn [bind].
  assert (Vcur : is_binary64 (match freq with
                              | Some f => freq_current f
                              | None => zero
                              end) = true).
  { destruct freq as [f |]; [now apply Vf | reflexivity]. }
  destruct (float_round_binary64 _ 1 Vcur ltac:(lia)) as [fr ->]. cbn [bind].
  destruct (map_float_round_returns l Hl) as [loads ->]. cbn [bind].
  eexists. split; reflexivity.
Qed.

Lemma get_cpu_usage_returns_witness :
  exists r, get_cpu_usage no_freq_host = Return r /\ CPUInfo.cpu_count r = 4.
Proof.
  apply (get_cpu_usage_returns no_freq_host (of_ratio false 25 2) 4 None);
    try reflexivity.
  - intros f H. discriminate H.
  - intros a b c H. injection H as <- <- <-. repeat split.
  - intros e H. discriminate H.
Defined.

(** ** Disk snapshot *)

(** X15: when psutil reports a disk of total size 0,
    [get_disk_usage] raises [ZeroDivisionError] (the gigabyte fields are
    computed first and succeed; the percentage divides by the total). *)
Theorem empty_disk_is_a_division_by_zero {datetime : Type}
    (host : Host datetime) (du : sdiskusage) :
  psutil_disk_usage host = Return du ->
  du_total du = 0 ->
  0 <= du_used du < 2 ^ 53 ->
  0 <= du_free du < 2 ^ 53 ->
  get_disk_usage host = Raise (mk_exn ZeroDivisionError "division by zero").
Proof.
  intros Hdu Ht Hu Hf. unfold get_disk_usage. rewrite Hdu. cbn [bind].
  rewrite Ht. rewrite !bytes_to_gb_exact by lia. cbn [bind]. reflexivity.
Qed.

Lemma empty_disk_is_a_division_by_zero_witness :
  get_disk_usage empty_disk_host = Raise (mk_exn ZeroDivisionError "division by zero").
Proof.
  apply (empty_disk_is_a_division_by_zero empty_disk_host (mk_sdiskusage 0 0 0));
    first [reflexivity | cbn; lia].
Defined.

(** X16: [get_disk_usage] returns a record whenever psutil answers
    with a total from 1 to below [2^53] bytes and used and free counts
    from 0 to below [2^53]: the gigabyte fields are the exact quotients
    rounded once, and no rounding step of the percentage overflows,
    whatever the ratio of used to total. *)
Theorem get_disk_usage_returns {datetime : Type} (host : Host datetime) (du : sdiskusage) :
  psutil_disk_usage host = Return du ->
  0 < du_total du < 2 ^ 53 ->
  0 <= du_used du < 2 ^ 53 ->
  0 <= du_free du < 2 ^ 53 ->
  exists percent,
    get_disk_usage host
    = Return (DiskInfo.mk (gigabytes_exact (du_total du)) (gigabytes_exact (du_used du))
                (gigabytes_exact (du_free du)) percent).
Proof.
  intros Hdu Ht Hu Hf. unfold get_disk_usage. rewrite Hdu. cbn [bind].
  rewrite !bytes_to_gb_exact by lia. cbn [bind].
  assert (Hpc : returns (ratio <- int_truediv (du_used du) (du_total du) ;;
                         float_round (fmul ratio (of_Z 100)) 1)).
  { destruct (du_total du) as [| t | t]; [lia | | lia].
    destruct (du_used du) as [| u | u]; [apply returns_Return | | lia].
    unfold int_truediv. cbn [Z.abs Z.to_pos Z.ltb Z.compare].
    change (fdiv (S754_finite false u 0) (S754_finite false t 0))
      with (of_ratio false u t).
    pose proof (percent_of_ratio_moderate u t ltac:(lia) ltac:(lia)) as Hmod.
    pose proof (of_ratio_finite false u t ltac:(apply Z.lt_trans with (2 ^ 53);
      [lia | reflexivity]) ltac:(apply Z.lt_trans with (2 ^ 53);
      [lia | reflexivity])) as Hfin.
    destruct (of_ratio false u t) as [sq | sq | | sq mq eq] eqn:Eq;
      [| exfalso; eapply Hfin; reflexivity | |]; cbn [bind].
    - apply returns_Return.
    - apply returns_Return.
    - destruct (fmul (S754_finite sq mq eq) (of_Z 100)) as [| | | s m e];
        try apply returns_Return.
      apply float_round_moderate; [lia | exact Hmod]. }
  destruct Hpc as [pc Hpc].
  destruct (int_truediv (du_used du) (du_total du)) as [ratio | e]; [| discriminate].
  cbn [bind] in Hpc |- *. rewrite Hpc. cbn [bind]. exists pc. reflexivity.
Qed.

Lemma get_disk_usage_returns_witness :
  exists percent,
    get_disk_usage fixture_host
    = Return (DiskInfo.mk (gigabytes_exact (2 ^ 30)) (gigabytes_exact 5000000)
                (gigabytes_exact (2 ^ 30 - 5000000)) percent).
Proof.
  apply (get_disk_usage_returns fixture_host
           (mk_sdiskusage (2 ^ 30) 5000000 (2 ^ 30 - 5000000)));
    first [reflexivity | cbn; lia].
Defined.

Lemma int_truediv_same (n : Z) : 0 < n -> int_truediv n n = Return one.
Proof.
  intros Hn. destruct n as [| p | p]; try lia.
  unfold int_truediv. cbn [Z.abs Z.to_pos Z.ltb Z.compare].
  change (fdiv (S754_finite false p 0) (S754_finite false p 0)) with (of_ratio false p p).
  replace (of_ratio false p p) with (of_ratio false (1 * p) p) by now rewrite Pos.mul_1_l.
  rewrite of_ratio_multiple by reflexivity. reflexivity.
Qed.

(** X17: the two ends of the disk percentage are exact.  With a
    total from 1 to below [2^53] bytes, [get_disk_usage] reports
    [0.0] per cent when nothing is used and [100.0] per cent when the
    used bytes equal the total. *)
Theorem disk_percentage_endpoints {datetime : Type}
    (host : Host datetime) (du : sdiskusage) :
  psutil_disk_usage host = Return du ->
  0 < du_total du < 2 ^ 53 ->
  0 <= du_free du < 2 ^ 53 ->
  (du_used du = 0 ->
   exists r, get_disk_usage host = Return r /\ DiskInfo.percentage_used r = zero)
  /\ (du_used du = du_total du ->
      exists r, get_disk_usage host = Return r /\ DiskInfo.percentage_used r = of_Z 100).
Proof.
  intros Hdu Ht Hf. unfold get_disk_usage. rewrite Hdu. cbn [bind]. split; intros Hu.
  - rewrite Hu. rewrite !bytes_to_gb_exact by lia. cbn [bind].
    destruct (du_total du) as [| t | t]; try lia.
    cbn [int_truediv bind]. eexists. split; reflexivity.
  - rewrite Hu. rewrite !bytes_to_gb_exact by lia. cbn [bind].
    rewrite int_truediv_same by lia. cbn [bind].
    eexists. split; reflexivity.
Qed.

Lemma disk_percentage_endpoints_witness :
  exists r, get_disk_usage full_disk_host = Return r
            /\ DiskInfo.percentage_used r = of_Z 100.
Proof.
  apply (proj2 (disk_percentage_endpoints full_disk_host
                  (mk_sdiskusage (2 ^ 31) (2 ^ 31) 0) eq_refl
                  ltac:(cbn; lia) ltac:(cbn; lia)));
    reflexivity.
Defined.

(** ** Order of the collectors *)

(** X18: the four collectors of [get_system_info] run in the order
    time, memory, CPU, disk, and the error of the first one that fails
    is the error of [get_system_info], whatever the later ones would
    do. *)
Theorem get_system_info_first_failure {datetime : Type}
    (astimezone_kolkata : datetime -> result datetime)
    (strftime : datetime -> result string)
    (timestamp : datetime -> result float)
    (host : Host datetime) (e : exn) :
  let time := get_current_time astimezone_kolkata strftime timestamp host in
  let info := get_system_info astimezone_kolkata strftime timestamp host in
  (time = Raise e -> info = Raise e)
  /\ (returns time -> get_memory_usage host = Raise e -> info = Raise e)
  /\ (returns time -> returns (get_memory_usage host) ->
      get_cpu_usage host = Raise e -> info = Raise e)
  /\ (returns time -> returns (get_memory_usage host) ->
      returns (get_cpu_usage host) ->
      get_disk_usage host = Raise e -> info = Raise e).
Proof.
  intros time info. subst time info. unfold get_system_info. repeat split.
  - intros ->. reflexivity.
  - intros [a ->] ->. reflexivity.
  - intros [a ->] [b ->] ->. reflexivity.
  - intros [a ->] [b ->] [c ->] ->. reflexivity.
Qed.

Lemma get_system_info_first_failure_witness :
  get_system_info fixture_astimezone fixture_strftime fixture_timestamp broken_cpu_host
  = Raise (mk_exn OSError "cannot sample the CPU").
Proof.
  apply (proj1 (proj2 (proj2 (get_system_info_first_failure fixture_astimezone
                  fixture_strftime fixture_timestamp broken_cpu_host
                  (mk_exn OSError "cannot sample the CPU"))))).
  - eexists. reflexivity.
  - eexists. reflexivity.
  - reflexivity.
Defined.

(** ** Uptime: bounds and undefined clocks *)

(** X19: for an elapsed time that is not negative, of integer part
    [T] below [2^53] seconds, the three numbers of the uptime text
    satisfy [0 <= hours < 24], [0 <= minutes < 60], and
    [86400 * D + 3600 * H + 60 * M <= T < 86400 * D + 3600 * H + 60 * M + 60]:
    they are the elapsed time with the seconds dropped. *)
Theorem uptime_fields_recompose {datetime : Type} (host : Host datetime)
    (boot now : float) (T : Z) :
  psutil_boot_time host = Return boot ->
  datetime_now_timestamp host = Return now ->
  nonneg_finite (fsub now boot) = true ->
  int_of_float (fsub now boot) = Return T ->
  T < 2 ^ 53 ->
  exists D H M,
    get_system_uptime host
    = Return ("System uptime: " ++ str_of_int D ++ " days, "
                ++ str_of_int H ++ " hours, " ++ str_of_int M ++ " minutes")
    /\ 0 <= D /\ 0 <= H < 24 /\ 0 <= M < 60
    /\ 86400 * D + 3600 * H + 60 * M <= T < 86400 * D + 3600 * H + 60 * M + 60.
Proof.
  intros Hb Hn Hfin Hint HT.
  exists (T / 86400), (T mod 86400 / 3600), (T mod 3600 / 60).
  split.
  { unfold get_system_uptime.
    now rewrite (uptime_body_exact host boot now T Hb Hn Hfin Hint HT). }
  assert (HT0 : 0 <= T).
  { destruct (nonneg_finite_holds _ Hfin) as [w Hw].
    rewrite (int_of_float_holds _ _ Hw) in Hint.
    assert (HTw : w / 2 ^ 1074 = T) by congruence.
    rewrite <- HTw. apply Z.div_pos; [exact (holds_nonneg _ _ Hw) |].
    apply Z.pow_pos_nonneg; lia. }
  clear - HT0. Z.div_mod_to_equations. lia.
Qed.

Lemma uptime_fields_recompose_witness :
  exists D H M,
    get_system_uptime fixture_host
    = Return ("System uptime: " ++ str_of_int D ++ " days, "
                ++ str_of_int H ++ " hours, " ++ str_of_int M ++ " minutes")
    /\ 0 <= D /\ 0 <= H < 24 /\ 0 <= M < 60
    /\ 86400 * D + 3600 * H + 60 * M <= 90061 < 86400 * D + 3600 * H + 60 * M + 60.
Proof.
  apply (uptime_fields_recompose fixture_host (of_Z 1700000000) (of_Z 1700090061) 90061);
    reflexivity.
Defined.

(** Below zero the bounds of the hours and of the minutes fail: when
    the clock was read [1e-20] seconds before the start, the remainders
    of the elapsed time round up to a full day and a full hour. *)
Remark uptime_of_a_clock_read_too_early :
  get_system_uptime early_clock_host
  = Return "System uptime: -1 days, 24 hours, 60 minutes".
Proof. reflexivity. Qed.

(** X20: when the elapsed time [now - boot] is NaN or infinite,
    [get_system_uptime] returns the text
    [Unable to get uptime: cannot convert float NaN to integer]. *)
Theorem uptime_of_undefined_elapsed_time {datetime : Type} (host : Host datetime)
    (boot now : float) :
  psutil_boot_time host = Return boot ->
  datetime_now_timestamp host = Return now ->
  (fsub now boot = S754_nan \/ exists s, fsub now boot = S754_infinity s) ->
  get_system_uptime host
  = Return "Unable to get uptime: cannot convert float NaN to integer".
Proof.
  intros Hb Hn H. unfold get_system_uptime, uptime_body. rewrite Hb, Hn. cbn [bind].
  destruct H as [-> | [[|] ->]]; reflexivity.
Qed.

Lemma uptime_of_undefined_elapsed_time_witness :
  get_system_uptime empty_disk_host
  = Return "Unable to get uptime: cannot convert float NaN to integer".
Proof.
  apply (uptime_of_undefined_elapsed_time empty_disk_host (of_Z 1700000000) S754_nan);
    try reflexivity.
  left. reflexivity.
Defined.

(** ** Platform text and greeting *)

Lemma splitlines_line_app (l rest : string) :
  no_linebreak l = true ->
  splitlines (l ++ String LF rest) = l :: splitlines rest.
Proof.
  induction l as [| c l IH]; intros H.
  - reflexivity.
  - cbn [no_linebreak] in H. apply andb_prop in H as [Hc Hl].
    apply negb_true_iff in Hc. cbn [append splitlines]. rewrite Hc, (IH Hl).
    reflexivity.
Qed.

Lemma splitlines_one_line (l : string) :
  no_linebreak l = true -> nonempty l = true -> splitlines l = [l].
Proof.
  induction l as [| c l IH]; intros H Hne; [discriminate |].
  cbn [no_linebreak] in H. apply andb_prop in H as [Hc Hl].
  apply negb_true_iff in Hc. cbn [splitlines]. rewrite Hc.
  destruct l as [| c' l']; [reflexivity |].
  rewrite (IH Hl eq_refl). reflexivity.
Qed.

Lemma splitlines_join (lines : list string) :
  Forall (fun l => no_linebreak l = true /\ nonempty l = true) lines ->
  splitlines (join newline lines) = lines.
Proof.
  induction 1 as [| l rest [Hl Hne] Hrest IH]; [reflexivity |].
  destruct rest as [| l' rest'].
  - now apply splitlines_one_line.
  - change (join newline (l :: l' :: rest'))
      with (l ++ String LF (join newline (l' :: rest'))).
    rewrite splitlines_line_app by exact Hl. now rewrite IH.
Qed.

Lemma no_linebreak_app (a b : string) :
  no_linebreak (a ++ b) = no_linebreak a && no_linebreak b.
Proof.
  induction a as [| c a IH]; [reflexivity |].
  cbn [append no_linebreak]. now rewrite IH, andb_assoc.
Qed.

(** X21: when no platform value contains a line boundary, the text
    of [get_platform_info] splits into exactly six lines, one per key in
    the order System, Platform, Machine, Processor, Python Version,
    Hostname, each the key, a colon, a space and the value. *)
Theorem platform_text_has_one_line_per_key {datetime : Type} (host : Host datetime) :
  (forall key value,
      In (key, value) (platform_info_dict host) -> no_linebreak value = true) ->
  splitlines (get_platform_info host)
  = [ "System: " ++ platform_system _ host;
      "Platform: " ++ platform_platform _ host;
      "Machine: " ++ platform_machine _ host;
      "Processor: " ++ platform_processor _ host;
      "Python Version: " ++ platform_python_version _ host;
      "Hostname: " ++ platform_node _ host ].
Proof.
  intros H. unfold get_platform_info, platform_info_dict. cbn [map fst snd].
  rewrite splitlines_join; [reflexivity |].
  unfold platform_info_dict in H.
  repeat (apply Forall_cons;
    [split; [| reflexivity];
     rewrite !no_linebreak_app;
     repeat (apply andb_true_intro; split); try reflexivity;
     eapply H; cbn [In]; eauto 8 |]).
  apply Forall_nil.
Qed.

Lemma platform_text_has_one_line_per_key_witness :
  splitlines (get_platform_info fixture_host)
  = [ "System: Windows"; "Platform: Windows-10"; "Machine: AMD64";
      "Processor: Intel64"; "Python Version: 3.12.0"; "Hostname: host" ].
Proof.
  apply (platform_text_has_one_line_per_key fixture_host).
  intros key value H. cbn in H.
  repeat match type of H with
         | _ \/ _ => destruct H as [H | H]
         end;
    first [contradiction | injection H as _ <-; reflexivity].
Defined.

Lemma length_app_string (a b : string) :
  String.length (a ++ b) = (String.length a + String.length b)%nat.
Proof. induction a as [| x a IH]; cbn; [reflexivity | now rewrite IH]. Qed.

Lemma app_inv_tail_string (a b t : string) : a ++ t = b ++ t -> a = b.
Proof.
  revert b. induction a as [| x a IH]; intros [| y b] H.
  - reflexivity.
  - exfalso. assert (L : String.length t = String.length (String y b ++ t)) by now rewrite <- H.
    rewrite length_app_string in L. cbn in L. lia.
  - exfalso. assert (L : String.length (String x a ++ t) = String.length t) by now rewrite H.
    rewrite length_app_string in L. cbn in L. lia.
  - cbn [append] in H. injection H as -> H. f_equal. now apply IH.
Qed.

Lemma app_inv_head_string (h a b : string) : h ++ a = h ++ b -> a = b.
Proof.
  induction h as [| x h IH]; cbn [append]; intros H; [exact H |].
  injection H as H. now apply IH.
Qed.

(** X22: the greeting determines the name: two names with the same
    greeting are equal. *)
Theorem greeting_names_its_reader (name other : string) :
  get_greeting name = get_greeting other -> name = other.
Proof.
  unfold get_greeting. intros H.
  apply app_inv_head_string in H. now apply app_inv_tail_string in H.
Qed.

Lemma greeting_names_its_reader_witness : "Ada" = "Ada".
Proof.
  apply (greeting_names_its_reader "Ada" "Ada"). reflexivity.
Defined.
